(** * SC6109 / testDev: typed-data digest, ethSign wrap and order pipeline

    A shallow embedding of [testDev/test1.py] and [testDev/tryTx.py].

    The two scripts are thin compositions of library calls
    ([eth_utils.keccak], [eth_account.messages.encode_typed_data],
    [Account._sign_hash], [json.dumps], [requests.post]).  The scripts'
    own code is embedded function by function; the library calls are
    embedded next to them, each under a comment naming the library
    function it stands for.  The hash and the signer are section
    variables in the scripts (the statements that hold for any hash and
    any signer) and executable definitions besides (Keccak-256, and
    ECDSA on secp256k1 with the RFC 6979 nonce, on [bigZ] so that it
    runs, for the evaluations at the scripts' pinned inputs).  [HexBytes.hex()] is the one of
    hexbytes 1.x, which writes no prefix: both scripts add ["0x"]
    themselves wherever they need it.

    The file has two parts: the definitions, then the facts. *)

From Stdlib Require Import String Ascii List ZArith NArith Bool Lia.
From Stdlib.Strings Require Import Byte.
From Bignums Require Import BigZ.
Import ListNotations.

Set Warnings "-register-all".

Local Open Scope list_scope.

(** Python [bytes] objects. *)
Definition bytes := list byte.

(* ===================================================================== *)
(** ** Bytes, big-endian integers and hex text                            *)
(* ===================================================================== *)

Module Bytes.

Definition byte_of_N (n : N) : byte :=
  match Byte.of_N (n mod 256) with
  | Some b => b
  | None => x00
  end.

(** Python [str.encode("utf-8")] on text already held as UTF-8 code units. *)
Definition of_text (s : string) : bytes := list_byte_of_string s.

Definition to_text (b : bytes) : string := string_of_list_byte b.

(** Little-endian value of a byte string. *)
Fixpoint le_to_N (b : bytes) : N :=
  match b with
  | [] => 0
  | x :: r => (Byte.to_N x + 256 * le_to_N r)%N
  end.

(** The [k] low bytes of [n], least significant first. *)
Fixpoint N_to_le (k : nat) (n : N) : bytes :=
  match k with
  | O => []
  | S k' => byte_of_N n :: N_to_le k' (n / 256)%N
  end.

(** [int.from_bytes(b, "big")]. *)
Definition be_to_N (b : bytes) : N := le_to_N (rev b).

(** [n.to_bytes(k, "big")] for [n < 256 ^ k]. *)
Definition N_to_be (k : nat) (n : N) : bytes := rev (N_to_le k n).

Definition hex_digit (n : N) : ascii :=
  ascii_of_N (if (n <? 10)%N then 48 + n else 87 + n)%N.

(** [bytes.hex()]: two lower-case digits per byte, no prefix. *)
Fixpoint hex (b : bytes) : string :=
  match b with
  | [] => EmptyString
  | x :: r =>
      let n := Byte.to_N x in
      String (hex_digit (n / 16)) (String (hex_digit (n mod 16)) (hex r))
  end.

(** Value of one hexadecimal digit, either case. *)
Definition hex_val (c : ascii) : option N :=
  let n := N_of_ascii c in
  if ((48 <=? n) && (n <=? 57))%N then Some (n - 48)%N
  else if ((97 <=? n) && (n <=? 102))%N then Some (n - 87)%N
  else if ((65 <=? n) && (n <=? 70))%N then Some (n - 55)%N
  else None.

Fixpoint is_hex_digits (s : string) : bool :=
  match s with
  | EmptyString => true
  | String c r =>
      match hex_val c with
      | Some _ => is_hex_digits r
      | None => false
      end
  end.

(** Pairs of hex digits to bytes; [None] on an odd count or a non-digit. *)
Fixpoint unhex (s : string) : option bytes :=
  match s with
  | EmptyString => Some []
  | String _ EmptyString => None
  | String c1 (String c2 r) =>
      match hex_val c1, hex_val c2, unhex r with
      | Some h, Some l, Some t => Some (byte_of_N (16 * h + l) :: t)
      | _, _, _ => None
      end
  end.

End Bytes.

(* ===================================================================== *)
(** ** Keccak-256 ([eth_utils.keccak], [Web3.keccak])                     *)
(* ===================================================================== *)

(** The original Keccak submission with capacity 512 and the [0x01]
    domain byte (not the [0x06] of SHA3-256): lanes are 64-bit words held
    in [N], the 5x5 state is a list of 25 lanes indexed [x + 5 * y]. *)
Module Keccak.

Local Open Scope N_scope.

Definition mask64 : N := 0xFFFFFFFFFFFFFFFF.

Definition rotl64 (x n : N) : N :=
  N.lor (N.land (N.shiftl x n) mask64) (N.shiftr x (64 - n)).

Definition not64 (x : N) : N := N.lxor x mask64.

Definition round_constants : list N :=
  [ 0x0000000000000001; 0x0000000000008082; 0x800000000000808A;
    0x8000000080008000; 0x000000000000808B; 0x0000000080000001;
    0x8000000080008081; 0x8000000000008009; 0x000000000000008A;
    0x0000000000000088; 0x0000000080008009; 0x000000008000000A;
    0x000000008000808B; 0x800000000000008B; 0x8000000000008089;
    0x8000000000008003; 0x8000000000008002; 0x8000000000000080;
    0x000000000000800A; 0x800000008000000A; 0x8000000080008081;
    0x8000000000008080; 0x0000000080000001; 0x8000000080008008 ].

(** Rotation offsets, at index [x + 5 * y]. *)
Definition rotation_offsets : list N :=
  [  0;  1; 62; 28; 27;
    36; 44;  6; 55; 20;
     3; 10; 43; 25; 39;
    41; 45; 15; 21;  8;
    18;  2; 61; 56; 14 ].

Definition lane (st : list N) (x y : nat) : N :=
  nth ((x mod 5) + 5 * (y mod 5))%nat st 0.

Definition positions : list nat := seq 0 25.

Definition theta (st : list N) : list N :=
  let c x :=
    N.lxor (lane st x 0)
      (N.lxor (lane st x 1)
         (N.lxor (lane st x 2) (N.lxor (lane st x 3) (lane st x 4)))) in
  let d x := N.lxor (c (x + 4)%nat) (rotl64 (c (x + 1)%nat) 1) in
  map (fun i => N.lxor (nth i st 0) (d (i mod 5)%nat)) positions.

(** rho and pi together: the lane at [(X, Y)] comes from [(X + 3Y, X)]. *)
Definition rho_pi (st : list N) : list N :=
  map (fun i =>
         let X := (i mod 5)%nat in
         let Y := (i / 5)%nat in
         let x := ((X + 3 * Y) mod 5)%nat in
         let src := (x + 5 * X)%nat in
         rotl64 (nth src st 0) (nth src rotation_offsets 0))
      positions.

Definition chi (st : list N) : list N :=
  map (fun i =>
         let x := (i mod 5)%nat in
         let y := (i / 5)%nat in
         N.lxor (lane st x y)
           (N.land (not64 (lane st (x + 1) y)) (lane st (x + 2) y)))
      positions.

Definition iota (rc : N) (st : list N) : list N :=
  match st with
  | [] => []
  | a :: r => N.lxor a rc :: r
  end.

Definition round (st : list N) (rc : N) : list N :=
  iota rc (chi (rho_pi (theta st))).

Definition keccak_f (st : list N) : list N :=
  fold_left round round_constants st.

(** Rate of Keccak-256 in bytes. *)
Definition rate : nat := 136.

(** The message followed by the multi-rate padding [0x01 0x00* 0x80]. *)
Definition pad (msg : bytes) : bytes :=
  let q := (rate - (length msg mod rate))%nat in
  match q with
  | 1%nat => msg ++ [x81]
  | _ => msg ++ [x01] ++ repeat x00 (q - 2) ++ [x80]
  end.

Fixpoint lanes_of (n : nat) (b : bytes) : list N :=
  match n with
  | O => []
  | S n' => Bytes.le_to_N (firstn 8 b) :: lanes_of n' (skipn 8 b)
  end.

Fixpoint xor_lanes (st blk : list N) : list N :=
  match st, blk with
  | a :: st', b :: blk' => N.lxor a b :: xor_lanes st' blk'
  | _, _ => st
  end.

(** Absorb [n] blocks of [rate] bytes. *)
Fixpoint absorb (n : nat) (st : list N) (b : bytes) : list N :=
  match n with
  | O => st
  | S n' =>
      absorb n' (keccak_f (xor_lanes st (lanes_of 17 (firstn rate b))))
        (skipn rate b)
  end.

Definition squeeze (st : list N) : bytes :=
  flat_map (Bytes.N_to_le 8) (firstn 4 st).

Definition keccak256 (msg : bytes) : bytes :=
  let p := pad msg in
  squeeze (absorb (length p / rate) (repeat 0 25) p).

End Keccak.

(* ===================================================================== *)
(** ** Python values, dictionaries and exceptions                         *)
(* ===================================================================== *)

(** The values the scripts handle: JSON documents ([None], booleans,
    integers, text, lists, objects) and [bytes].  A [dict] keeps its
    insertion order, as Python's does; floats do not occur in the fields
    the scripts read and are not modelled. *)
Inductive pyval : Type :=
| VNone
| VBool (b : bool)
| VInt (z : Z)
| VStr (s : string)
| VBytes (b : bytes)
| VList (l : list pyval)
| VDict (d : list (string * pyval)).

Definition pydict := list (string * pyval).

(** The exception classes the scripts can meet.  [JSONDecodeError] is a
    subclass of [ValueError]; eth_abi's [EncodingError] and eth_utils'
    [ValidationError] derive from [Exception] directly; [OtherException]
    is a bare [Exception]. *)
Inductive exn : Type :=
| KeyError
| TypeError
| ValueError
| JSONDecodeError
| AttributeError
| ValidationError
| EncodingError
| RequestException
| OtherException.

(** [isinstance(e, ValueError)]. *)
Definition is_ValueError (e : exn) : bool :=
  match e with
  | ValueError | JSONDecodeError => true
  | _ => false
  end.

Inductive result (A : Type) : Type :=
| Ok (a : A)
| Raise (e : exn).

Arguments Ok {A} a.
Arguments Raise {A} e.

Definition bind {A B : Type} (m : result A) (f : A -> result B) : result B :=
  match m with
  | Ok a => f a
  | Raise e => Raise e
  end.

(** The value of a result that is known not to raise. *)
Definition value_or {A : Type} (default : A) (r : result A) : A :=
  match r with
  | Ok a => a
  | Raise _ => default
  end.

Declare Scope py_scope.
Delimit Scope py_scope with py.
Notation "x <- m ;; k" := (bind m (fun x => k))
  (at level 61, m at next level, right associativity) : py_scope.

Module Dict.

(** [d.get(k)]. *)
Fixpoint get (d : pydict) (k : string) : option pyval :=
  match d with
  | [] => None
  | (k', v) :: r => if String.eqb k' k then Some v else get r k
  end.

(** [d[k] = v]: overwrite in place, or append a new last entry. *)
Fixpoint set (d : pydict) (k : string) (v : pyval) : pydict :=
  match d with
  | [] => [(k, v)]
  | (k', v') :: r =>
      if String.eqb k' k then (k', v) :: r else (k', v') :: set r k v
  end.

(** [list(d.keys())]. *)
Definition keys (d : pydict) : list string := map fst d.

End Dict.

(** [v[k]] with a text key: [KeyError] on a dict without the key,
    [TypeError] on anything that is not a dict. *)
Definition getitem (v : pyval) (k : string) : result pyval :=
  match v with
  | VDict d =>
      match Dict.get d k with
      | Some x => Ok x
      | None => Raise KeyError
      end
  | _ => Raise TypeError
  end.

(** [bool(v)]. *)
Definition truthy (v : pyval) : bool :=
  match v with
  | VNone => false
  | VBool b => b
  | VInt z => negb (Z.eqb z 0)
  | VStr s => negb (String.eqb s "")
  | VBytes b => match b with [] => false | _ => true end
  | VList l => match l with [] => false | _ => true end
  | VDict d => match d with [] => false | _ => true end
  end.

(* ===================================================================== *)
(** ** Text helpers: [int(str)], [str(int)], hex text, case                *)
(* ===================================================================== *)

Module Text.

Local Open Scope string_scope.

Definition is_digit (c : ascii) : bool :=
  let n := N_of_ascii c in ((48 <=? n) && (n <=? 57))%N.

Definition is_lower (c : ascii) : bool :=
  let n := N_of_ascii c in ((97 <=? n) && (n <=? 122))%N.

Definition is_upper (c : ascii) : bool :=
  let n := N_of_ascii c in ((65 <=? n) && (n <=? 90))%N.

(** [Py_ISSPACE]: the blanks that [int()] skips around a number, which
    are the space and the five controls from tab to carriage return. *)
Definition is_space (c : ascii) : bool :=
  let n := N_of_ascii c in
  (((9 <=? n) && (n <=? 13)) || (n =? 32))%N.

Definition lower_char (c : ascii) : ascii :=
  if is_upper c then ascii_of_N (N_of_ascii c + 32) else c.

Definition upper_char (c : ascii) : ascii :=
  if is_lower c then ascii_of_N (N_of_ascii c - 32) else c.

(** [s.lower()]. *)
Fixpoint lower (s : string) : string :=
  match s with
  | "" => ""
  | String c r => String (lower_char c) (lower r)
  end.

Fixpoint existsb (p : ascii -> bool) (s : string) : bool :=
  match s with
  | "" => false
  | String c r => p c || existsb p r
  end.

Fixpoint lstrip (s : string) : string :=
  match s with
  | String c r => if is_space c then lstrip r else s
  | "" => ""
  end.

Fixpoint rstrip (s : string) : string :=
  match s with
  | "" => ""
  | String c r =>
      match rstrip r with
      | "" => if is_space c then "" else String c ""
      | r' => String c r'
      end
  end.

(** Decimal digits with single underscores between them. *)
Fixpoint parse_digits (s : string) (acc : N) (after_digit : bool) : option N :=
  match s with
  | "" => if after_digit then Some acc else None
  | String c r =>
      if is_digit c then parse_digits r (10 * acc + (N_of_ascii c - 48))%N true
      else if Ascii.eqb c "_" && after_digit then parse_digits r acc false
      else None
  end.

Definition is_continuation (c : ascii) : bool :=
  let n := N_of_ascii c in ((128 <=? n) && (n <=? 191))%N.

(** The code points of text held as UTF-8 code units; [None] on bytes
    that are not the encoding of any text. *)
Fixpoint code_points (s : string) : option (list N) :=
  match s with
  | "" => Some []
  | String c r =>
      let b := N_of_ascii c in
      if (b <? 128)%N then option_map (cons b) (code_points r)
      else if (b <? 194)%N then None
      else if (b <? 224)%N then
        match r with
        | String c1 r1 =>
            if is_continuation c1
            then option_map (cons ((b - 192) * 64 + (N_of_ascii c1 - 128))%N)
                            (code_points r1)
            else None
        | _ => None
        end
      else if (b <? 240)%N then
        match r with
        | String c1 (String c2 r2) =>
            let b1 := N_of_ascii c1 in
            if is_continuation c1 && is_continuation c2
               && (if (b =? 224)%N then (160 <=? b1)%N else true)
               && (if (b =? 237)%N then (b1 <=? 159)%N else true)
            then option_map
                   (cons ((b - 224) * 4096 + (b1 - 128) * 64
                          + (N_of_ascii c2 - 128))%N)
                   (code_points r2)
            else None
        | _ => None
        end
      else if (b <? 245)%N then
        match r with
        | String c1 (String c2 (String c3 r3)) =>
            let b1 := N_of_ascii c1 in
            if is_continuation c1 && is_continuation c2 && is_continuation c3
               && (if (b =? 240)%N then (144 <=? b1)%N else true)
               && (if (b =? 244)%N then (b1 <=? 143)%N else true)
            then option_map
                   (cons ((b - 240) * 262144 + (b1 - 128) * 4096
                          + (N_of_ascii c2 - 128) * 64
                          + (N_of_ascii c3 - 128))%N)
                   (code_points r3)
            else None
        | _ => None
        end
      else None
  end.

(** The blanks of [str.isspace] beyond ASCII. *)
Definition unicode_spaces : list N :=
  [ 0x85; 0xA0; 0x1680; 0x2000; 0x2001; 0x2002; 0x2003; 0x2004; 0x2005;
    0x2006; 0x2007; 0x2008; 0x2009; 0x200A; 0x2028; 0x2029; 0x202F;
    0x205F; 0x3000 ]%N.

(** The digit zero of every script that has decimal digits (Unicode
    14.0, the tables of CPython 3.11); the nine digits that follow each
    are its digits one to nine. *)
Definition decimal_zeros : list N :=
  [ 0x0030; 0x0660; 0x06F0; 0x07C0; 0x0966; 0x09E6; 0x0A66; 0x0AE6;
    0x0B66; 0x0BE6; 0x0C66; 0x0CE6; 0x0D66; 0x0DE6; 0x0E50; 0x0ED0;
    0x0F20; 0x1040; 0x1090; 0x17E0; 0x1810; 0x1946; 0x19D0; 0x1A80;
    0x1A90; 0x1B50; 0x1BB0; 0x1C40; 0x1C50; 0xA620; 0xA8D0; 0xA900;
    0xA9D0; 0xA9F0; 0xAA50; 0xABF0; 0xFF10; 0x104A0; 0x10D30; 0x11066;
    0x110F0; 0x11136; 0x111D0; 0x112F0; 0x11450; 0x114D0; 0x11650; 0x116C0;
    0x11730; 0x118E0; 0x11950; 0x11C50; 0x11D50; 0x11DA0; 0x16A60; 0x16AC0;
    0x16B50; 0x1D7CE; 0x1D7D8; 0x1D7E2; 0x1D7EC; 0x1D7F6; 0x1E140; 0x1E2F0;
    0x1E950; 0x1FBF0 ]%N.

(** [Py_UNICODE_TODECIMAL]. *)
Definition decimal_value (cp : N) : option N :=
  match find (fun z => (z <=? cp) && (cp <? z + 10))%N decimal_zeros with
  | Some z => Some (cp - z)%N
  | None => None
  end.

(** What [int()] makes of text before it parses: a code point below 127
    stays, a blank beyond becomes a space, a decimal digit of any script
    becomes the ASCII digit; [None] where any other code point occurs,
    which [int()] refuses. *)
Fixpoint to_ascii_decimal (cps : list N) : option string :=
  match cps with
  | [] => Some ""
  | cp :: r =>
      if (cp <? 127)%N then option_map (String (ascii_of_N cp)) (to_ascii_decimal r)
      else if List.existsb (N.eqb cp) unicode_spaces
      then option_map (String " ") (to_ascii_decimal r)
      else
        match decimal_value cp with
        | Some d => option_map (String (ascii_of_N (48 + d))) (to_ascii_decimal r)
        | None => None
        end
  end.

Fixpoint count_digits (s : string) : nat :=
  match s with
  | "" => O
  | String c r => if is_digit c then S (count_digits r) else count_digits r
  end.

(** [sys.get_int_max_str_digits()], at its default. *)
Definition max_str_digits : nat := 4300.

(** [int(s)] on text: optional blanks around an optionally signed
    decimal literal of at most [max_str_digits] digits; [None] stands
    for the [ValueError]. *)
Definition int_of_text (s : string) : option Z :=
  match code_points s with
  | None => None
  | Some cps =>
      match to_ascii_decimal cps with
      | None => None
      | Some a =>
          if (max_str_digits <? count_digits a)%nat then None
          else
            match lstrip (rstrip a) with
            | String "-" r =>
                option_map (fun n => (- Z.of_N n)%Z) (parse_digits r 0 false)
            | String "+" r => option_map Z.of_N (parse_digits r 0 false)
            | r => option_map Z.of_N (parse_digits r 0 false)
            end
      end
  end.

Fixpoint digits_of (fuel : nat) (n : N) (acc : string) : string :=
  match fuel with
  | O => acc
  | S f =>
      let acc' := String (ascii_of_N (48 + n mod 10)) acc in
      if (n <? 10)%N then acc' else digits_of f (n / 10)%N acc'
  end.

(** [str(z)] in base ten. *)
Definition text_of_int (z : Z) : string :=
  let n := Z.abs_N z in
  let d := digits_of (S (N.to_nat (N.log2 n))) n "" in
  if (z <? 0)%Z then String "-" d else d.

(** [remove_0x_prefix]: drops a leading [0x] or [0X]. *)
Definition remove_0x_prefix (s : string) : string :=
  match s with
  | String "0" (String "x" r) => r
  | String "0" (String "X" r) => r
  | _ => s
  end.

(** [s.startswith("0x")]. *)
Definition has_0x_prefix (s : string) : bool :=
  match s with
  | String "0" (String "x" _) => true
  | _ => false
  end.

(** [is_hexstr]: an optional prefix followed by hex digits only. *)
Definition is_hexstr (s : string) : bool :=
  Bytes.is_hex_digits (remove_0x_prefix s).

(** [is_0x_prefixed_hexstr]. *)
Definition is_0x_prefixed_hexstr (s : string) : bool :=
  is_hexstr s && has_0x_prefix s.

(** [decode_hex]: the prefix is dropped and an odd digit count is
    completed by a leading zero. *)
Definition decode_hex (s : string) : option bytes :=
  let h := remove_0x_prefix s in
  if Nat.even (String.length h) then Bytes.unhex h
  else Bytes.unhex (String "0" h).

Fixpoint hex_value (s : string) (acc : N) : option N :=
  match s with
  | "" => Some acc
  | String c r =>
      match Bytes.hex_val c with
      | Some d => hex_value r (16 * acc + d)%N
      | None => None
      end
  end.

End Text.

(* ===================================================================== *)
(** ** The libraries the scripts call                                     *)
(* ===================================================================== *)

Local Open Scope string_scope.

(** A field of a typed-data schema: [{"name": ..., "type": ...}]. *)
Record field : Type := Field { fname : string; ftype : string }.

(** [typed_data["types"]]: type name to ordered field list. *)
Definition schema := list (string * list field).

(** The [full_message] argument of [encode_typed_data]. *)
Record typed_data : Type := TypedData {
  td_types : schema;
  td_primaryType : string;
  td_domain : pydict;
  td_message : pyval
}.

(** [eth_account.messages.SignableMessage]. *)
Record SignableMessage : Type := Signable {
  version : bytes;
  header : bytes;
  body : bytes
}.

Fixpoint join (sep : string) (l : list string) : string :=
  match l with
  | [] => ""
  | [x] => x
  | x :: r => x ++ sep ++ join sep r
  end.

Definition mem (k : string) (l : list string) : bool :=
  List.existsb (String.eqb k) l.

Fixpoint schema_get (t : schema) (k : string) : option (list field) :=
  match t with
  | [] => None
  | (k', fs) :: r => if String.eqb k' k then Some fs else schema_get r k
  end.

(** [types.pop(k, None)]. *)
Definition schema_pop (t : schema) (k : string) : schema :=
  filter (fun e => negb (String.eqb (fst e) k)) t.

Section Library.

Local Open Scope string_scope.
Local Open Scope py_scope.

(** [eth_utils.keccak]: Keccak-256 of a byte string. *)
Variable keccak : bytes -> bytes.

(** *** eth_utils: addresses *)

(** [is_hex_address]: forty hex digits after an optional prefix. *)
Definition is_hex_address (s : string) : bool :=
  let h := Text.remove_0x_prefix s in
  Nat.eqb (String.length h) 40 && Bytes.is_hex_digits h.

Fixpoint checksum_chars (addr hash : string) : string :=
  match addr, hash with
  | String a r, String h rh =>
      let up := match Bytes.hex_val h with
                | Some d => (7 <? d)%N
                | None => false
                end in
      String (if up then Text.upper_char a else a) (checksum_chars r rh)
  | _, _ => ""
  end.

(** [to_checksum_address] (EIP-55): a digit is upper-cased when the hash
    of the lower-case address has a nibble above seven at its place. *)
Definition to_checksum_address (value : string) : result string :=
  if is_hex_address value then
    let h := Text.lower (Text.remove_0x_prefix value) in
    Ok ("0x" ++ checksum_chars h (Bytes.hex (keccak (Bytes.of_text h))))
  else Raise ValueError.

(** [is_address]: hex text of forty digits, in any case and whatever
    checksum its case spells, or twenty raw bytes. *)
Definition is_address (v : pyval) : bool :=
  match v with
  | VStr s => is_hex_address s
  | VBytes b => Nat.eqb (length b) 20
  | _ => false
  end.

(** [to_canonical_address]: the twenty bytes of an address. *)
Definition to_canonical_address (v : pyval) : option bytes :=
  match v with
  | VStr s => Text.decode_hex s
  | VBytes b => Some b
  | _ => None
  end.

(** *** eth_abi: 32-byte words of the static types *)

Inductive abi_type : Type :=
| TAddress
| TBool
| TBytesN (n : N)
| TUint (bits : N)
| TInt (bits : N).

Definition strip_prefix (p s : string) : option string :=
  if String.prefix p s
  then Some (String.substring (String.length p) (String.length s - String.length p) s)
  else None.

Definition valid_bits (n : N) : bool :=
  ((8 <=? n) && (n <=? 256) && (n mod 8 =? 0))%N.

Definition parse_sized (p : string) (mk : N -> abi_type) (ok : N -> bool)
    (s : string) : option abi_type :=
  match strip_prefix p s with
  | Some d =>
      match Text.parse_digits d 0 false with
      | Some n => if ok n && negb (Text.existsb (Ascii.eqb "_") d)
                  then Some (mk n) else None
      | None => None
      end
  | None => None
  end.

Definition parse_type (s : string) : option abi_type :=
  if String.eqb s "address" then Some TAddress
  else if String.eqb s "bool" then Some TBool
  else
    match parse_sized "bytes" TBytesN (fun n => (1 <=? n) && (n <=? 32))%N s with
    | Some t => Some t
    | None =>
        match parse_sized "uint" TUint valid_bits s with
        | Some t => Some t
        | None => parse_sized "int" TInt valid_bits s
        end
    end.

Definition zpad32 (b : bytes) : bytes := (repeat x00 (32 - length b) ++ b)%list.

Definition zpad32_right (b : bytes) : bytes := (b ++ repeat x00 (32 - length b))%list.

(** [eth_abi.encode] of one static value.  A value of the wrong Python
    type ([EncodingTypeError]) or out of bounds ([ValueOutOfBounds]) is an
    [EncodingError]. *)
Definition abi_encode (type_ : string) (v : pyval) : result bytes :=
  match parse_type type_ with
  | None => Raise EncodingError
  | Some TAddress =>
      if is_address v then
        match to_canonical_address v with
        | Some b => Ok (zpad32 b)
        | None => Raise EncodingError
        end
      else Raise EncodingError
  | Some TBool =>
      match v with
      | VBool b => Ok (zpad32 [if b then x01 else x00])
      | _ => Raise EncodingError
      end
  | Some (TBytesN n) =>
      match v with
      | VBytes b =>
          if (N.of_nat (length b) <=? n)%N then Ok (zpad32_right b)
          else Raise EncodingError
      | _ => Raise EncodingError
      end
  | Some (TUint bits) =>
      match v with
      | VInt z =>
          if ((0 <=? z) && (z <? 2 ^ Z.of_N bits))%Z
          then Ok (Bytes.N_to_be 32 (Z.to_N z))
          else Raise EncodingError
      | _ => Raise EncodingError
      end
  | Some (TInt bits) =>
      match v with
      | VInt z =>
          if ((- 2 ^ (Z.of_N bits - 1) <=? z) && (z <? 2 ^ (Z.of_N bits - 1)))%Z
          then Ok (Bytes.N_to_be 32 (Z.to_N (z mod 2 ^ 256)))
          else Raise EncodingError
      | _ => Raise EncodingError
      end
  end.

(** *** eth_account: EIP-712 encoding *)

(** [to_bytes(n)] for a non-negative integer: big-endian, no leading
    zero byte, one zero byte for [0]. *)
Definition int_to_bytes (n : N) : bytes :=
  Bytes.N_to_be (Nat.max 1 (Nat.div (N.to_nat (N.size n) + 7) 8)) n.

(** The conversion [encode_field] applies to a value of a [bytes*] type. *)
Definition bytes_of_value (v : pyval) : result bytes :=
  match v with
  | VBytes b => Ok b
  | VStr s =>
      if Text.is_0x_prefixed_hexstr s then
        match Text.decode_hex s with
        | Some b => Ok b
        | None => Raise ValueError
        end
      else Ok (Bytes.of_text s)
  | VInt z => Ok (int_to_bytes (if (z <? 0)%Z then 0 else Z.to_N z))
  | VBool b => Ok [if b then x01 else x00]
  | _ => Raise TypeError
  end.

(** The texts that a [bool] field reads as [False]. *)
Definition falsy_values : list string := [ "False"; "false"; "0" ].

(** [encode_field(types, name, type_, value)], where [value] is
    [data.get(name)]: [None] for an absent key as for a [None] entry.
    The result is the ABI type and the value handed to [eth_abi.encode].
    A [bool] field is [False] for a falsy value and for the texts of
    [falsy_values], which are looked up in a set, so that a list or a
    dict that is not empty raises [TypeError]; it is [True] otherwise.
    Struct-typed and array-typed fields, which neither script declares,
    are not modelled and raise. *)
Definition encode_field (types : schema) (type_ : string) (value : option pyval)
    : result (string * pyval) :=
  let value := match value with
               | Some VNone => None
               | o => o
               end in
  if mem type_ (map fst types) then Raise ValueError
  else
    match value with
    | None =>
        if String.eqb type_ "string" || String.eqb type_ "bytes"
        then Ok ("bytes32", VBytes [])
        else Raise ValueError
    | Some v =>
        if String.eqb type_ "bool" then
          if negb (truthy v) then Ok (type_, VBool false)
          else
            match v with
            | VList _ | VDict _ => Raise TypeError
            | VStr s => Ok (type_, VBool (negb (mem s falsy_values)))
            | _ => Ok (type_, VBool true)
            end
        else if String.prefix "bytes" type_ then
          b <- bytes_of_value v ;;
          if String.eqb type_ "bytes" then Ok ("bytes32", VBytes (keccak b))
          else Ok (type_, VBytes b)
        else if String.eqb type_ "string" then
          match v with
          | VStr s => Ok ("bytes32", VBytes (keccak (Bytes.of_text s)))
          | VInt z =>
              if (z <? 0)%Z then Raise ValueError
              else Ok ("bytes32", VBytes (keccak (int_to_bytes (Z.to_N z))))
          | VBool b => Ok ("bytes32", VBytes (keccak [if b then x01 else x00]))
          | _ => Raise AttributeError
          end
        else
          match v with
          | VStr s =>
              if String.prefix "int" type_ || String.prefix "uint" type_ then
                if Text.is_0x_prefixed_hexstr s then
                  match Text.remove_0x_prefix s with
                  | "" => Raise ValueError
                  | h => match Text.hex_value h 0 with
                         | Some n => Ok (type_, VInt (Z.of_N n))
                         | None => Raise ValueError
                         end
                  end
                else
                  match Text.int_of_text s with
                  | Some z => Ok (type_, VInt z)
                  | None => Raise ValueError
                  end
              else Ok (type_, v)
          | _ => Ok (type_, v)
          end
    end.

(** [encode_type]: [Name(type1 name1,type2 name2,...)]; with atomic field
    types only there are no referenced types to append. *)
Definition encode_type (type_ : string) (fields : list field) : string :=
  type_ ++ "(" ++ join "," (map (fun f => ftype f ++ " " ++ fname f) fields) ++ ")".

(** [hash_type]. *)
Definition hash_type (type_ : string) (fields : list field) : bytes :=
  keccak (Bytes.of_text (encode_type type_ fields)).

(** The loop of [encode_data]: every field is looked up by its schema
    name, in schema order. *)
Fixpoint encode_fields (types : schema) (fields : list field) (data : pydict)
    : result (list (string * pyval)) :=
  match fields with
  | [] => Ok []
  | f :: r =>
      tv <- encode_field types (ftype f) (Dict.get data (fname f)) ;;
      rest <- encode_fields types r data ;;
      Ok (tv :: rest)
  end.

Fixpoint abi_encode_all (tvs : list (string * pyval)) : result bytes :=
  match tvs with
  | [] => Ok []
  | (t, v) :: r =>
      w <- abi_encode t v ;;
      rest <- abi_encode_all r ;;
      Ok (w ++ rest)%list
  end.

(** [encode_data(type_, types, data)]: the type hash, then one word per
    field. *)
Definition encode_data (type_ : string) (types : schema) (data : pyval)
    : result bytes :=
  match schema_get types type_ with
  | None => Raise KeyError
  | Some fields =>
      match data with
      | VDict d =>
          tvs <- encode_fields types fields d ;;
          words <- abi_encode_all tvs ;;
          Ok (hash_type type_ fields ++ words)%list
      | _ => Raise AttributeError
      end
  end.

(** [hash_struct]. *)
Definition hash_struct (type_ : string) (types : schema) (data : pyval)
    : result bytes :=
  e <- encode_data type_ types data ;; Ok (keccak e).

(** The five fields [hash_domain] recognises, in its fixed order. *)
Definition eip712_domain_map : list field :=
  [ Field "name" "string"; Field "version" "string";
    Field "chainId" "uint256"; Field "verifyingContract" "address";
    Field "salt" "bytes32" ].

(** [hash_domain]: the domain type is built from the keys present. *)
Definition hash_domain (domain_data : pydict) : result bytes :=
  if forallb (fun k => mem k (map fname eip712_domain_map)) (Dict.keys domain_data)
  then
    let domain_types :=
      [("EIP712Domain",
        filter (fun f => mem (fname f) (Dict.keys domain_data)) eip712_domain_map)] in
    hash_struct "EIP712Domain" domain_types (VDict domain_data)
  else Raise ValueError.

(** [get_primary_type]: the one type that no other type refers to. *)
Definition get_primary_type (types : schema) : result string :=
  let is_dep t :=
    List.existsb
      (fun e => negb (String.eqb (fst e) t)
                && List.existsb (fun f => String.eqb (ftype f) t) (snd e))
      types in
  match filter (fun t => negb (is_dep t)) (map fst types) with
  | [t] => Ok t
  | _ => Raise ValueError
  end.

(** [hash_eip712_message]. *)
Definition hash_eip712_message (types : schema) (data : pyval) : result bytes :=
  primary <- get_primary_type types ;;
  hash_struct primary types data.

Definition same_keys (a b : list string) : bool :=
  forallb (fun k => mem k b) a && forallb (fun k => mem k a) b.

(** [encode_typed_data(full_message=...)]: version byte [0x01], the
    domain hash as header, the hash of the primary struct as body. *)
Definition encode_typed_data (full_message : typed_data) : result SignableMessage :=
  let types := td_types full_message in
  let domain_ok :=
    match schema_get types "EIP712Domain" with
    | Some fs => same_keys (Dict.keys (td_domain full_message)) (map fname fs)
    | None => true
    end in
  if domain_ok then
    let message_types := schema_pop types "EIP712Domain" in
    derived <- get_primary_type message_types ;;
    if String.eqb derived (td_primaryType full_message) then
      h <- hash_domain (td_domain full_message) ;;
      b <- hash_eip712_message message_types (td_message full_message) ;;
      Ok (Signable [x01] h b)
    else Raise ValidationError
  else Raise ValidationError.

(** [_hash_eip191_message]: the hash that [Account.sign_message] signs
    for a signable message, [keccak(0x19 || version || header || body)]. *)
Definition hash_eip191_message (m : SignableMessage) : bytes :=
  keccak ([x19] ++ version m ++ header m ++ body m)%list.

End Library.

(* ===================================================================== *)
(** ** [json.dumps] with its default arguments                            *)
(* ===================================================================== *)

Module Json.

Local Open Scope string_scope.
Local Open Scope py_scope.

Definition dquote : ascii := "034"%char.
Definition backslash : ascii := "092"%char.

Definition hex4 (n : N) : string :=
  String (Bytes.hex_digit (n / 4096 mod 16))
    (String (Bytes.hex_digit (n / 256 mod 16))
       (String (Bytes.hex_digit (n / 16 mod 16))
          (String (Bytes.hex_digit (n mod 16)) ""))).

(** One character of a string literal under [ensure_ascii=True]: the
    quote and the backslash are escaped, everything outside [' '..'~']
    becomes a short escape or [\uXXXX].  Text is taken to be ASCII. *)
Definition escape_char (c : ascii) : string :=
  let n := N_of_ascii c in
  if (n =? 34)%N then String backslash (String dquote "")
  else if (n =? 92)%N then String backslash (String backslash "")
  else if (n =? 10)%N then String backslash "n"
  else if (n =? 13)%N then String backslash "r"
  else if (n =? 9)%N then String backslash "t"
  else if (n =? 12)%N then String backslash "f"
  else if (n =? 8)%N then String backslash "b"
  else if ((32 <=? n) && (n <=? 126))%N then String c ""
  else String backslash ("u" ++ hex4 n).

Fixpoint escape (s : string) : string :=
  match s with
  | "" => ""
  | String c r => escape_char c ++ escape r
  end.

(** A JSON string literal. *)
Definition quoted (s : string) : string :=
  String dquote (escape s ++ String dquote "").

(** [json.dumps(v, separators=(item_sep, key_sep))]: keys in the dict's
    own (insertion) order; [bytes] are not serialisable. *)
Fixpoint dumps_with (item_sep key_sep : string) (v : pyval) : result string :=
  match v with
  | VNone => Ok "null"
  | VBool b => Ok (if b then "true" else "false")
  | VInt z => Ok (Text.text_of_int z)
  | VStr s => Ok (quoted s)
  | VBytes _ => Raise TypeError
  | VList l =>
      let fix items (l : list pyval) : result (list string) :=
        match l with
        | [] => Ok []
        | x :: r =>
            s <- dumps_with item_sep key_sep x ;; t <- items r ;; Ok (s :: t)
        end in
      parts <- items l ;; Ok ("[" ++ join item_sep parts ++ "]")
  | VDict d =>
      let fix members (d : list (string * pyval)) : result (list string) :=
        match d with
        | [] => Ok []
        | (k, x) :: r =>
            s <- dumps_with item_sep key_sep x ;;
            t <- members r ;;
            Ok ((quoted k ++ key_sep ++ s) :: t)
        end in
      parts <- members d ;; Ok ("{" ++ join item_sep parts ++ "}")
  end.

(** [json.dumps(v)]: the default separators are [", "] and [": "]. *)
Definition dumps (v : pyval) : result string := dumps_with ", " ": " v.

(** The encoding without any blank, [separators=(",", ":")], which is
    what the specification calls canonical; the scripts never ask for
    it. *)
Definition dumps_compact (v : pyval) : result string := dumps_with "," ":" v.

End Json.

(** The 28 bytes [b"\x19Ethereum Signed Message:\n32"] that both scripts
    put in front of the digest. *)
Definition eth_sign_prefix : bytes :=
  ([x19] ++ Bytes.of_text "Ethereum Signed Message:" ++ [x0a] ++ Bytes.of_text "32")%list.

(** [HexBytes(s)] on hex text. *)
Definition HexBytes (s : string) : result bytes :=
  match Text.decode_hex s with
  | Some b => Ok b
  | None => Raise ValueError
  end.

(** The [types] entry both scripts write out. *)
Definition order_types : schema :=
  [ ("EIP712Domain",
     [ Field "name" "string"; Field "version" "string";
       Field "chainId" "uint256"; Field "verifyingContract" "address" ]);
    ("Order",
     [ Field "sellToken" "address"; Field "buyToken" "address";
       Field "sellAmount" "uint256"; Field "buyAmount" "uint256";
       Field "validTo" "uint32"; Field "appData" "bytes32";
       Field "feeAmount" "uint256"; Field "kind" "bytes32";
       Field "partiallyFillable" "bool"; Field "sellTokenBalance" "bytes32";
       Field "buyTokenBalance" "bytes32"; Field "receiver" "address" ]) ].

(* ===================================================================== *)
(** ** testDev/test1.py                                                   *)
(* ===================================================================== *)

Module Test1.
Section Script.

Local Open Scope string_scope.
Local Open Scope py_scope.

Variable keccak : bytes -> bytes.

(** [Account._sign_hash(message_hash, private_key).signature]: the 65
    signature bytes, or the exception the signer raises. *)
Variable sign_hash : bytes -> string -> result bytes.

Definition PRIVATE_KEY : string :=
  "542667984ecd2ef899fca4e6e10fc28fcfb964c47d820009d1c1e45451e0523f".

Definition domain : pydict :=
  [ ("name", VStr "Gnosis Protocol");
    ("version", VStr "v2");
    ("chainId", VInt 11155111);
    ("verifyingContract", VStr "0x9008D19f58AAbD9eD0D60971565AA8510560ab41") ].

Definition order : result pydict :=
  sellToken <- to_checksum_address keccak "0xfff9976782d46cc05630d1f6ebab18b2324d6b14" ;;
  buyToken <- to_checksum_address keccak "0x0625afb445c3b6b7b929342a04a22599fd5dbb59" ;;
  appData <- HexBytes "0xc85ef7d79691fe79573b1a7064c19c1a9819ebdbd1faaab1a8ec92344438aaf4" ;;
  receiver <- to_checksum_address keccak "0x2f8A528EB0De3b43fD9Eb6f23D55C8D95fb7AF98" ;;
  Ok [ ("sellToken", VStr sellToken);
       ("buyToken", VStr buyToken);
       ("sellAmount", VInt 473107794665489160);
       ("buyAmount", VInt 164428962043613737416);
       ("validTo", VInt 1746436866);
       ("appData", VBytes appData);
       ("feeAmount", VInt 0);
       ("kind", VBytes (keccak (Bytes.of_text "sell")));
       ("partiallyFillable", VBool false);
       ("sellTokenBalance", VBytes (keccak (Bytes.of_text "erc20")));
       ("buyTokenBalance", VBytes (keccak (Bytes.of_text "erc20")));
       ("receiver", VStr receiver) ].

Definition typed_data : result typed_data :=
  o <- order ;;
  Ok (TypedData order_types "Order" domain (VDict o)).

Definition signable_message : result SignableMessage :=
  td <- typed_data ;; encode_typed_data keccak td.

(** [digest = HexBytes(signable_message.body)]. *)
Definition digest : result bytes :=
  m <- signable_message ;; Ok (body m).

Definition eth_sign_message : result bytes :=
  d <- digest ;; Ok (eth_sign_prefix ++ d)%list.

Definition eth_message_hash : result bytes :=
  m <- eth_sign_message ;; Ok (keccak m).

(** [signed.signature]; the [account] that the script builds from the
    key just before is not used. *)
Definition signed : result bytes :=
  h <- eth_message_hash ;; sign_hash h PRIVATE_KEY.

(** [signature = signed.signature.hex()]. *)
Definition signature : result string :=
  s <- signed ;; Ok (Bytes.hex s).

(** The two lines the script prints when it runs to its end. *)
Definition stdout : result (list string) :=
  d <- digest ;;
  s <- signature ;;
  Ok [ "Order digest: " ++ Bytes.hex d; "eth_sign signature: " ++ s ].

End Script.
End Test1.

(* ===================================================================== *)
(** ** testDev/tryTx.py                                                   *)
(* ===================================================================== *)

Module TryTx.

(** What the script reads of a [requests.Response]; [json] is the result
    of calling [.json()], which raises on a body that is not JSON. *)
Record response : Type := Response {
  status_code : Z;
  text : string;
  json : result pyval
}.

(** One [requests.post(url, json=payload)]. *)
Inductive event : Type :=
| Post (url : string) (payload : pyval).

(** The two remote services: the answer to a request may depend on all
    requests sent before it, and may be an exception of [requests]. *)
Definition service := list event -> string -> pyval -> result response.

(** Code with network effects: the requests sent so far are threaded
    through, and are kept when an exception is raised.  What the script
    prints on the console is left out. *)
Definition io (A : Type) : Type := list event -> result A * list event.

Definition io_ret {A : Type} (a : A) : io A := fun tr => (Ok a, tr).

Definition io_bind {A B : Type} (m : io A) (f : A -> io B) : io B :=
  fun tr =>
    match m tr with
    | (Ok a, tr') => f a tr'
    | (Raise e, tr') => (Raise e, tr')
    end.

Definition lift {A : Type} (r : result A) : io A := fun tr => (r, tr).

(** [try: m except ValueError: h]. *)
Definition try_except_ValueError {A : Type} (m h : io A) : io A :=
  fun tr =>
    match m tr with
    | (Raise e, tr') => if is_ValueError e then h tr' else (Raise e, tr')
    | r => r
    end.

Declare Scope io_scope.
Delimit Scope io_scope with io.
Notation "x <- m ;; k" := (io_bind m (fun x => k))
  (at level 61, m at next level, right associativity) : io_scope.

Definition quote_url : string := "https://api.cow.fi/sepolia/api/v1/quote".
Definition orders_url : string := "https://api.cow.fi/sepolia/api/v1/orders".

(** The module-level names computed by [to_checksum_address]. *)
Record globals : Type := Globals {
  ADDRESS : string;
  WETH : string;
  COW : string;
  COWSWAP_CONTRACT : string
}.

Section Script.

Variable keccak : bytes -> bytes.

(** [Account._sign_hash(message_hash, private_key).signature]: the 65
    signature bytes, or the exception the signer raises. *)
Variable sign_hash : bytes -> string -> result bytes.

Variable world : service.

Definition PRIVATE_KEY : string :=
  "542667984ecd2ef899fca4e6e10fc28fcfb964c47d820009d1c1e45451e0523f".

Definition module_globals : result globals :=
  (address <- to_checksum_address keccak "0x2f8A528EB0De3b43fD9Eb6f23D55C8D95fb7AF98" ;;
   weth <- to_checksum_address keccak "0xfff9976782d46cc05630d1f6ebab18b2324d6b14" ;;
   cow <- to_checksum_address keccak "0x0625aFB445C3B6B7B929342a04A22599fd5dBB59" ;;
   contract <- to_checksum_address keccak "0x9008d19f58aabd9ed0d60971565aa8510560ab41" ;;
   Ok (Globals address weth cow contract))%py.

Variable g : globals.

Definition requests_post (url : string) (payload : pyval) : io response :=
  fun tr => (world tr url payload, (tr ++ [Post url payload])%list).

(** The body of the quote request; [str(Web3.to_wei(0.10, "ether"))] is
    the text [100000000000000000]. *)
Definition quote_request : pyval :=
  VDict [ ("sellToken", VStr (WETH g));
          ("buyToken", VStr (COW g));
          ("receiver", VStr (ADDRESS g));
          ("sellAmountBeforeFee", VStr "100000000000000000");
          ("kind", VStr "sell");
          ("partiallyFillable", VBool true);
          ("from", VStr (Text.lower (ADDRESS g))) ].

Definition get_order_quote : io pyval :=
  (quote_response <- requests_post quote_url quote_request ;;
   if (status_code quote_response =? 200)%Z then
     quote_data <- lift (json quote_response) ;;
     io_ret quote_data
   else io_ret VNone)%io.

Definition app_data : pyval :=
  VDict [ ("version", VStr "0.9.0"); ("metadata", VDict []) ].

(** [app_data_json = json.dumps(app_data)]. *)
Definition app_data_json : result string := Json.dumps app_data.

(** [app_data_hash = Web3.keccak(text=app_data_json).hex()]. *)
Definition app_data_hash : result string :=
  (j <- app_data_json ;; Ok (Bytes.hex (keccak (Bytes.of_text j))))%py.

(** [quote_data["quote"][k]]. *)
Definition quote_field (quote_data : pyval) (k : string) : result pyval :=
  (q <- getitem quote_data "quote" ;; getitem q k)%py.

Definition construct_order (quote_data : pyval) : result pydict :=
  (h <- app_data_hash ;;
   sellToken <- quote_field quote_data "sellToken" ;;
   buyToken <- quote_field quote_data "buyToken" ;;
   sellAmount <- quote_field quote_data "sellAmount" ;;
   buyAmount <- quote_field quote_data "buyAmount" ;;
   validTo <- quote_field quote_data "validTo" ;;
   feeAmount <- quote_field quote_data "feeAmount" ;;
   kind <- quote_field quote_data "kind" ;;
   partiallyFillable <- quote_field quote_data "partiallyFillable" ;;
   sellTokenBalance <- quote_field quote_data "sellTokenBalance" ;;
   buyTokenBalance <- quote_field quote_data "buyTokenBalance" ;;
   let order :=
     [ ("sellToken", sellToken);
       ("buyToken", buyToken);
       ("sellAmount", sellAmount);
       ("buyAmount", buyAmount);
       ("validTo", validTo);
       ("appData", VStr ("0x" ++ h));
       ("feeAmount", feeAmount);
       ("kind", kind);
       ("partiallyFillable", partiallyFillable);
       ("sellTokenBalance", sellTokenBalance);
       ("buyTokenBalance", buyTokenBalance) ] in
   receiver <- quote_field quote_data "receiver" ;;
   let order := Dict.set order "receiver" receiver in
   from <- getitem quote_data "from" ;;
   let order := Dict.set order "from" from in
   kind' <- quote_field quote_data "kind" ;;
   let order := Dict.set order "kind" kind' in
   signingScheme <- quote_field quote_data "signingScheme" ;;
   let order := Dict.set order "signingScheme" signingScheme in
   let order := Dict.set order "appDataHash" (VStr ("0x" ++ h)) in
   Ok order)%py.

Definition domain : pydict :=
  [ ("name", VStr "Gnosis Protocol");
    ("version", VStr "v2");
    ("chainId", VInt 11155111);
    ("verifyingContract", VStr (COWSWAP_CONTRACT g)) ].

Definition typed_data (order : pydict) : typed_data :=
  TypedData order_types "Order" domain (VDict order).

(** In [sign_order]: [digest = HexBytes(signable_message.body)]. *)
Definition digest (order : pydict) : result bytes :=
  (signable_message <- encode_typed_data keccak (typed_data order) ;;
   Ok (body signable_message))%py.

(** In [sign_order]: [eth_message_hash = keccak(eth_sign_message)]. *)
Definition eth_message_hash (order : pydict) : result bytes :=
  (d <- digest order ;; Ok (keccak (eth_sign_prefix ++ d)%list))%py.

Definition sign_order (order : pydict) : result string :=
  (h <- eth_message_hash order ;;
   signed <- sign_hash h PRIVATE_KEY ;;
   Ok (Bytes.hex signed))%py.

(** [submit_order] writes the signature into the caller's dict and
    posts that dict; the first component is the dict after the call. *)
Definition submit_order (order : pydict) (signature : string)
    : io (pydict * option response) :=
  let order := Dict.set order "signature" (VStr ("0x" ++ signature)) in
  (s <- lift (getitem (VDict order) "signature") ;;
   if truthy s then
     submit_response <- requests_post orders_url (VDict order) ;;
     io_ret (order, Some submit_response)
   else io_ret (order, None))%io.

Definition main : io unit :=
  (quote_data <- get_order_quote ;;
   if negb (truthy quote_data) then io_ret tt
   else
     order <- lift (construct_order quote_data) ;;
     try_except_ValueError
       (signature <- lift (sign_order order) ;;
        _ <- submit_order order signature ;;
        io_ret tt)
       (io_ret tt))%io.

End Script.

(** The script from its first line: the module-level names, then
    [main()]. *)
Definition script (keccak : bytes -> bytes)
    (sign_hash : bytes -> string -> result bytes) (world : service) : io unit :=
  (g <- lift (module_globals keccak) ;; main keccak sign_hash world g)%io.

End TryTx.

(* ===================================================================== *)
(** ** SHA-256 and HMAC ([hashlib.sha256], [hmac.new])                    *)
(* ===================================================================== *)

(** FIPS 180-4 on 32-bit words held in [N].  The round constants and the
    initial state are computed as the standard defines them: the first
    32 fraction bits of the cube roots, respectively square roots, of the
    first primes. *)
Module Sha256.

Local Open Scope N_scope.

Definition mask32 : N := 0xFFFFFFFF.

Definition add32 (x y : N) : N := N.land (x + y) mask32.

Definition rotr32 (x n : N) : N :=
  N.lor (N.shiftr x n) (N.land (N.shiftl x (32 - n)) mask32).

Definition xor3 (a b c : N) : N := N.lxor a (N.lxor b c).

Definition Ch (x y z : N) : N :=
  N.lxor (N.land x y) (N.land (N.lxor x mask32) z).

Definition Maj (x y z : N) : N :=
  xor3 (N.land x y) (N.land x z) (N.land y z).

Definition Sigma0 (x : N) : N := xor3 (rotr32 x 2) (rotr32 x 13) (rotr32 x 22).
Definition Sigma1 (x : N) : N := xor3 (rotr32 x 6) (rotr32 x 11) (rotr32 x 25).
Definition sigma0 (x : N) : N := xor3 (rotr32 x 7) (rotr32 x 18) (N.shiftr x 3).
Definition sigma1 (x : N) : N := xor3 (rotr32 x 17) (rotr32 x 19) (N.shiftr x 10).

Definition primes : list N :=
  [ 2; 3; 5; 7; 11; 13; 17; 19; 23; 29; 31; 37; 41; 43; 47; 53;
    59; 61; 67; 71; 73; 79; 83; 89; 97; 101; 103; 107; 109; 113; 127; 131;
    137; 139; 149; 151; 157; 163; 167; 173; 179; 181; 191; 193; 197; 199;
    211; 223; 227; 229; 233; 239; 241; 251; 257; 263; 269; 271; 277; 281;
    283; 293; 307; 311 ].

(** Integer cube root, one bit at a time from bit [k - 1] down. *)
Fixpoint cbrt_bits (k : nat) (n r : N) : N :=
  match k with
  | O => r
  | S k' =>
      let c := N.lor r (N.shiftl 1 (N.of_nat k')) in
      cbrt_bits k' n (if c * c * c <=? n then c else r)
  end.

Definition K : list N :=
  map (fun p => N.land (cbrt_bits 36 (p * 2 ^ 96) 0) mask32) primes.

Definition H0 : list N :=
  map (fun p => N.land (N.sqrt (p * 2 ^ 64)) mask32) (firstn 8 primes).

(** The message, the bit [1], zeros, and the bit length on 64 bits. *)
Definition pad (msg : bytes) : bytes :=
  let l := length msg in
  let z := ((119 - l mod 64) mod 64)%nat in
  (msg ++ [x80] ++ repeat x00 z ++ Bytes.N_to_be 8 (8 * N.of_nat l))%list.

Fixpoint words_of (n : nat) (b : bytes) : list N :=
  match n with
  | O => []
  | S n' => Bytes.be_to_N (firstn 4 b) :: words_of n' (skipn 4 b)
  end.

(** The schedule, newest word first: [n] more words on top of [w]. *)
Fixpoint extend (n : nat) (w : list N) : list N :=
  match n with
  | O => w
  | S n' =>
      let x := add32 (add32 (sigma1 (nth 1 w 0)) (nth 6 w 0))
                     (add32 (sigma0 (nth 14 w 0)) (nth 15 w 0)) in
      extend n' (x :: w)
  end.

Definition schedule (block : bytes) : list N :=
  rev (extend 48 (rev (words_of 16 block))).

Definition step (st : list N) (kw : N * N) : list N :=
  match st with
  | [a; b; c; d; e; f; g; h] =>
      let t1 := add32 (add32 (add32 h (Sigma1 e)) (add32 (Ch e f g) (fst kw))) (snd kw) in
      let t2 := add32 (Sigma0 a) (Maj a b c) in
      [add32 t1 t2; a; b; c; add32 d t1; e; f; g]
  | _ => st
  end.

Fixpoint add_words (a b : list N) : list N :=
  match a, b with
  | x :: a', y :: b' => add32 x y :: add_words a' b'
  | _, _ => []
  end.

Definition compress (st : list N) (block : bytes) : list N :=
  add_words st (fold_left step (combine K (schedule block)) st).

Fixpoint blocks (n : nat) (st : list N) (b : bytes) : list N :=
  match n with
  | O => st
  | S n' => blocks n' (compress st (firstn 64 b)) (skipn 64 b)
  end.

Definition sha256 (msg : bytes) : bytes :=
  let p := pad msg in
  flat_map (Bytes.N_to_be 4) (blocks (length p / 64) H0 p).

Definition xor_byte (c : N) (x : byte) : byte :=
  Bytes.byte_of_N (N.lxor c (Byte.to_N x)).

(** [hmac.new(key, msg, hashlib.sha256).digest()]. *)
Definition hmac (key msg : bytes) : bytes :=
  let k := if (64 <? length key)%nat then sha256 key else key in
  let k := (k ++ repeat x00 (64 - length k))%list in
  sha256 (map (xor_byte 0x5c) k ++ sha256 (map (xor_byte 0x36) k ++ msg))%list.

End Sha256.

(* ===================================================================== *)
(** ** ECDSA on secp256k1 (eth_keys' native backend)                      *)
(* ===================================================================== *)

(** Python's unbounded integers are [bigZ] here, so that the curve
    arithmetic on 256-bit numbers can be run. *)

Module Secp256k1.

Local Open Scope bool_scope.
Local Open Scope list_scope.
Local Open Scope bigZ_scope.

(** The field prime, the group order and the generator. *)
Definition P : bigZ := 2 ^ 256 - 2 ^ 32 - 977.
Definition N : bigZ :=
  BigZ.of_Z 0xFFFFFFFFFFFFFFFFFFFFFFFFFFFFFFFEBAAEDCE6AF48A03BBFD25E8CD0364141.
Definition A : bigZ := 0.
Definition Gx : bigZ :=
  BigZ.of_Z 0x79BE667EF9DCBBAC55A06295CE870B07029BFCDB2DCE28D959F2815B16F81798.
Definition Gy : bigZ :=
  BigZ.of_Z 0x483ADA7726A3C4655DA4FBFC0E1108A8FD17B448A68554199C47D08FFB10D4B8.

(** The loop of [inv]: extended Euclid on [(lm, low, hm, high)]; every
    turn at least halves [low * high], so twice the bit length of [n]
    turns are enough. *)
Fixpoint inv_loop (fuel : nat) (lm low hm high : bigZ) : bigZ :=
  match fuel with
  | O => lm
  | S f =>
      if 1 <? low then
        let r := high / low in
        inv_loop f (hm - lm * r) (high - low * r) lm low
      else lm
  end.

(** [inv(a, n)]: the inverse of [a] modulo [n], [0] for [0]. *)
Definition inv (a n : bigZ) : bigZ :=
  if a =? 0 then 0
  else
    inv_loop (2 * Z.to_nat (Z.log2 (BigZ.to_Z n)) + 4) 1 (a mod n) 0 n mod n.

Definition jacobian : Type := (bigZ * bigZ * bigZ)%type.

Definition jacobian_double (p : jacobian) : jacobian :=
  let '(x, y, z) := p in
  if y =? 0 then (0, 0, 0)
  else
    let ysq := (y ^ 2) mod P in
    let S := (4 * x * ysq) mod P in
    let M := (3 * x ^ 2 + A * z ^ 4) mod P in
    let nx := (M ^ 2 - 2 * S) mod P in
    let ny := (M * (S - nx) - 8 * ysq ^ 2) mod P in
    let nz := (2 * y * z) mod P in
    (nx, ny, nz).

Definition jacobian_add (p q : jacobian) : jacobian :=
  let '(px, py, pz) := p in
  let '(qx, qy, qz) := q in
  if py =? 0 then q
  else if qy =? 0 then p
  else
    let U1 := (px * qz ^ 2) mod P in
    let U2 := (qx * pz ^ 2) mod P in
    let S1 := (py * qz ^ 3) mod P in
    let S2 := (qy * pz ^ 3) mod P in
    if U1 =? U2 then
      if negb (S1 =? S2) then (0, 0, 1) else jacobian_double p
    else
      let H := U2 - U1 in
      let R := S2 - S1 in
      let H2 := (H * H) mod P in
      let H3 := (H * H2) mod P in
      let U1H2 := (U1 * H2) mod P in
      let nx := (R ^ 2 - H3 - 2 * U1H2) mod P in
      let ny := (R * (U1H2 - nx) - S1 * H3) mod P in
      let nz := (H * pz * qz) mod P in
      (nx, ny, nz).

(** The recursion of [jacobian_multiply] on a factor in [1 .. N - 1]:
    halve, double, and add the point back on an odd factor. *)
Fixpoint jacobian_multiply_pos (a : jacobian) (n : positive) : jacobian :=
  match n with
  | xH => a
  | xO n' => jacobian_double (jacobian_multiply_pos a n')
  | xI n' => jacobian_add (jacobian_double (jacobian_multiply_pos a n')) a
  end.

Definition jacobian_multiply (a : jacobian) (n : bigZ) : jacobian :=
  let '(_, y, _) := a in
  if (y =? 0) || (n =? 0) then (0, 0, 1)
  else
    match BigZ.to_Z (if (n <? 0) || (N <=? n) then n mod N else n) with
    | Zpos p => jacobian_multiply_pos a p
    | _ => (0, 0, 1)
    end.

Definition from_jacobian (p : jacobian) : bigZ * bigZ :=
  let '(x, y, z) := p in
  let zi := inv z P in
  ((x * zi ^ 2) mod P, (y * zi ^ 3) mod P).

Definition fast_multiply (a : bigZ * bigZ) (n : bigZ) : bigZ * bigZ :=
  from_jacobian (jacobian_multiply (fst a, snd a, 1) n).

Definition big_endian_to_int (b : bytes) : bigZ :=
  BigZ.of_Z (Z.of_N (Bytes.be_to_N b)).

(** [deterministic_generate_k]: the nonce of RFC 6979, from the message
    hash and the key alone. *)
Definition deterministic_generate_k (msg_hash private_key_bytes : bytes) : bigZ :=
  let v_0 := repeat x01 32 in
  let k_0 := repeat x00 32 in
  let k_1 := Sha256.hmac k_0 (v_0 ++ [x00] ++ private_key_bytes ++ msg_hash) in
  let v_1 := Sha256.hmac k_1 v_0 in
  let k_2 := Sha256.hmac k_1 (v_1 ++ [x01] ++ private_key_bytes ++ msg_hash) in
  let v_2 := Sha256.hmac k_2 v_1 in
  let kb := Sha256.hmac k_2 v_2 in
  big_endian_to_int kb.

(** [ecdsa_raw_sign]: the recovery bit, [r] and the low [s]. *)
Definition ecdsa_raw_sign (msg_hash private_key_bytes : bytes)
    : bigZ * bigZ * bigZ :=
  let z := big_endian_to_int msg_hash in
  let k := deterministic_generate_k msg_hash private_key_bytes in
  let '(r, y) := fast_multiply (Gx, Gy) k in
  let s_raw := (inv k N * (z + r * big_endian_to_int private_key_bytes)) mod N in
  let v := 27 + BigZ.lxor (y mod 2) (if s_raw * 2 <? N then 0 else 1) in
  let s := if s_raw * 2 <? N then s_raw else N - s_raw in
  (v - 27, r, s).

(** [to_bytes32]. *)
Definition to_bytes32 (v : bigZ) : bytes :=
  Bytes.N_to_be 32 (Z.to_N (BigZ.to_Z v)).

(** [Account._sign_hash(message_hash, private_key).signature]: the hash
    has to be 32 bytes and the key 32 bytes, not zero and below the
    group order;
    [Signature] accepts [r] and [s] below the group order; the bytes are
    [r], [s] and [v = 27 + recovery bit]. *)
Definition sign_hash (message_hash : bytes) (private_key : string) : result bytes :=
  if negb (Nat.eqb (length message_hash) 32) then Raise ValueError
  else
    match Text.decode_hex private_key with
    | None => Raise ValueError
    | Some key_bytes =>
        if negb (Nat.eqb (length key_bytes) 32) then Raise ValueError
        else if (big_endian_to_int key_bytes =? 0)
                || (N <=? big_endian_to_int key_bytes) then Raise ValueError
        else
          let '(v_raw, r, s) := ecdsa_raw_sign message_hash key_bytes in
          if (r <? N) && (s <? N) then
            Ok (to_bytes32 r ++ to_bytes32 s
                ++ [Bytes.byte_of_N (Z.to_N (BigZ.to_Z (v_raw + 27)))])
          else Raise ValidationError
    end.

End Secp256k1.

(* ===================================================================== *)
(** ** Concrete runs                                                      *)
(* ===================================================================== *)

(** The field list of the [Order] type. *)
Definition order_fields : list field :=
  match schema_get order_types "Order" with
  | Some fs => fs
  | None => []
  end.

(** The types left once [encode_typed_data] has popped [EIP712Domain]. *)
Definition message_types : schema := schema_pop order_types "EIP712Domain".

(** Two value maps agree on every field the [Order] type declares. *)
Definition agree_on_schema (m1 m2 : pydict) : Prop :=
  forall k, In k (map fname order_fields) -> Dict.get m1 k = Dict.get m2 k.

(** The dict that a run of [main] posts to the order book when the quote
    request is answered by [reply]; [None] when the run stops before it
    submits. *)
Definition submitted_order (keccak : bytes -> bytes)
    (sign_hash : bytes -> string -> result bytes) (g : TryTx.globals)
    (reply : result TryTx.response) : option pydict :=
  match reply with
  | Ok r =>
      if (TryTx.status_code r =? 200)%Z then
        match TryTx.json r with
        | Ok q =>
            if truthy q then
              match TryTx.construct_order keccak q with
              | Ok order =>
                  match TryTx.sign_order keccak sign_hash g order with
                  | Ok signature =>
                      Some (Dict.set order "signature" (VStr ("0x" ++ signature)))
                  | Raise _ => None
                  end
              | Raise _ => None
              end
            else None
        | Raise _ => None
        end
      else None
  | Raise _ => None
  end.

(** The bytes that hex text spells. *)
Definition unhex_text (s : string) : bytes := value_or [] (HexBytes s).

Module Scenario.

(** The module-level names of tryTx.py, as [to_checksum_address]
    computes them. *)
Definition g : TryTx.globals :=
  TryTx.Globals
    "0x2f8A528EB0De3b43fD9Eb6f23D55C8D95fb7AF98"
    "0xfFf9976782d46CC05630D1f6eBAb18b2324d6B14"
    "0x0625aFB445C3B6B7B929342a04A22599fd5dBB59"
    "0x9008D19f58AAbD9eD0D60971565AA8510560ab41".

(** A quote in the shape the quote service answers with: amounts as
    decimal text, [kind] and the balance locations as their plain tags,
    and the signing scheme the service echoes. *)
Definition quote_data : pyval :=
  VDict
    [ ("quote",
       VDict
         [ ("sellToken", VStr "0xfff9976782d46cc05630d1f6ebab18b2324d6b14");
           ("buyToken", VStr "0x0625afb445c3b6b7b929342a04a22599fd5dbb59");
           ("receiver", VStr "0x2f8a528eb0de3b43fd9eb6f23d55c8d95fb7af98");
           ("sellAmount", VStr "473107794665489160");
           ("buyAmount", VStr "164428962043613737416");
           ("validTo", VInt 1746436866);
           ("appData", VStr "0x0000000000000000000000000000000000000000000000000000000000000000");
           ("feeAmount", VStr "0");
           ("kind", VStr "sell");
           ("partiallyFillable", VBool true);
           ("sellTokenBalance", VStr "erc20");
           ("buyTokenBalance", VStr "erc20");
           ("signingScheme", VStr "eip712") ]);
      ("from", VStr "0x2f8a528eb0de3b43fd9eb6f23d55c8d95fb7af98");
      ("expiration", VStr "2025-05-05T09:21:06Z");
      ("id", VInt 1);
      ("verified", VBool true) ].

(** The same quote with an amount that is not a number. *)
Definition bad_quote_data : pyval :=
  VDict
    [ ("quote",
       VDict
         [ ("sellToken", VStr "0xfff9976782d46cc05630d1f6ebab18b2324d6b14");
           ("buyToken", VStr "0x0625afb445c3b6b7b929342a04a22599fd5dbb59");
           ("receiver", VStr "0x2f8a528eb0de3b43fd9eb6f23d55c8d95fb7af98");
           ("sellAmount", VStr "a lot");
           ("buyAmount", VStr "164428962043613737416");
           ("validTo", VInt 1746436866);
           ("appData", VStr "0x00");
           ("feeAmount", VStr "0");
           ("kind", VStr "sell");
           ("partiallyFillable", VBool true);
           ("sellTokenBalance", VStr "erc20");
           ("buyTokenBalance", VStr "erc20");
           ("signingScheme", VStr "eip712") ]);
      ("from", VStr "0x2f8a528eb0de3b43fd9eb6f23d55c8d95fb7af98") ].

(** The order [construct_order] builds from [quote_data]. *)
Definition order : pydict :=
  value_or [] (TryTx.construct_order Keccak.keccak256 quote_data).

(** The value [sign_order] binds to [digest] for that order. *)
Definition digest : bytes :=
  unhex_text "bdbe533d514331d9b013e41b840b8a3c473f5671539a46f4cb703e37a9dfd969".

(** The hash [sign_order] hands to the signer for that order. *)
Definition eth_message_hash : bytes :=
  unhex_text "34900822af38d81bb7c196e4ac5b129652d2867771d70129b74cf752118aa42a".

(** The signature bytes of that order. *)
Definition signed : bytes :=
  unhex_text
    ("0c6b0a9b0944dcf7b75107f138d78dbedd7e513edf4f428ff184e2056bb4f1ff"
     ++ "14294f3e5e42a2f570c9e05cb59a4bb277a9a99b5589788b51768863014291c5"
     ++ "1c").

(** In test1.py: the header of the signable message (the domain
    separator), its body (the struct hash of the order, which the script
    binds to [digest]), the typed-data digest of the two, and the hash
    the script hands to the signer. *)
Definition test1_header : bytes :=
  unhex_text "daee378bd0eb30ddf479272accf91761e697bc00e067a268f95f1d2732ed230b".

Definition test1_body : bytes :=
  unhex_text "517b9078e58cbc6fc66501454af956e292dd2a7b676e3ad0ac6a5dfe5ffef235".

Definition test1_typed_data_digest : bytes :=
  unhex_text "b80b66a20670697f1640cd97798d321bcf492df9d529995708ddafe2db9d7178".

Definition test1_eth_message_hash : bytes :=
  unhex_text "15c2703f15d43c32047da6cba32ea2155527c05346edf8c01166c4d60a7c0009".

(** The signature bytes of test1.py. *)
Definition test1_signed : bytes :=
  unhex_text
    ("3646df4b03902de2c49a68d4bf648b9bf9dde9d38ad76c6a10e14db1bfc65a6d"
     ++ "796a8ebb05b6cfd20072a14737874d0f703aa18209049459612e9d25507b995b"
     ++ "1b").

(** The signature test1.py prints, as hex text. *)
Definition test1_signature : string :=
  "3646df4b03902de2c49a68d4bf648b9bf9dde9d38ad76c6a10e14db1bfc65a6d"
  ++ "796a8ebb05b6cfd20072a14737874d0f703aa18209049459612e9d25507b995b"
  ++ "1b".

(** A service that answers the quote request with [quote] and accepts
    whatever is submitted. *)
Definition serving (quote : pyval) : TryTx.service :=
  fun _ url _ =>
    if String.eqb url TryTx.quote_url
    then Ok (TryTx.Response 200 "" (Ok quote))
    else Ok (TryTx.Response 201 "" (Ok (VStr "0x01"))).

(** The same quote service in front of an order book that rejects. *)
Definition serving_rejecting (quote : pyval) : TryTx.service :=
  fun _ url _ =>
    if String.eqb url TryTx.quote_url
    then Ok (TryTx.Response 200 "" (Ok quote))
    else Ok (TryTx.Response 400 "" (Ok (VDict [("errorType", VStr "InvalidSignature")]))).

(** A quote service that is down. *)
Definition unavailable : TryTx.service :=
  fun _ _ _ => Ok (TryTx.Response 503 "" (Raise JSONDecodeError)).

(** The text [json.dumps] gives for [app_data]:
    [{"version": "0.9.0", "metadata": {}}]. *)
Definition app_data_text : string :=
  "{" ++ Json.quoted "version" ++ ": " ++ Json.quoted "0.9.0" ++ ", "
      ++ Json.quoted "metadata" ++ ": {}}".

(** The same object without blanks:
    [{"version":"0.9.0","metadata":{}}]. *)
Definition compact_text : string :=
  "{" ++ Json.quoted "version" ++ ":" ++ Json.quoted "0.9.0" ++ ","
      ++ Json.quoted "metadata" ++ ":{}}".

End Scenario.


(* ===================================================================== *)
(** ** Names used by the facts on the rest of the pipeline                *)
(* ===================================================================== *)

(** The keys [construct_order] reads under [quote_data["quote"]]. *)
Definition quote_keys : list string :=
  [ "sellToken"; "buyToken"; "sellAmount"; "buyAmount"; "validTo";
    "feeAmount"; "kind"; "partiallyFillable"; "sellTokenBalance";
    "buyTokenBalance"; "receiver"; "signingScheme" ].

(** Those of them that the [Order] type declares: all but
    [signingScheme]. *)
Definition signed_quote_keys : list string :=
  [ "sellToken"; "buyToken"; "sellAmount"; "buyAmount"; "validTo";
    "feeAmount"; "kind"; "partiallyFillable"; "sellTokenBalance";
    "buyTokenBalance"; "receiver" ].

(** The keys of the dict [construct_order] returns, in the dict's order. *)
Definition order_keys : list string :=
  [ "sellToken"; "buyToken"; "sellAmount"; "buyAmount"; "validTo";
    "appData"; "feeAmount"; "kind"; "partiallyFillable";
    "sellTokenBalance"; "buyTokenBalance"; "receiver"; "from";
    "signingScheme"; "appDataHash" ].

Module Scenario2.

(** The sample quote with another [appData] and two more entries, none
    of which [construct_order] reads. *)
Definition quote_data_other : pyval :=
  VDict
    [ ("quote",
       VDict
         [ ("sellToken", VStr "0xfff9976782d46cc05630d1f6ebab18b2324d6b14");
           ("buyToken", VStr "0x0625afb445c3b6b7b929342a04a22599fd5dbb59");
           ("receiver", VStr "0x2f8a528eb0de3b43fd9eb6f23d55c8d95fb7af98");
           ("sellAmount", VStr "473107794665489160");
           ("buyAmount", VStr "164428962043613737416");
           ("validTo", VInt 1746436866);
           ("appData", VStr "0x1111111111111111111111111111111111111111111111111111111111111111");
           ("appDataHash", VStr "0x22");
           ("feeAmount", VStr "0");
           ("kind", VStr "sell");
           ("partiallyFillable", VBool true);
           ("sellTokenBalance", VStr "erc20");
           ("buyTokenBalance", VStr "erc20");
           ("signingScheme", VStr "eip712") ]);
      ("from", VStr "0x2f8a528eb0de3b43fd9eb6f23d55c8d95fb7af98");
      ("id", VInt 2) ].

(** The sample quote asked for by another account and echoed with
    another signing scheme. *)
Definition quote_data_from_other : pyval :=
  VDict
    [ ("quote",
       VDict
         [ ("sellToken", VStr "0xfff9976782d46cc05630d1f6ebab18b2324d6b14");
           ("buyToken", VStr "0x0625afb445c3b6b7b929342a04a22599fd5dbb59");
           ("receiver", VStr "0x2f8a528eb0de3b43fd9eb6f23d55c8d95fb7af98");
           ("sellAmount", VStr "473107794665489160");
           ("buyAmount", VStr "164428962043613737416");
           ("validTo", VInt 1746436866);
           ("feeAmount", VStr "0");
           ("kind", VStr "sell");
           ("partiallyFillable", VBool true);
           ("sellTokenBalance", VStr "erc20");
           ("buyTokenBalance", VStr "erc20");
           ("signingScheme", VStr "ethsign") ]);
      ("from", VStr "0x0625afb445c3b6b7b929342a04a22599fd5dbb59") ].

(** The order [construct_order] builds from it. *)
Definition order_from_other : pydict :=
  value_or [] (TryTx.construct_order Keccak.keccak256 quote_data_from_other).

(** The module-level names with another settlement contract. *)
Definition g_other : TryTx.globals :=
  TryTx.Globals
    "0x2f8A528EB0De3b43fD9Eb6f23D55C8D95fb7AF98"
    "0xfFf9976782d46CC05630D1f6eBAb18b2324d6B14"
    "0x0625aFB445C3B6B7B929342a04A22599fd5dBB59"
    "0x0625aFB445C3B6B7B929342a04A22599fd5dBB59".

(** The domain separator under that contract. *)
Definition domain_separator_other : bytes :=
  unhex_text "f7164ed35f768cf52f0a4ba8f31bc17270772056813de8e7d1b3280270f533ba".

(** The order built from the quote whose [sellAmount] is no number. *)
Definition bad_order : pydict :=
  value_or [] (TryTx.construct_order Keccak.keccak256 Scenario.bad_quote_data).

(** The order of test1.py. *)
Definition test1_order : pydict := value_or [] (Test1.order Keccak.keccak256).

End Scenario2.

(* ===================================================================== *)
(** * Facts                                                               *)
(* ===================================================================== *)

(** ** Bytes and hex text *)

Module BytesFacts.

Import Bytes.

Lemma length_N_to_le k n : length (N_to_le k n) = k.
Proof.
  revert n; induction k as [|k IH]; intros n; simpl; [reflexivity|].
  now rewrite IH.
Qed.

Lemma length_N_to_be k n : length (N_to_be k n) = k.
Proof. unfold N_to_be. now rewrite length_rev, length_N_to_le. Qed.

Lemma length_hex b : String.length (hex b) = (2 * length b)%nat.
Proof.
  induction b as [|x r IH]; simpl; [reflexivity|].
  rewrite IH. lia.
Qed.

Lemma even_length_hex b : Nat.even (String.length (hex b)) = true.
Proof. induction b as [|x r IH]; simpl; [reflexivity | exact IH]. Qed.

(** Reading back the two digits written for one byte. *)
Lemma unhex_hex_cons x r :
  unhex (hex (x :: r)) = option_map (cons x) (unhex (hex r)).
Proof.
  destruct x; cbn; destruct (unhex (hex r)); reflexivity.
Qed.

Lemma unhex_hex b : unhex (hex b) = Some b.
Proof.
  induction b as [|x r IH]; [reflexivity|].
  rewrite unhex_hex_cons, IH. reflexivity.
Qed.

Lemma is_hex_digits_hex_cons x r :
  is_hex_digits (hex (x :: r)) = is_hex_digits (hex r).
Proof. destruct x; reflexivity. Qed.

Lemma is_hex_digits_hex b : is_hex_digits (hex b) = true.
Proof.
  induction b as [|x r IH]; [reflexivity|].
  now rewrite is_hex_digits_hex_cons.
Qed.

(** [decode_hex("0x" + b.hex())] gives [b] back. *)
Lemma decode_hex_0x_hex b : Text.decode_hex ("0x" ++ hex b) = Some b.
Proof.
  unfold Text.decode_hex. cbn [append Text.remove_0x_prefix].
  rewrite even_length_hex. apply unhex_hex.
Qed.

Lemma is_0x_prefixed_hexstr_0x_hex b :
  Text.is_0x_prefixed_hexstr ("0x" ++ hex b) = true.
Proof.
  unfold Text.is_0x_prefixed_hexstr, Text.is_hexstr.
  cbn [append Text.remove_0x_prefix].
  rewrite is_hex_digits_hex. reflexivity.
Qed.

End BytesFacts.

(** ** Dictionaries *)

Module DictFacts.

Import Dict.

Lemma get_set_eq d k v : get (set d k v) k = Some v.
Proof.
  induction d as [|[k' v'] r IH]; simpl.
  - now rewrite String.eqb_refl.
  - destruct (String.eqb k' k) eqn:E; simpl; rewrite E; auto.
Qed.

Lemma get_set_ne d k k' v : k <> k' -> get (set d k v) k' = get d k'.
Proof.
  intros Hne. induction d as [|[k0 v0] r IH]; simpl.
  - destruct (String.eqb k k') eqn:E; [|reflexivity].
    apply String.eqb_eq in E. contradiction.
  - destruct (String.eqb k0 k) eqn:E; simpl.
    + apply String.eqb_eq in E; subst k0.
      destruct (String.eqb k k') eqn:E'; [|reflexivity].
      apply String.eqb_eq in E'. contradiction.
    + now rewrite IH.
Qed.

End DictFacts.

(** ** Test vectors of the primitives *)

Example keccak_empty :
  Bytes.hex (Keccak.keccak256 [])
  = "c5d2460186f7233c927e7db2dcc703c0e500b653ca82273b7bfad8045d85a470".
Proof. vm_compute. reflexivity. Qed.

Example keccak_sell :
  Bytes.hex (Keccak.keccak256 (Bytes.of_text "sell"))
  = "f3b277728b3fee749481eb3e0b3b48980dbbab78658fc419025cb16eee346775".
Proof. vm_compute. reflexivity. Qed.

Example keccak_erc20 :
  Bytes.hex (Keccak.keccak256 (Bytes.of_text "erc20"))
  = "5a28e9363bb942b639270062aa6bb295f434bcdfc42c97267bf003f272060dc9".
Proof. vm_compute. reflexivity. Qed.

Example sha256_abc :
  Bytes.hex (Sha256.sha256 (Bytes.of_text "abc"))
  = "ba7816bf8f01cfea414140de5dae2223b00361a396177a9cb410ff61f20015ad".
Proof. vm_compute. reflexivity. Qed.

Example sha256_first_constant : nth 0 Sha256.K 0%N = 0x428a2f98%N.
Proof. vm_compute. reflexivity. Qed.

(** The nonce of the well-known RFC 6979 vector for secp256k1: key [1]
    and the SHA-256 of the text [Satoshi Nakamoto]. *)
Example rfc6979_nonce :
  BigZ.to_Z
    (Secp256k1.deterministic_generate_k
       (Sha256.sha256 (Bytes.of_text "Satoshi Nakamoto"))
       (Bytes.N_to_be 32 1))
  = 0x8F8A276C19F4149656B280621E358CCE24F5F52542772691EE69063B74F15D15%Z.
Proof. vm_compute. reflexivity. Qed.

(** The signature of that vector: [r], the low [s], and [v = 28]. *)
Example rfc6979_signature :
  Secp256k1.sign_hash
    (Sha256.sha256 (Bytes.of_text "Satoshi Nakamoto"))
    "0000000000000000000000000000000000000000000000000000000000000001"
  = HexBytes
      ("934b1ea10a4b3c1757e2b0c017d0b6143ce3c9a7e6a4a49860d7a6ab210ee3d8"
       ++ "2442ce9d2b916064108014783e923ec36b49743e2ffa1c4496f01a512aafd9e5"
       ++ "1c").
Proof. vm_compute. reflexivity. Qed.

(** The generator is on the curve [y^2 = x^3 + 7]. *)
Example generator_on_curve :
  BigZ.to_Z ((Secp256k1.Gy ^ 2 - Secp256k1.Gx ^ 3 - 7) mod Secp256k1.P)%bigZ = 0%Z.
Proof. vm_compute. reflexivity. Qed.

Example int_of_text_plain :
  Text.int_of_text "473107794665489160" = Some 473107794665489160%Z.
Proof. reflexivity. Qed.

Example int_of_text_blank : Text.int_of_text " -1_000 " = Some (-1000)%Z.
Proof. reflexivity. Qed.

(** [int()] skips the blanks of [Py_ISSPACE] only, reads the decimal
    digits of every script, and refuses [0X] text. *)
Example int_of_text_file_separator :
  Text.int_of_text (String "028"%char "31") = None.
Proof. reflexivity. Qed.

Example int_of_text_arabic_indic :
  Text.int_of_text (Bytes.to_text [xd9; xa1; xd9; xa2; xd9; xa3]) = Some 123%Z.
Proof. reflexivity. Qed.

Example int_of_text_upper_prefix : Text.int_of_text "0X1f" = None.
Proof. reflexivity. Qed.

Example upper_prefix_is_plain_text :
  Text.is_0x_prefixed_hexstr "0X1f" = false /\
  Text.is_0x_prefixed_hexstr "0x1f" = true.
Proof. split; reflexivity. Qed.

(** An address whose case spells a wrong checksum is an address. *)
Example is_address_any_case :
  is_address (VStr "0xFff9976782d46cc05630d1f6ebab18b2324d6b14") = true.
Proof. reflexivity. Qed.

Example text_of_int_neg : Text.text_of_int (-1200)%Z = "-1200".
Proof. reflexivity. Qed.

Example module_globals_value :
  TryTx.module_globals Keccak.keccak256 = Ok Scenario.g.
Proof. vm_compute. reflexivity. Qed.

Example app_data_text_hex :
  Bytes.hex (Bytes.of_text Scenario.app_data_text)
  = "7b2276657273696f6e223a2022302e392e30222c20226d65746164617461223a207b7d7d".
Proof. vm_compute. reflexivity. Qed.

(* ===================================================================== *)
(** ** construct_order                                                    *)
(* ===================================================================== *)

(** One step through a chain of binds that ends in [Ok]. *)
Ltac bind_ok H :=
  match type of H with
  | bind ?m _ = Ok _ =>
      let E := fresh "E" in
      destruct m eqn:E; cbn [bind] in H; [|discriminate H]
  end.

(** Split a conjunction of closed statements and evaluate the equations
    among them. *)
Ltac evaluate_conjuncts :=
  repeat match goal with |- _ /\ _ => split end;
  try (vm_compute; reflexivity).

Section ConstructOrder.

Variable keccak : bytes -> bytes.

Lemma app_data_json_value : TryTx.app_data_json = Ok Scenario.app_data_text.
Proof. reflexivity. Qed.

Lemma app_data_hash_value :
  TryTx.app_data_hash keccak
  = Ok (Bytes.hex (keccak (Bytes.of_text Scenario.app_data_text))).
Proof. reflexivity. Qed.

(** What [construct_order] returns, entry by entry. *)
Lemma construct_order_entries quote_data order :
  TryTx.construct_order keccak quote_data = Ok order ->
  let h := "0x" ++ Bytes.hex (keccak (Bytes.of_text Scenario.app_data_text)) in
  Dict.get order "appData" = Some (VStr h) /\
  Dict.get order "appDataHash" = Some (VStr h) /\
  (forall k,
      In k ["kind"; "sellTokenBalance"; "buyTokenBalance"; "signingScheme"] ->
      TryTx.quote_field quote_data k = Ok match Dict.get order k with
                                          | Some v => v
                                          | None => VNone
                                          end /\
      Dict.get order k <> None).
Proof.
  unfold TryTx.construct_order. rewrite app_data_hash_value. cbn [bind].
  intros H. repeat bind_ok H. injection H as <-.
  cbn -[Bytes.hex Bytes.of_text Scenario.app_data_text].
  repeat split; try discriminate.
  all: match goal with
       | H : _ \/ _ |- _ =>
           cbn in H; repeat (destruct H as [<- | H]; [|]); try contradiction
       | _ => idtac
       end.
  all: cbn; try discriminate; assumption.
Qed.

End ConstructOrder.

(** C10: in every order record that [construct_order] returns, the
    entries [appData] and [appDataHash] hold the same text: ["0x"]
    followed by [app_data_hash], the hex text of the hash of the JSON
    encoding of [app_data]. *)
Theorem construct_order_appData_eq_appDataHash
    (keccak : bytes -> bytes) (quote_data : pyval) (order : pydict) :
  TryTx.construct_order keccak quote_data = Ok order ->
  Dict.get order "appData" = Dict.get order "appDataHash" /\
  exists h : string,
    TryTx.app_data_hash keccak = Ok h /\
    Dict.get order "appData" = Some (VStr ("0x" ++ h)) /\
    Dict.get order "appDataHash" = Some (VStr ("0x" ++ h)).
Proof.
  intros H.
  destruct (construct_order_entries keccak quote_data order H) as (Ha & Hb & _).
  split; [now rewrite Ha, Hb|].
  eexists. split; [apply app_data_hash_value|]. split; assumption.
Qed.

Lemma construct_order_appData_eq_appDataHash_witness :
  TryTx.construct_order Keccak.keccak256 Scenario.quote_data = Ok Scenario.order /\
  Dict.get Scenario.order "appData" = Dict.get Scenario.order "appDataHash".
Proof.
  assert (H : TryTx.construct_order Keccak.keccak256 Scenario.quote_data
              = Ok Scenario.order) by (vm_compute; reflexivity).
  split; [exact H|].
  exact (proj1 (construct_order_appData_eq_appDataHash _ _ _ H)).
Defined.

(* ===================================================================== *)
(** ** The application-data hash                                          *)
(* ===================================================================== *)

Section AppData.

Variable keccak : bytes -> bytes.

Lemma bytes_of_value_0x_hex b :
  bytes_of_value (VStr ("0x" ++ Bytes.hex b)) = Ok b.
Proof.
  unfold bytes_of_value.
  now rewrite BytesFacts.is_0x_prefixed_hexstr_0x_hex, BytesFacts.decode_hex_0x_hex.
Qed.

(** A [bytes32] field given as ["0x"] and hex text is handed to the ABI
    encoder as the bytes the text spells. *)
Lemma encode_field_bytes32_0x_hex b :
  encode_field keccak message_types "bytes32" (Some (VStr ("0x" ++ Bytes.hex b)))
  = Ok ("bytes32", VBytes b).
Proof.
  unfold encode_field.
  change (mem "bytes32" (map fst message_types)) with false.
  cbv iota.
  change (String.eqb "bytes32" "bool") with false.
  change (prefix "bytes" "bytes32") with true.
  change (String.eqb "bytes32" "bytes") with false.
  cbv iota.
  now rewrite bytes_of_value_0x_hex.
Qed.

End AppData.

(** C4, as the code has it: the [appData] entry of the order is ["0x"]
    and the hex text of the hash of [json.dumps(app_data)] with the
    default separators, that is of the 36 characters
    [{"version": "0.9.0", "metadata": {}}] (insertion order of the keys,
    one blank after each colon and comma); the typed-data encoder turns
    that text back into the hash bytes, which are the [appData] word of
    the signed message. *)
Theorem appData_is_hash_of_default_json
    (keccak : bytes -> bytes) (quote_data : pyval) (order : pydict) :
  TryTx.construct_order keccak quote_data = Ok order ->
  let hash := keccak (Bytes.of_text Scenario.app_data_text) in
  Json.dumps TryTx.app_data = Ok Scenario.app_data_text /\
  String.length Scenario.app_data_text = 36 /\
  Dict.get order "appData" = Some (VStr ("0x" ++ Bytes.hex hash)) /\
  encode_field keccak message_types "bytes32" (Dict.get order "appData")
  = Ok ("bytes32", VBytes hash).
Proof.
  intros H hash.
  destruct (construct_order_entries keccak quote_data order H) as (Ha & _).
  split; [reflexivity|]. split; [reflexivity|]. split; [exact Ha|].
  rewrite Ha. apply encode_field_bytes32_0x_hex.
Qed.

Lemma appData_is_hash_of_default_json_witness :
  TryTx.construct_order Keccak.keccak256 Scenario.quote_data = Ok Scenario.order /\
  Dict.get Scenario.order "appData"
  = Some (VStr ("0x" ++ Bytes.hex
                  (Keccak.keccak256 (Bytes.of_text Scenario.app_data_text)))).
Proof.
  assert (H : TryTx.construct_order Keccak.keccak256 Scenario.quote_data
              = Ok Scenario.order) by (vm_compute; reflexivity).
  split; [exact H|].
  exact (proj1 (proj2 (proj2 (appData_is_hash_of_default_json _ _ _ H)))).
Defined.

(** C4 as stated fails: the text that is hashed has blanks after its
    separators, so the [appData] of the order is not the hash of the
    encoding without blanks. *)
Lemma appData_json_has_blanks :
  TryTx.app_data_json = Ok Scenario.app_data_text /\
  Text.existsb (Ascii.eqb " ") Scenario.app_data_text = true /\
  Json.dumps_compact TryTx.app_data = Ok Scenario.compact_text /\
  Dict.get Scenario.order "appData"
  = Some (VStr "0xa896ba1987070616bebb7068714e9b48bd124d567402b9d8910ca515b492bc89") /\
  "0x" ++ Bytes.hex (Keccak.keccak256 (Bytes.of_text Scenario.compact_text))
  = "0xc990bae86208bfdfba8879b64ab68da5905e8bb97aa3da5c701ec1183317a6f6" /\
  Dict.get Scenario.order "appData"
  <> Some (VStr ("0x" ++ Bytes.hex
                   (Keccak.keccak256 (Bytes.of_text Scenario.compact_text)))).
Proof.
  evaluate_conjuncts.
  vm_compute. discriminate.
Qed.

(* ===================================================================== *)
(** ** Typed-data hashing reads the schema's fields only                  *)
(* ===================================================================== *)

Section SchemaOnly.

Variable keccak : bytes -> bytes.

Lemma encode_fields_agree types fields (m1 m2 : pydict) :
  (forall f, In f fields -> Dict.get m1 (fname f) = Dict.get m2 (fname f)) ->
  encode_fields keccak types fields m1 = encode_fields keccak types fields m2.
Proof.
  induction fields as [|f r IH]; intros H; [reflexivity|].
  cbn [encode_fields].
  rewrite (H f (or_introl eq_refl)).
  rewrite IH; [reflexivity|].
  intros f' Hin. apply H. now right.
Qed.

Lemma message_primary_type : get_primary_type message_types = Ok "Order".
Proof. reflexivity. Qed.

Lemma message_order_fields : schema_get message_types "Order" = Some order_fields.
Proof. reflexivity. Qed.

Lemma hash_struct_agree (m1 m2 : pydict) :
  agree_on_schema m1 m2 ->
  hash_struct keccak "Order" message_types (VDict m1)
  = hash_struct keccak "Order" message_types (VDict m2).
Proof.
  intros H. unfold hash_struct, encode_data.
  rewrite message_order_fields.
  rewrite (encode_fields_agree message_types order_fields m1 m2); [reflexivity|].
  intros f Hin. apply H. now apply in_map.
Qed.

(** The body of the signable message is the struct hash of the message
    under the [Order] type: the domain only decides whether the call
    raises. *)
Lemma encode_typed_data_body domain (m : pyval) (s : SignableMessage) :
  encode_typed_data keccak (TypedData order_types "Order" domain m) = Ok s ->
  hash_struct keccak "Order" message_types m = Ok (body s) /\
  hash_domain keccak domain = Ok (header s) /\
  version s = [x01].
Proof.
  unfold encode_typed_data.
  cbn [td_types td_primaryType td_domain td_message].
  fold message_types. rewrite message_primary_type. cbn [bind].
  change (String.eqb "Order" "Order") with true. cbv iota.
  destruct (match schema_get order_types "EIP712Domain" with
            | Some fs => same_keys (Dict.keys domain) (map fname fs)
            | None => true
            end); [|discriminate].
  destruct (hash_domain keccak domain) as [h|e]; cbn [bind]; [|discriminate].
  unfold hash_eip712_message. rewrite message_primary_type. cbn [bind].
  destruct (hash_struct keccak "Order" message_types m) as [b|e];
    cbn [bind]; [|discriminate].
  intros [= <-]. cbn. auto.
Qed.

Lemma encode_typed_data_agree domain (m1 m2 : pydict) :
  agree_on_schema m1 m2 ->
  encode_typed_data keccak (TypedData order_types "Order" domain (VDict m1))
  = encode_typed_data keccak (TypedData order_types "Order" domain (VDict m2)).
Proof.
  intros H. unfold encode_typed_data.
  cbn [td_types td_primaryType td_domain td_message].
  fold message_types. unfold hash_eip712_message.
  rewrite message_primary_type. cbn [bind].
  now rewrite (hash_struct_agree m1 m2 H).
Qed.

Variable sign_hash : bytes -> string -> result bytes.
Variable g : TryTx.globals.

Lemma digest_agree (m1 m2 : pydict) :
  agree_on_schema m1 m2 -> TryTx.digest keccak g m1 = TryTx.digest keccak g m2.
Proof.
  intros H. unfold TryTx.digest, TryTx.typed_data.
  now rewrite (encode_typed_data_agree _ m1 m2 H).
Qed.

Lemma sign_order_agree (m1 m2 : pydict) :
  agree_on_schema m1 m2 ->
  TryTx.sign_order keccak sign_hash g m1 = TryTx.sign_order keccak sign_hash g m2.
Proof.
  intros H. unfold TryTx.sign_order, TryTx.eth_message_hash.
  now rewrite (digest_agree m1 m2 H).
Qed.

(** Writing a key that the [Order] type does not declare leaves the
    schema's fields as they were. *)
Lemma agree_set_extra (m : pydict) (k : string) (v : pyval) :
  ~ In k (map fname order_fields) -> agree_on_schema (Dict.set m k v) m.
Proof.
  intros Hk f Hf. apply DictFacts.get_set_ne. intros ->. contradiction.
Qed.

End SchemaOnly.

(** C6: two message maps that agree on every field of the [Order] type
    have the same struct hash, the same digest and the same signature
    (or raise the same exception), whatever else they hold. *)
Theorem extra_keys_never_influence_signing
    (keccak : bytes -> bytes) (sign_hash : bytes -> string -> result bytes)
    (g : TryTx.globals) (m1 m2 : pydict) :
  agree_on_schema m1 m2 ->
  hash_struct keccak "Order" message_types (VDict m1)
  = hash_struct keccak "Order" message_types (VDict m2) /\
  TryTx.digest keccak g m1 = TryTx.digest keccak g m2 /\
  TryTx.sign_order keccak sign_hash g m1 = TryTx.sign_order keccak sign_hash g m2.
Proof.
  intros H. split; [|split].
  - now apply hash_struct_agree.
  - now apply digest_agree.
  - now apply sign_order_agree.
Qed.

(** The order without the three keys that [construct_order] adds on top
    of the schema's fields. *)
Lemma extra_keys_never_influence_signing_witness :
  let bare := firstn 12 Scenario.order in
  agree_on_schema Scenario.order bare /\
  Dict.get Scenario.order "from" <> Dict.get bare "from" /\
  TryTx.sign_order Keccak.keccak256 Secp256k1.sign_hash Scenario.g Scenario.order
  = TryTx.sign_order Keccak.keccak256 Secp256k1.sign_hash Scenario.g bare.
Proof.
  intros bare.
  assert (H : agree_on_schema Scenario.order bare).
  { intros k Hk. cbn in Hk.
    repeat (destruct Hk as [<- | Hk]; [vm_compute; reflexivity|]).
    contradiction. }
  split; [exact H|]. split; [vm_compute; discriminate|].
  exact (proj2 (proj2 (extra_keys_never_influence_signing
                         Keccak.keccak256 Secp256k1.sign_hash Scenario.g _ _ H))).
Defined.

(* ===================================================================== *)
(** ** What the scripts bind to [digest] and hand to the signer           *)
(* ===================================================================== *)

Section Digest.

Variable keccak : bytes -> bytes.
Variable sign_hash : bytes -> string -> result bytes.
Variable g : TryTx.globals.

(** In tryTx.py the digest is the struct hash of the order. *)
Lemma tryTx_digest_is_struct_hash (order : pydict) (d : bytes) :
  TryTx.digest keccak g order = Ok d ->
  hash_struct keccak "Order" message_types (VDict order) = Ok d.
Proof.
  unfold TryTx.digest, TryTx.typed_data.
  destruct (encode_typed_data keccak _) as [s|e] eqn:E; cbn [bind]; [|discriminate].
  intros [= <-]. now apply encode_typed_data_body in E.
Qed.

(** In test1.py as well. *)
Lemma test1_digest_is_struct_hash (o : pydict) (d : bytes) :
  Test1.order keccak = Ok o ->
  Test1.digest keccak = Ok d ->
  hash_struct keccak "Order" message_types (VDict o) = Ok d.
Proof.
  intros Ho. unfold Test1.digest, Test1.signable_message, Test1.typed_data.
  rewrite Ho. cbn [bind].
  destruct (encode_typed_data keccak _) as [s|e] eqn:E; cbn [bind]; [|discriminate].
  intros [= <-]. now apply encode_typed_data_body in E.
Qed.

Lemma tryTx_eth_message_hash (order : pydict) (d : bytes) :
  TryTx.digest keccak g order = Ok d ->
  TryTx.eth_message_hash keccak g order = Ok (keccak (eth_sign_prefix ++ d)%list).
Proof. intros H. unfold TryTx.eth_message_hash. now rewrite H. Qed.

Lemma tryTx_sign_order (order : pydict) (d : bytes) :
  TryTx.digest keccak g order = Ok d ->
  TryTx.sign_order keccak sign_hash g order
  = bind (sign_hash (keccak (eth_sign_prefix ++ d)%list) TryTx.PRIVATE_KEY)
         (fun s => Ok (Bytes.hex s)).
Proof.
  intros H. unfold TryTx.sign_order.
  now rewrite (tryTx_eth_message_hash order d H).
Qed.

Lemma test1_signable_message_unfold (o : pydict) :
  Test1.order keccak = Ok o ->
  Test1.signable_message keccak
  = encode_typed_data keccak (TypedData order_types "Order" Test1.domain (VDict o)).
Proof.
  intros Ho. unfold Test1.signable_message, Test1.typed_data.
  now rewrite Ho.
Qed.

Lemma test1_digest_of_signable (m : SignableMessage) :
  Test1.signable_message keccak = Ok m -> Test1.digest keccak = Ok (body m).
Proof. intros H. unfold Test1.digest. now rewrite H. Qed.

Lemma test1_signature_of_signed (sig : bytes) :
  Test1.signed keccak sign_hash = Ok sig ->
  Test1.signature keccak sign_hash = Ok (Bytes.hex sig).
Proof. intros H. unfold Test1.signature. now rewrite H. Qed.

Lemma test1_stdout_of (d sig : bytes) :
  Test1.digest keccak = Ok d ->
  Test1.signed keccak sign_hash = Ok sig ->
  Test1.stdout keccak sign_hash
  = Ok [ "Order digest: " ++ Bytes.hex d;
         "eth_sign signature: " ++ Bytes.hex sig ].
Proof.
  intros Hd Hs. unfold Test1.stdout.
  rewrite Hd, (test1_signature_of_signed sig Hs). reflexivity.
Qed.

Lemma tryTx_digest_of_signable (order : pydict) (m : SignableMessage) :
  encode_typed_data keccak (TryTx.typed_data g order) = Ok m ->
  TryTx.digest keccak g order = Ok (body m).
Proof. intros H. unfold TryTx.digest. now rewrite H. Qed.

Lemma test1_signed (d : bytes) :
  Test1.digest keccak = Ok d ->
  Test1.eth_message_hash keccak = Ok (keccak (eth_sign_prefix ++ d)%list) /\
  Test1.signed keccak sign_hash
  = sign_hash (keccak (eth_sign_prefix ++ d)%list) Test1.PRIVATE_KEY.
Proof.
  intros H.
  unfold Test1.signed, Test1.eth_message_hash, Test1.eth_sign_message.
  rewrite H. cbn [bind]. auto.
Qed.

End Digest.

(* ===================================================================== *)
(** ** Evaluations at the scripts' inputs                                 *)
(* ===================================================================== *)

Lemma Ok_inj {A : Type} (a b : A) : Ok a = Ok b -> a = b.
Proof. now intros [= ->]. Qed.

(** test1.py: the order is built, and the signable message has the
    domain separator as header and the order's struct hash as body. *)
Lemma test1_order_ok : exists o, Test1.order Keccak.keccak256 = Ok o.
Proof. eexists. vm_compute. reflexivity. Qed.

Lemma test1_signable_message_value :
  Test1.signable_message Keccak.keccak256
  = Ok (Signable [x01] Scenario.test1_header Scenario.test1_body).
Proof. vm_compute. reflexivity. Qed.

Lemma test1_typed_data_digest_value :
  hash_eip191_message Keccak.keccak256
    (Signable [x01] Scenario.test1_header Scenario.test1_body)
  = Scenario.test1_typed_data_digest.
Proof. vm_compute. reflexivity. Qed.

Lemma test1_body_is_not_the_typed_data_digest :
  Scenario.test1_body <> Scenario.test1_typed_data_digest.
Proof. vm_compute. discriminate. Qed.

Lemma test1_wrap_is_not_the_digest :
  Scenario.test1_eth_message_hash <> Scenario.test1_body.
Proof. vm_compute. discriminate. Qed.

Lemma test1_wrap_value :
  Keccak.keccak256 (eth_sign_prefix ++ Scenario.test1_body)%list
  = Scenario.test1_eth_message_hash.
Proof. vm_compute. reflexivity. Qed.

Lemma test1_sign_hash_value :
  Secp256k1.sign_hash Scenario.test1_eth_message_hash Test1.PRIVATE_KEY
  = Ok Scenario.test1_signed.
Proof. vm_compute. reflexivity. Qed.

Lemma test1_signed_hex : Bytes.hex Scenario.test1_signed = Scenario.test1_signature.
Proof. vm_compute. reflexivity. Qed.

Lemma test1_digest_value :
  Test1.digest Keccak.keccak256 = Ok Scenario.test1_body.
Proof.
  exact (test1_digest_of_signable Keccak.keccak256 _ test1_signable_message_value).
Qed.

Lemma test1_eth_message_hash_value :
  Test1.eth_message_hash Keccak.keccak256 = Ok Scenario.test1_eth_message_hash.
Proof.
  rewrite (proj1 (test1_signed Keccak.keccak256 Secp256k1.sign_hash _
                    test1_digest_value)).
  now rewrite test1_wrap_value.
Qed.

Lemma test1_signed_value :
  Test1.signed Keccak.keccak256 Secp256k1.sign_hash = Ok Scenario.test1_signed.
Proof.
  rewrite (proj2 (test1_signed Keccak.keccak256 Secp256k1.sign_hash _
                    test1_digest_value)).
  rewrite test1_wrap_value. exact test1_sign_hash_value.
Qed.

(** tryTx.py on the sample quote. *)
Lemma scenario_order_value :
  TryTx.construct_order Keccak.keccak256 Scenario.quote_data = Ok Scenario.order.
Proof. vm_compute. reflexivity. Qed.

Lemma scenario_signable_message_value :
  encode_typed_data Keccak.keccak256 (TryTx.typed_data Scenario.g Scenario.order)
  = Ok (Signable [x01] Scenario.test1_header Scenario.digest).
Proof. vm_compute. reflexivity. Qed.

Lemma scenario_typed_data_digest_differs :
  hash_eip191_message Keccak.keccak256
    (Signable [x01] Scenario.test1_header Scenario.digest)
  <> Scenario.digest.
Proof. vm_compute. discriminate. Qed.

Lemma scenario_wrap_is_not_the_digest :
  Scenario.eth_message_hash <> Scenario.digest.
Proof. vm_compute. discriminate. Qed.

Lemma scenario_wrap_value :
  Keccak.keccak256 (eth_sign_prefix ++ Scenario.digest)%list
  = Scenario.eth_message_hash.
Proof. vm_compute. reflexivity. Qed.

Lemma scenario_signed :
  Secp256k1.sign_hash Scenario.eth_message_hash TryTx.PRIVATE_KEY
  = Ok Scenario.signed.
Proof. vm_compute. reflexivity. Qed.

Lemma scenario_digest_value :
  TryTx.digest Keccak.keccak256 Scenario.g Scenario.order = Ok Scenario.digest.
Proof.
  exact (tryTx_digest_of_signable Keccak.keccak256 Scenario.g _ _
           scenario_signable_message_value).
Qed.

Lemma scenario_eth_message_hash_value :
  TryTx.eth_message_hash Keccak.keccak256 Scenario.g Scenario.order
  = Ok Scenario.eth_message_hash.
Proof.
  rewrite (tryTx_eth_message_hash Keccak.keccak256 Scenario.g _ _
             scenario_digest_value).
  now rewrite scenario_wrap_value.
Qed.

(** C1 at the inputs of test1.py.  The value bound to [digest] is the
    body of the signable message, the struct hash of the order
    ([517b...]).  The typed-data digest
    [keccak(0x19 || 0x01 || domainSeparator || messageHash)] of the same
    message is another value ([b80b...]): the domain separator
    ([daee...]), the header of the signable message, never enters what
    the script signs. *)
Theorem test1_digest_is_the_message_hash_alone :
  let K := Keccak.keccak256 in
  Test1.signable_message K
  = Ok (Signable [x01] Scenario.test1_header Scenario.test1_body) /\
  Test1.digest K = Ok Scenario.test1_body /\
  Test1.digest K
  = bind (Test1.order K) (fun o => hash_struct K "Order" message_types (VDict o)) /\
  hash_domain K Test1.domain = Ok Scenario.test1_header /\
  bind (Test1.signable_message K) (fun m => Ok (hash_eip191_message K m))
  = Ok Scenario.test1_typed_data_digest /\
  Bytes.hex Scenario.test1_body
  = "517b9078e58cbc6fc66501454af956e292dd2a7b676e3ad0ac6a5dfe5ffef235" /\
  Bytes.hex Scenario.test1_header
  = "daee378bd0eb30ddf479272accf91761e697bc00e067a268f95f1d2732ed230b" /\
  Bytes.hex Scenario.test1_typed_data_digest
  = "b80b66a20670697f1640cd97798d321bcf492df9d529995708ddafe2db9d7178" /\
  Test1.digest K <> Ok Scenario.test1_typed_data_digest.
Proof.
  intros K. subst K.
  destruct test1_order_ok as [o Ho].
  assert (Hm := test1_signable_message_value).
  assert (Hd := test1_digest_value).
  split; [exact Hm|]. split; [exact Hd|].
  split.
  { rewrite Ho, Hd.
    rewrite <- (test1_digest_is_struct_hash Keccak.keccak256 o _ Ho Hd).
    reflexivity. }
  split.
  { rewrite (test1_signable_message_unfold Keccak.keccak256 o Ho) in Hm.
    exact (proj1 (proj2 (encode_typed_data_body _ _ _ _ Hm))). }
  split.
  { rewrite Hm. rewrite <- test1_typed_data_digest_value. reflexivity. }
  split; [vm_compute; reflexivity|].
  split; [vm_compute; reflexivity|].
  split; [vm_compute; reflexivity|].
  rewrite Hd. intros H.
  exact (test1_body_is_not_the_typed_data_digest (Ok_inj _ _ H)).
Qed.

(** The same in tryTx.py, at the order built from the sample quote. *)
Lemma tryTx_digest_is_the_message_hash_alone :
  let K := Keccak.keccak256 in
  TryTx.digest K Scenario.g Scenario.order = Ok Scenario.digest /\
  hash_struct K "Order" message_types (VDict Scenario.order) = Ok Scenario.digest /\
  forall m,
    encode_typed_data K (TryTx.typed_data Scenario.g Scenario.order) = Ok m ->
    hash_eip191_message K m <> Scenario.digest.
Proof.
  intros K. subst K.
  split; [exact scenario_digest_value|].
  split; [exact (tryTx_digest_is_struct_hash _ _ _ _ scenario_digest_value)|].
  intros m Hm. rewrite scenario_signable_message_value in Hm.
  rewrite <- (Ok_inj _ _ Hm). exact scenario_typed_data_digest_differs.
Qed.

(** C3, as the code has it.  The wrap is applied on the only path there
    is: whenever the digest is [d], the hash handed to the signer is
    [keccak(p || d)] with [p] the 28 bytes
    [\x19Ethereum Signed Message:\n32], and the [signingScheme] entry of
    the order, whatever it holds, changes nothing. *)
Theorem signing_value_is_always_the_ethSign_wrap
    (keccak : bytes -> bytes) (sign_hash : bytes -> string -> result bytes)
    (g : TryTx.globals) (order : pydict) (d : bytes) :
  TryTx.digest keccak g order = Ok d ->
  length eth_sign_prefix = 28%nat /\
  Bytes.hex eth_sign_prefix
  = "19457468657265756d205369676e6564204d6573736167653a0a3332" /\
  TryTx.eth_message_hash keccak g order = Ok (keccak (eth_sign_prefix ++ d)%list) /\
  TryTx.sign_order keccak sign_hash g order
  = bind (sign_hash (keccak (eth_sign_prefix ++ d)%list) TryTx.PRIVATE_KEY)
         (fun s => Ok (Bytes.hex s)) /\
  (forall scheme : pyval,
      TryTx.eth_message_hash keccak g (Dict.set order "signingScheme" scheme)
      = Ok (keccak (eth_sign_prefix ++ d)%list)) /\
  (forall d' : bytes,
      Test1.digest keccak = Ok d' ->
      Test1.signed keccak sign_hash
      = sign_hash (keccak (eth_sign_prefix ++ d')%list) Test1.PRIVATE_KEY).
Proof.
  intros H. split; [reflexivity|]. split; [reflexivity|].
  split; [now apply tryTx_eth_message_hash|].
  split; [now apply tryTx_sign_order|].
  split.
  - intros scheme. apply tryTx_eth_message_hash.
    rewrite <- H. apply digest_agree. apply agree_set_extra.
    cbn. intuition discriminate.
  - intros d' H'. now apply test1_signed.
Qed.

Lemma signing_value_is_always_the_ethSign_wrap_witness :
  TryTx.digest Keccak.keccak256 Scenario.g Scenario.order = Ok Scenario.digest /\
  TryTx.eth_message_hash Keccak.keccak256 Scenario.g Scenario.order
  = Ok (Keccak.keccak256 (eth_sign_prefix ++ Scenario.digest)%list).
Proof.
  split; [exact scenario_digest_value|].
  exact (proj1 (proj2 (proj2 (signing_value_is_always_the_ethSign_wrap
           Keccak.keccak256 Secp256k1.sign_hash Scenario.g _ _
           scenario_digest_value)))).
Defined.

(** C3 as stated fails: an order that carries the scheme [eip712] is
    signed over the wrapped hash all the same, not over its digest. *)
Lemma eip712_order_is_signed_wrapped :
  let K := Keccak.keccak256 in
  Dict.get Scenario.order "signingScheme" = Some (VStr "eip712") /\
  TryTx.digest K Scenario.g Scenario.order = Ok Scenario.digest /\
  TryTx.eth_message_hash K Scenario.g Scenario.order
  = Ok (K (eth_sign_prefix ++ Scenario.digest)%list) /\
  TryTx.eth_message_hash K Scenario.g Scenario.order <> Ok Scenario.digest.
Proof.
  intros K. subst K.
  split; [vm_compute; reflexivity|].
  split; [exact scenario_digest_value|].
  split.
  - rewrite scenario_eth_message_hash_value. now rewrite scenario_wrap_value.
  - rewrite scenario_eth_message_hash_value. intros H.
    exact (scenario_wrap_is_not_the_digest (Ok_inj _ _ H)).
Qed.

(** C8 at a quote of the service.  tryTx.py copies [kind] and the two
    balance locations from the quote as they are, the plain tags, and
    signs them as such: the word encoded for [kind] is the text [sell]
    padded with zero bytes, not its hash.  test1.py does hash the tags. *)
Theorem tryTx_signs_the_plain_tags :
  let K := Keccak.keccak256 in
  TryTx.construct_order K Scenario.quote_data = Ok Scenario.order /\
  Dict.get Scenario.order "kind" = Some (VStr "sell") /\
  Dict.get Scenario.order "sellTokenBalance" = Some (VStr "erc20") /\
  Dict.get Scenario.order "buyTokenBalance" = Some (VStr "erc20") /\
  bind (encode_field K message_types "bytes32" (Dict.get Scenario.order "kind"))
       (fun tv => abi_encode (fst tv) (snd tv))
  = Ok (zpad32_right (Bytes.of_text "sell")) /\
  zpad32_right (Bytes.of_text "sell") <> K (Bytes.of_text "sell") /\
  bind (Test1.order K) (fun o => Ok (Dict.get o "kind"))
  = Ok (Some (VBytes (K (Bytes.of_text "sell")))) /\
  bind (Test1.order K) (fun o => Ok (Dict.get o "sellTokenBalance"))
  = Ok (Some (VBytes (K (Bytes.of_text "erc20")))) /\
  bind (Test1.order K) (fun o => Ok (Dict.get o "buyTokenBalance"))
  = Ok (Some (VBytes (K (Bytes.of_text "erc20")))).
Proof.
  intros K. subst K.
  split; [exact scenario_order_value|].
  evaluate_conjuncts.
  vm_compute. discriminate.
Qed.

(** For every quote, the three entries are the quote's own values. *)
Lemma construct_order_copies_the_tags
    (keccak : bytes -> bytes) (quote_data : pyval) (order : pydict) (k : string) :
  In k ["kind"; "sellTokenBalance"; "buyTokenBalance"; "signingScheme"] ->
  TryTx.construct_order keccak quote_data = Ok order ->
  exists v, TryTx.quote_field quote_data k = Ok v /\ Dict.get order k = Some v.
Proof.
  intros Hk H.
  destruct (construct_order_entries keccak quote_data order H) as (_ & _ & Hq).
  destruct (Hq k Hk) as [Hv Hn].
  destruct (Dict.get order k) as [v|]; [|contradiction].
  now exists v.
Qed.

(* ===================================================================== *)
(** ** The pipeline of tryTx.py                                           *)
(* ===================================================================== *)

Section Pipeline.

Import TryTx.

Variable keccak : bytes -> bytes.
Variable sign_hash : bytes -> string -> result bytes.
Variable world : service.
Variable g : globals.

(** The requests of a run of [main]: the quote request, then the
    submission when there is one. *)
Lemma main_trace :
  snd (main keccak sign_hash world g [])
  = Post quote_url (quote_request g) ::
    match submitted_order keccak sign_hash g
            (world [] quote_url (quote_request g)) with
    | Some o => [Post orders_url (VDict o)]
    | None => []
    end.
Proof.
  unfold main, get_order_quote, io_bind, requests_post, lift, io_ret,
    submitted_order.
  cbn [app].
  destruct (world [] quote_url (quote_request g)) as [r|e]; [|reflexivity].
  destruct (status_code r =? 200)%Z; [|reflexivity].
  destruct (json r) as [q|e]; [|reflexivity].
  destruct (truthy q); cbn [negb]; [|reflexivity].
  destruct (construct_order keccak q) as [order|e]; [|reflexivity].
  unfold try_except_ValueError, submit_order, io_bind, lift, requests_post,
    io_ret.
  destruct (sign_order keccak sign_hash g order) as [signature|e];
    [|destruct (is_ValueError e); reflexivity].
  unfold getitem. rewrite DictFacts.get_set_eq.
  cbn [truthy append String.eqb negb app].
  destruct (world _ _ _) as [submit_response|e];
    [reflexivity | destruct (is_ValueError e); reflexivity].
Qed.

(** When [submitted_order] is defined, every step before the
    submission has succeeded. *)
Lemma submitted_order_inv (o : pydict) :
  submitted_order keccak sign_hash g (world [] quote_url (quote_request g))
  = Some o ->
  exists r q order signature,
    world [] quote_url (quote_request g) = Ok r /\ status_code r = 200%Z /\ json r = Ok q /\ truthy q = true /\
    construct_order keccak q = Ok order /\
    sign_order keccak sign_hash g order = Ok signature /\
    o = Dict.set order "signature" (VStr ("0x" ++ signature)).
Proof.
  unfold submitted_order.
  destruct (world [] quote_url (quote_request g)) as [r|e]; [|discriminate].
  destruct (status_code r =? 200)%Z eqn:Es; [|discriminate].
  destruct (json r) as [q|e] eqn:Eq; [|discriminate].
  destruct (truthy q) eqn:Et; [|discriminate].
  destruct (construct_order keccak q) as [order|e] eqn:Ec; [|discriminate].
  destruct (sign_order keccak sign_hash g order) as [signature|e] eqn:Eg;
    [|discriminate].
  intros [= <-]. exists r, q, order, signature.
  apply Z.eqb_eq in Es.
  repeat match goal with |- _ /\ _ => split end; auto.
Qed.

Lemma submitted_order_ok r q order signature :
  world [] quote_url (quote_request g) = Ok r ->
  status_code r = 200%Z -> json r = Ok q -> truthy q = true ->
  construct_order keccak q = Ok order ->
  sign_order keccak sign_hash g order = Ok signature ->
  submitted_order keccak sign_hash g (world [] quote_url (quote_request g))
  = Some (Dict.set order "signature" (VStr ("0x" ++ signature))).
Proof.
  intros Hr Hs Hq Ht Hc Hg. unfold submitted_order.
  rewrite Hr, Hs, Hq, Ht, Hc, Hg. reflexivity.
Qed.

End Pipeline.

(** The sample run: the order is built from the quote, signed, and
    submitted with its signature. *)
Lemma scenario_sign_order_value :
  TryTx.sign_order Keccak.keccak256 Secp256k1.sign_hash Scenario.g Scenario.order
  = Ok (Bytes.hex Scenario.signed).
Proof.
  rewrite (tryTx_sign_order Keccak.keccak256 Secp256k1.sign_hash Scenario.g _ _
             scenario_digest_value).
  rewrite scenario_wrap_value, scenario_signed. reflexivity.
Qed.

Lemma scenario_main_trace :
  snd (TryTx.main Keccak.keccak256 Secp256k1.sign_hash
         (Scenario.serving Scenario.quote_data) Scenario.g [])
  = [TryTx.Post TryTx.quote_url (TryTx.quote_request Scenario.g);
     TryTx.Post TryTx.orders_url
       (VDict (Dict.set Scenario.order "signature"
                 (VStr ("0x" ++ Bytes.hex Scenario.signed))))].
Proof.
  rewrite main_trace.
  now rewrite (submitted_order_ok Keccak.keccak256 Secp256k1.sign_hash
                 (Scenario.serving Scenario.quote_data) Scenario.g
                 (TryTx.Response 200 "" (Ok Scenario.quote_data))
                 Scenario.quote_data Scenario.order (Bytes.hex Scenario.signed)
                 eq_refl eq_refl eq_refl eq_refl
                 scenario_order_value scenario_sign_order_value).
Qed.

(** C9: a run of [main] goes through quote, build, sign and submit once
    each.  For every service and every signer: the quote request is
    sent exactly once and first, and at most one submission after it; a
    submission is only ever sent when the quote came back with status
    200 and a non-empty document, [construct_order] returned and
    [sign_order] returned; a quote request that raises, a quote answered
    with another status, a [construct_order] that raises and a
    [sign_order] that raises each leave the quote request as the only
    request of the run; and when every step succeeds the run is the
    quote request followed by exactly one submission, of the order that
    [construct_order] built from the quote with the signature that
    [sign_order] returned for it.  On the sample quote, with Keccak-256
    and the ECDSA signer, every step does succeed and the run is these
    two requests. *)
Theorem main_attempts_each_step_once :
  (forall (keccak : bytes -> bytes) (sign_hash : bytes -> string -> result bytes)
          (world : TryTx.service) (g : TryTx.globals),
      let req := TryTx.quote_request g in
      let reply := world [] TryTx.quote_url req in
      let tr := snd (TryTx.main keccak sign_hash world g []) in
      (tr = [TryTx.Post TryTx.quote_url req] \/
       exists payload,
         tr = [TryTx.Post TryTx.quote_url req;
               TryTx.Post TryTx.orders_url payload]) /\
      (forall payload,
          In (TryTx.Post TryTx.orders_url payload) tr ->
          exists r q order signature,
            reply = Ok r /\ TryTx.status_code r = 200%Z /\
            TryTx.json r = Ok q /\ truthy q = true /\
            TryTx.construct_order keccak q = Ok order /\
            TryTx.sign_order keccak sign_hash g order = Ok signature /\
            payload = VDict (Dict.set order "signature"
                               (VStr ("0x" ++ signature)))) /\
      (forall e, reply = Raise e -> tr = [TryTx.Post TryTx.quote_url req]) /\
      (forall r, reply = Ok r -> TryTx.status_code r <> 200%Z ->
                 tr = [TryTx.Post TryTx.quote_url req]) /\
      (forall r q e,
          reply = Ok r -> TryTx.json r = Ok q ->
          TryTx.construct_order keccak q = Raise e ->
          tr = [TryTx.Post TryTx.quote_url req]) /\
      (forall r q order e,
          reply = Ok r -> TryTx.json r = Ok q ->
          TryTx.construct_order keccak q = Ok order ->
          TryTx.sign_order keccak sign_hash g order = Raise e ->
          tr = [TryTx.Post TryTx.quote_url req]) /\
      (forall r q order signature,
          reply = Ok r -> TryTx.status_code r = 200%Z ->
          TryTx.json r = Ok q -> truthy q = true ->
          TryTx.construct_order keccak q = Ok order ->
          TryTx.sign_order keccak sign_hash g order = Ok signature ->
          tr = [TryTx.Post TryTx.quote_url req;
                TryTx.Post TryTx.orders_url
                  (VDict (Dict.set order "signature"
                            (VStr ("0x" ++ signature))))])) /\
  TryTx.construct_order Keccak.keccak256 Scenario.quote_data = Ok Scenario.order /\
  TryTx.sign_order Keccak.keccak256 Secp256k1.sign_hash Scenario.g Scenario.order
  = Ok (Bytes.hex Scenario.signed) /\
  snd (TryTx.main Keccak.keccak256 Secp256k1.sign_hash
         (Scenario.serving Scenario.quote_data) Scenario.g [])
  = [TryTx.Post TryTx.quote_url (TryTx.quote_request Scenario.g);
     TryTx.Post TryTx.orders_url
       (VDict (Dict.set Scenario.order "signature"
                 (VStr ("0x" ++ Bytes.hex Scenario.signed))))].
Proof.
  split; [|split; [exact scenario_order_value|];
           split; [exact scenario_sign_order_value | exact scenario_main_trace]].
  intros keccak sign_hash world g req reply tr.
  assert (Htr : tr = TryTx.Post TryTx.quote_url req ::
                     match submitted_order keccak sign_hash g reply with
                     | Some o => [TryTx.Post TryTx.orders_url (VDict o)]
                     | None => []
                     end) by apply main_trace.
  repeat match goal with |- _ /\ _ => split end.
  - rewrite Htr. destruct (submitted_order keccak sign_hash g reply) as [o|];
      [right; now exists (VDict o) | now left].
  - intros payload Hin. rewrite Htr in Hin.
    destruct (submitted_order keccak sign_hash g reply) as [o|] eqn:Eo.
    + destruct Hin as [Hin | [Hin | []]]; [discriminate Hin|].
      injection Hin as <-.
      destruct (submitted_order_inv keccak sign_hash world g o Eo)
        as (r & q & order & signature & H1 & H2 & H3 & H4 & H5 & H6 & ->).
      exists r, q, order, signature.
      repeat match goal with |- _ /\ _ => split end; auto.
    + destruct Hin as [Hin | []]. discriminate Hin.
  - intros e He. rewrite Htr. unfold submitted_order. now rewrite He.
  - intros r Hr Hs. rewrite Htr. unfold submitted_order. rewrite Hr.
    destruct (TryTx.status_code r =? 200)%Z eqn:E; [|reflexivity].
    apply Z.eqb_eq in E. contradiction.
  - intros r q e Hr Hq Hc. rewrite Htr. unfold submitted_order.
    rewrite Hr, Hq, Hc.
    destruct (TryTx.status_code r =? 200)%Z; [|reflexivity].
    destruct (truthy q); reflexivity.
  - intros r q order e Hr Hq Hc Hs. rewrite Htr. unfold submitted_order.
    rewrite Hr, Hq, Hc, Hs.
    destruct (TryTx.status_code r =? 200)%Z; [|reflexivity].
    destruct (truthy q); reflexivity.
  - intros r q order signature Hr Hs Hq Ht Hc Hg. rewrite Htr.
    unfold reply, req in Hr |- *.
    now rewrite (submitted_order_ok keccak sign_hash world g r q order signature
                   Hr Hs Hq Ht Hc Hg).
Qed.

(** A quote service that is down: one request and nothing after it. *)
Example main_stops_when_the_quote_fails :
  snd (TryTx.main Keccak.keccak256 Secp256k1.sign_hash Scenario.unavailable
         Scenario.g [])
  = [TryTx.Post TryTx.quote_url (TryTx.quote_request Scenario.g)].
Proof. reflexivity. Qed.

(** A quote that cannot be signed: [sign_order] raises [ValueError],
    [main] catches it, and nothing is submitted. *)
Example main_stops_when_signing_fails :
  TryTx.main Keccak.keccak256 Secp256k1.sign_hash
    (Scenario.serving Scenario.bad_quote_data) Scenario.g []
  = (Ok tt, [TryTx.Post TryTx.quote_url (TryTx.quote_request Scenario.g)]).
Proof. vm_compute. reflexivity. Qed.

(** C5: when the signer returns 65 bytes for the order's hash, the
    [signature] entry of the payload that [main] posts to the order book
    is ["0x"] followed by the hex text of exactly those bytes: 132
    characters, hex digits only after the one prefix, and decoding the
    text gives the 65 bytes back. *)
Theorem submitted_signature_is_0x_hex
    (keccak : bytes -> bytes) (sign_hash : bytes -> string -> result bytes)
    (world : TryTx.service) (g : TryTx.globals)
    (r : TryTx.response) (q : pyval) (order : pydict) (h sig : bytes) :
  world [] TryTx.quote_url (TryTx.quote_request g) = Ok r ->
  TryTx.status_code r = 200%Z ->
  TryTx.json r = Ok q ->
  truthy q = true ->
  TryTx.construct_order keccak q = Ok order ->
  TryTx.eth_message_hash keccak g order = Ok h ->
  sign_hash h TryTx.PRIVATE_KEY = Ok sig ->
  length sig = 65%nat ->
  exists payload : pydict,
    snd (TryTx.main keccak sign_hash world g [])
    = [TryTx.Post TryTx.quote_url (TryTx.quote_request g);
       TryTx.Post TryTx.orders_url (VDict payload)] /\
    Dict.get payload "signature" = Some (VStr ("0x" ++ Bytes.hex sig)) /\
    String.length ("0x" ++ Bytes.hex sig) = 132%nat /\
    Bytes.is_hex_digits (Bytes.hex sig) = true /\
    Text.decode_hex ("0x" ++ Bytes.hex sig) = Some sig.
Proof.
  intros Hr Hs Hq Ht Hc Hh Hg Hlen.
  assert (Hsign : TryTx.sign_order keccak sign_hash g order = Ok (Bytes.hex sig)).
  { unfold TryTx.sign_order. rewrite Hh. cbn [bind]. now rewrite Hg. }
  exists (Dict.set order "signature" (VStr ("0x" ++ Bytes.hex sig))).
  split.
  - rewrite main_trace.
    now rewrite (submitted_order_ok keccak sign_hash world g r q order _
                   Hr Hs Hq Ht Hc Hsign).
  - split; [apply DictFacts.get_set_eq|].
    split.
    + cbn [append String.length]. rewrite BytesFacts.length_hex, Hlen. reflexivity.
    + split; [apply BytesFacts.is_hex_digits_hex | apply BytesFacts.decode_hex_0x_hex].
Qed.

Lemma submitted_signature_is_0x_hex_witness :
  length Scenario.signed = 65%nat /\
  exists payload : pydict,
    snd (TryTx.main Keccak.keccak256 Secp256k1.sign_hash
           (Scenario.serving Scenario.quote_data) Scenario.g [])
    = [TryTx.Post TryTx.quote_url (TryTx.quote_request Scenario.g);
       TryTx.Post TryTx.orders_url (VDict payload)] /\
    Dict.get payload "signature" = Some (VStr ("0x" ++ Bytes.hex Scenario.signed)) /\
    String.length ("0x" ++ Bytes.hex Scenario.signed) = 132%nat /\
    Bytes.is_hex_digits (Bytes.hex Scenario.signed) = true /\
    Text.decode_hex ("0x" ++ Bytes.hex Scenario.signed) = Some Scenario.signed.
Proof.
  assert (Hlen : length Scenario.signed = 65%nat) by (vm_compute; reflexivity).
  split; [exact Hlen|].
  apply (submitted_signature_is_0x_hex
           Keccak.keccak256 Secp256k1.sign_hash
           (Scenario.serving Scenario.quote_data) Scenario.g
           (TryTx.Response 200 "" (Ok Scenario.quote_data))
           Scenario.quote_data Scenario.order
           Scenario.eth_message_hash Scenario.signed).
  - reflexivity.
  - reflexivity.
  - reflexivity.
  - reflexivity.
  - exact scenario_order_value.
  - exact scenario_eth_message_hash_value.
  - exact scenario_signed.
  - exact Hlen.
Defined.

(** What the signer returns is made of the hash and the key alone:
    [r], [s] and [v] come from [ecdsa_raw_sign], whose nonce is that of
    RFC 6979. *)
Lemma sign_hash_inv (h : bytes) (key : string) (sig : bytes) :
  Secp256k1.sign_hash h key = Ok sig ->
  exists key_bytes v r s,
    Text.decode_hex key = Some key_bytes /\
    Secp256k1.ecdsa_raw_sign h key_bytes = (v, r, s) /\
    r = fst (Secp256k1.fast_multiply (Secp256k1.Gx, Secp256k1.Gy)
               (Secp256k1.deterministic_generate_k h key_bytes)) /\
    sig = (Secp256k1.to_bytes32 r ++ Secp256k1.to_bytes32 s
           ++ [Bytes.byte_of_N (Z.to_N (BigZ.to_Z (v + 27)%bigZ))])%list.
Proof.
  unfold Secp256k1.sign_hash.
  destruct (negb (Nat.eqb (length h) 32)); [discriminate|].
  destruct (Text.decode_hex key) as [key_bytes|]; [|discriminate].
  destruct (negb (Nat.eqb (length key_bytes) 32)); [discriminate|].
  destruct ((Secp256k1.big_endian_to_int key_bytes =? 0)%bigZ
            || (Secp256k1.N <=? Secp256k1.big_endian_to_int key_bytes)%bigZ);
    [discriminate|].
  destruct (Secp256k1.ecdsa_raw_sign h key_bytes) as [[v r] s] eqn:E.
  destruct ((r <? Secp256k1.N)%bigZ && (s <? Secp256k1.N)%bigZ); [|discriminate].
  intros [= <-]. exists key_bytes, v, r, s.
  split; [reflexivity|]. split; [exact E|]. split; [|reflexivity].
  assert (Hr : r = snd (fst (Secp256k1.ecdsa_raw_sign h key_bytes)))
    by (rewrite E; reflexivity).
  rewrite Hr. unfold Secp256k1.ecdsa_raw_sign.
  destruct (Secp256k1.fast_multiply (Secp256k1.Gx, Secp256k1.Gy)
              (Secp256k1.deterministic_generate_k h key_bytes)) as [x y].
  reflexivity.
Qed.

(** Two runs against order books that answer differently send the same
    requests. *)
Example runs_against_two_order_books_agree :
  Scenario.serving Scenario.quote_data <> Scenario.serving_rejecting Scenario.quote_data /\
  snd (TryTx.main Keccak.keccak256 Secp256k1.sign_hash
         (Scenario.serving Scenario.quote_data) Scenario.g [])
  = snd (TryTx.main Keccak.keccak256 Secp256k1.sign_hash
           (Scenario.serving_rejecting Scenario.quote_data) Scenario.g []).
Proof.
  split.
  - intros H.
    assert (E : Scenario.serving Scenario.quote_data [] TryTx.orders_url VNone
                = Scenario.serving_rejecting Scenario.quote_data [] TryTx.orders_url VNone)
      by now rewrite H.
    vm_compute in E. discriminate E.
  - rewrite !main_trace. reflexivity.
Qed.

(* ===================================================================== *)
(** ** The signer and the pinned run of test1.py                          *)
(* ===================================================================== *)

(** Whatever the signer returns is 65 bytes long: [r], [s] and [v]. *)
Lemma sign_hash_length (h : bytes) (key : string) (sig : bytes) :
  Secp256k1.sign_hash h key = Ok sig -> length sig = 65%nat.
Proof.
  unfold Secp256k1.sign_hash.
  destruct (negb (Nat.eqb (length h) 32)); [discriminate|].
  destruct (Text.decode_hex key) as [key_bytes|]; [|discriminate].
  destruct (negb (Nat.eqb (length key_bytes) 32)); [discriminate|].
  destruct ((Secp256k1.big_endian_to_int key_bytes =? 0)%bigZ
            || (Secp256k1.N <=? Secp256k1.big_endian_to_int key_bytes)%bigZ);
    [discriminate|].
  destruct (Secp256k1.ecdsa_raw_sign h key_bytes) as [[v r] s].
  destruct ((r <? Secp256k1.N)%bigZ && (s <? Secp256k1.N)%bigZ); [|discriminate].
  intros [= <-]. reflexivity.
Qed.

(** C7: there is no randomness in signing.  With Keccak-256 and the
    ECDSA signer of the scripts: every signature the signer returns is
    65 bytes, [r], [s] and [v], computed from the hash and the key
    alone, [r] being the abscissa of [k G] for the nonce [k] that
    [deterministic_generate_k] derives from the hash and the key by the
    HMAC-SHA-256 chain of RFC 6979 (checked here on the known vector of
    that RFC's scheme for secp256k1); the digest and the signature of
    test1.py are closed values, the signature 65 bytes long; the
    signature [sign_order] gives the sample order is a closed value; and
    two runs of [main] against services that answer the quote request
    alike send byte-identical requests, signature included, whatever
    else the services do. *)
Theorem signing_is_deterministic :
  let K := Keccak.keccak256 in
  let S := Secp256k1.sign_hash in
  (forall (h : bytes) (key : string) (sig : bytes),
      S h key = Ok sig ->
      length sig = 65%nat /\
      exists key_bytes v r s,
        Text.decode_hex key = Some key_bytes /\
        Secp256k1.ecdsa_raw_sign h key_bytes = (v, r, s) /\
        r = fst (Secp256k1.fast_multiply (Secp256k1.Gx, Secp256k1.Gy)
                   (Secp256k1.deterministic_generate_k h key_bytes)) /\
        sig = (Secp256k1.to_bytes32 r ++ Secp256k1.to_bytes32 s
               ++ [Bytes.byte_of_N (Z.to_N (BigZ.to_Z (v + 27)%bigZ))])%list) /\
  BigZ.to_Z
    (Secp256k1.deterministic_generate_k
       (Sha256.sha256 (Bytes.of_text "Satoshi Nakamoto"))
       (Bytes.N_to_be 32 1))
  = 0x8F8A276C19F4149656B280621E358CCE24F5F52542772691EE69063B74F15D15%Z /\
  Test1.digest K = Ok Scenario.test1_body /\
  Test1.eth_message_hash K = Ok Scenario.test1_eth_message_hash /\
  Test1.signed K S = Ok Scenario.test1_signed /\
  length Scenario.test1_signed = 65%nat /\
  TryTx.sign_order K S Scenario.g Scenario.order = Ok (Bytes.hex Scenario.signed) /\
  length Scenario.signed = 65%nat /\
  (forall (g : TryTx.globals) (world1 world2 : TryTx.service),
      world1 [] TryTx.quote_url (TryTx.quote_request g)
      = world2 [] TryTx.quote_url (TryTx.quote_request g) ->
      snd (TryTx.main K S world1 g []) = snd (TryTx.main K S world2 g [])).
Proof.
  intros K S. subst K S.
  split.
  { intros h key sig H. split; [exact (sign_hash_length h key sig H)|].
    exact (sign_hash_inv h key sig H). }
  split; [exact rfc6979_nonce|].
  split; [exact test1_digest_value|].
  split; [exact test1_eth_message_hash_value|].
  split; [exact test1_signed_value|].
  split; [exact (sign_hash_length _ _ _ test1_sign_hash_value)|].
  split; [exact scenario_sign_order_value|].
  split; [exact (sign_hash_length _ _ _ scenario_signed)|].
  intros g world1 world2 H. rewrite !main_trace. now rewrite H.
Qed.

(** C2: at the inputs written out in test1.py the script's digest, its
    ethSign hash and its signature under the hard-coded key are these
    constants; the signature is 65 bytes long, and the hash handed to the
    signer is the same constant for any signer. *)
Theorem test1_reproduces_one_fixed_signature :
  let K := Keccak.keccak256 in
  Test1.digest K = Ok Scenario.test1_body /\
  Test1.eth_message_hash K = Ok Scenario.test1_eth_message_hash /\
  (forall sign_hash : bytes -> string -> result bytes,
      Test1.signed K sign_hash
      = sign_hash Scenario.test1_eth_message_hash Test1.PRIVATE_KEY) /\
  Test1.signed K Secp256k1.sign_hash = Ok Scenario.test1_signed /\
  length Scenario.test1_signed = 65%nat /\
  Test1.signature K Secp256k1.sign_hash = Ok Scenario.test1_signature /\
  Test1.stdout K Secp256k1.sign_hash
  = Ok [ "Order digest: " ++ Bytes.hex Scenario.test1_body;
         "eth_sign signature: " ++ Scenario.test1_signature ] /\
  Bytes.hex Scenario.test1_body
  = "517b9078e58cbc6fc66501454af956e292dd2a7b676e3ad0ac6a5dfe5ffef235" /\
  Bytes.hex Scenario.test1_eth_message_hash
  = "15c2703f15d43c32047da6cba32ea2155527c05346edf8c01166c4d60a7c0009".
Proof.
  intros K. subst K.
  split; [exact test1_digest_value|].
  split; [exact test1_eth_message_hash_value|].
  split.
  { intros sign_hash.
    rewrite (proj2 (test1_signed Keccak.keccak256 sign_hash _ test1_digest_value)).
    now rewrite test1_wrap_value. }
  split; [exact test1_signed_value|].
  split; [exact (sign_hash_length _ _ _ test1_sign_hash_value)|].
  split.
  { rewrite (test1_signature_of_signed _ _ _ test1_signed_value).
    now rewrite test1_signed_hex. }
  split.
  { rewrite (test1_stdout_of _ _ _ _ test1_digest_value test1_signed_value).
    now rewrite test1_signed_hex. }
  split; vm_compute; reflexivity.
Qed.

(* ===================================================================== *)
(** * More of the pipeline                                                *)
(* ===================================================================== *)

(** ** construct_order: what it reads, returns and raises                 *)

Module DictMore.

Import Dict.

(** [d[k] = v] keeps the keys and their order when [k] is there, and
    appends [k] when it is not. *)
Lemma keys_set d k v :
  keys (set d k v) = if mem k (keys d) then keys d else (keys d ++ [k])%list.
Proof.
  unfold keys, mem. induction d as [|[k' v'] r IH]; [reflexivity|].
  cbn [set map fst existsb]. rewrite (String.eqb_sym k k').
  destruct (String.eqb k' k); cbn [map fst orb]; [reflexivity|].
  rewrite IH. now destruct (existsb (String.eqb k) (map fst r)).
Qed.

Lemma get_none_iff d k : get d k = None <-> mem k (keys d) = false.
Proof.
  unfold keys, mem. induction d as [|[k' v'] r IH]; [now split|].
  cbn [get map fst existsb]. rewrite (String.eqb_sym k k').
  destruct (String.eqb k' k); cbn [orb]; [split; discriminate | exact IH].
Qed.

End DictMore.

Section ConstructOrderMore.

Variable keccak : bytes -> bytes.

(** A subscript on JSON data raises [KeyError] or [TypeError] only. *)
Lemma getitem_raises v k e :
  getitem v k = Raise e -> e = KeyError \/ e = TypeError.
Proof.
  destruct v; cbn [getitem]; try (intros [= <-]; now right).
  destruct (Dict.get d k); [discriminate | intros [= <-]; now left].
Qed.

Lemma quote_field_raises q k e :
  TryTx.quote_field q k = Raise e -> e = KeyError \/ e = TypeError.
Proof.
  unfold TryTx.quote_field.
  destruct (getitem q "quote") as [v|e'] eqn:E; cbn [bind].
  - apply getitem_raises.
  - intros [= <-]. exact (getitem_raises _ _ _ E).
Qed.

(** One step through a chain of binds that ends in [Raise]: the bound
    call raised, or it returned and the chain goes on. *)
Ltac bind_raise H :=
  match type of H with
  | bind ?m _ = Raise _ =>
      let E := fresh "E" in
      destruct m eqn:E; cbn [bind] in H;
      [| injection H as <-;
         first [ exact (quote_field_raises _ _ _ E)
               | exact (getitem_raises _ _ _ E) ] ]
  end.

Lemma construct_order_raises_inv q e :
  TryTx.construct_order keccak q = Raise e -> e = KeyError \/ e = TypeError.
Proof.
  unfold TryTx.construct_order. rewrite app_data_hash_value. cbn [bind].
  intros H. repeat bind_raise H. discriminate H.
Qed.

Lemma construct_order_not_a_dict q :
  (forall d, q <> VDict d) -> TryTx.construct_order keccak q = Raise TypeError.
Proof.
  intros Hq. unfold TryTx.construct_order. rewrite app_data_hash_value.
  cbn [bind]. unfold TryTx.quote_field at 1.
  destruct q; try reflexivity. now destruct (Hq d).
Qed.

Lemma construct_order_no_quote d :
  Dict.get d "quote" = None ->
  TryTx.construct_order keccak (VDict d) = Raise KeyError.
Proof.
  intros Hq. unfold TryTx.construct_order. rewrite app_data_hash_value.
  cbn [bind]. unfold TryTx.quote_field at 1. cbn [getitem]. now rewrite Hq.
Qed.

Lemma construct_order_keys q order :
  TryTx.construct_order keccak q = Ok order -> Dict.keys order = order_keys.
Proof.
  unfold TryTx.construct_order. rewrite app_data_hash_value. cbn [bind].
  intros H. repeat bind_ok H. injection H as <-. reflexivity.
Qed.

Lemma construct_order_values q order :
  TryTx.construct_order keccak q = Ok order ->
  (forall k, In k quote_keys ->
             exists v, TryTx.quote_field q k = Ok v /\ Dict.get order k = Some v) /\
  (exists v, getitem q "from" = Ok v /\ Dict.get order "from" = Some v).
Proof.
  unfold TryTx.construct_order. rewrite app_data_hash_value. cbn [bind].
  intros H. repeat bind_ok H. injection H as <-.
  split.
  - intros k Hk. cbn in Hk.
    repeat (destruct Hk as [<- | Hk]; [eexists; split; [eassumption | reflexivity]|]).
    contradiction.
  - eexists. split; reflexivity.
Qed.

End ConstructOrderMore.

(** X1: the dict [construct_order] returns has these fifteen keys, each
    once and in this order ([kind], written twice, stays in its first
    place; [receiver], [from], [signingScheme] and [appDataHash] come
    last); every entry but [appData] and [appDataHash] is the value the
    quote holds under the same name, as it is. *)
Theorem construct_order_layout
    (keccak : bytes -> bytes) (quote_data : pyval) (order : pydict) :
  TryTx.construct_order keccak quote_data = Ok order ->
  Dict.keys order = order_keys /\
  NoDup (Dict.keys order) /\
  (forall k, In k quote_keys ->
             exists v, TryTx.quote_field quote_data k = Ok v /\
                       Dict.get order k = Some v) /\
  (exists v, getitem quote_data "from" = Ok v /\ Dict.get order "from" = Some v) /\
  Dict.get order "signature" = None.
Proof.
  intros H.
  assert (Hk := construct_order_keys keccak _ _ H).
  destruct (construct_order_values keccak _ _ H) as [Hv Hf].
  split; [exact Hk|]. split.
  - rewrite Hk. unfold order_keys.
    repeat (constructor; [cbn; intuition discriminate|]). constructor.
  - split; [exact Hv|]. split; [exact Hf|].
    apply DictMore.get_none_iff. now rewrite Hk.
Qed.

Lemma construct_order_layout_witness :
  TryTx.construct_order Keccak.keccak256 Scenario.quote_data = Ok Scenario.order /\
  Dict.keys Scenario.order = order_keys.
Proof.
  split; [exact scenario_order_value|].
  exact (proj1 (construct_order_layout _ _ _ scenario_order_value)).
Defined.

(** X2: [construct_order] raises nothing but [KeyError] and [TypeError]:
    [TypeError] when the quote document is not a dict, [KeyError] when it
    has no [quote] entry; neither is a [ValueError]. *)
Theorem construct_order_raises_only_KeyError_or_TypeError
    (keccak : bytes -> bytes) (quote_data : pyval) (e : exn) :
  TryTx.construct_order keccak quote_data = Raise e ->
  (e = KeyError \/ e = TypeError) /\
  is_ValueError e = false /\
  ((forall d, quote_data <> VDict d) -> e = TypeError) /\
  (forall d, quote_data = VDict d -> Dict.get d "quote" = None -> e = KeyError).
Proof.
  intros H.
  assert (He := construct_order_raises_inv keccak _ _ H).
  split; [exact He|]. split; [now destruct He as [-> | ->]|]. split.
  - intros Hq. rewrite (construct_order_not_a_dict keccak _ Hq) in H.
    now injection H.
  - intros d -> Hq. rewrite (construct_order_no_quote keccak _ Hq) in H.
    now injection H.
Qed.

Lemma construct_order_raises_only_KeyError_or_TypeError_witness :
  TryTx.construct_order Keccak.keccak256 (VDict [("quote", VDict [])])
  = Raise KeyError /\
  is_ValueError KeyError = false.
Proof.
  assert (H : TryTx.construct_order Keccak.keccak256 (VDict [("quote", VDict [])])
              = Raise KeyError) by reflexivity.
  split; [exact H|].
  exact (proj1 (proj2 (construct_order_raises_only_KeyError_or_TypeError _ _ _ H))).
Defined.

(** X3: [construct_order] reads the twelve [quote] entries it copies and
    the [from] entry, nothing else: two quote documents that agree on
    those give the same order or the same exception.  In particular the
    [appData] of the quote never reaches the order. *)
Theorem construct_order_reads_thirteen_entries
    (keccak : bytes -> bytes) (q1 q2 : pyval) :
  (forall k, In k quote_keys -> TryTx.quote_field q1 k = TryTx.quote_field q2 k) ->
  getitem q1 "from" = getitem q2 "from" ->
  TryTx.construct_order keccak q1 = TryTx.construct_order keccak q2.
Proof.
  intros Hk Hf. unfold TryTx.construct_order.
  rewrite !(Hk "sellToken"), !(Hk "buyToken"), !(Hk "sellAmount"),
    !(Hk "buyAmount"), !(Hk "validTo"), !(Hk "feeAmount"), !(Hk "kind"),
    !(Hk "partiallyFillable"), !(Hk "sellTokenBalance"),
    !(Hk "buyTokenBalance"), !(Hk "receiver"), !(Hk "signingScheme"), Hf;
    try (cbn; tauto).
Qed.

Lemma construct_order_reads_thirteen_entries_witness :
  TryTx.quote_field Scenario.quote_data "appData"
  <> TryTx.quote_field Scenario2.quote_data_other "appData" /\
  TryTx.construct_order Keccak.keccak256 Scenario.quote_data
  = TryTx.construct_order Keccak.keccak256 Scenario2.quote_data_other.
Proof.
  split; [vm_compute; discriminate|].
  apply (construct_order_reads_thirteen_entries
           Keccak.keccak256 Scenario.quote_data Scenario2.quote_data_other).
  - intros k Hk. cbn in Hk.
    repeat (destruct Hk as [<- | Hk]; [reflexivity|]). contradiction.
  - reflexivity.
Defined.

(** *** When construct_order returns *)

Section ConstructOrderReturns.

Variable keccak : bytes -> bytes.

Lemma quote_field_ok_inv q k v :
  TryTx.quote_field q k = Ok v ->
  exists d qd, q = VDict d /\ Dict.get d "quote" = Some (VDict qd) /\
               Dict.get qd k = Some v.
Proof.
  unfold TryTx.quote_field. destruct q as [| | | | | |d]; try discriminate.
  cbn [getitem]. destruct (Dict.get d "quote") as [x|] eqn:E; [|discriminate].
  cbn [bind]. destruct x as [| | | | | |qd]; try discriminate.
  cbn [getitem]. destruct (Dict.get qd k) as [y|] eqn:Ek; [|discriminate].
  intros [= <-]. now exists d, qd.
Qed.

Lemma quote_field_ok d qd k v :
  Dict.get d "quote" = Some (VDict qd) -> Dict.get qd k = Some v ->
  TryTx.quote_field (VDict d) k = Ok v.
Proof.
  intros Hq Hk. unfold TryTx.quote_field. cbn [getitem]. rewrite Hq.
  cbn [bind getitem]. now rewrite Hk.
Qed.

Lemma construct_order_ok q :
  (forall k, In k quote_keys -> exists v, TryTx.quote_field q k = Ok v) ->
  (exists v, getitem q "from" = Ok v) ->
  exists order, TryTx.construct_order keccak q = Ok order.
Proof.
  intros Hk [vf Hf]. unfold TryTx.construct_order.
  rewrite app_data_hash_value. cbn [bind].
  repeat match goal with
         | |- context [TryTx.quote_field q ?k] =>
             let v := fresh "v" in
             let E := fresh "E" in
             destruct (Hk k) as [v E]; [cbn; tauto|]; rewrite !E; cbn [bind]
         end.
  rewrite Hf. cbn [bind]. eexists. reflexivity.
Qed.

End ConstructOrderReturns.

(** X19: when [construct_order] returns.  It returns an order exactly
    when the quote document is a dict with a [from] entry and a [quote]
    entry that is itself a dict holding the twelve keys it copies
    ([sellToken], [buyToken], [sellAmount], [buyAmount], [validTo],
    [feeAmount], [kind], [partiallyFillable], [sellTokenBalance],
    [buyTokenBalance], [receiver], [signingScheme]); the values under
    those keys are not looked at.  On every other document it raises. *)
Theorem construct_order_returns_iff
    (keccak : bytes -> bytes) (quote_data : pyval) :
  (exists order, TryTx.construct_order keccak quote_data = Ok order) <->
  (exists d qd,
      quote_data = VDict d /\
      Dict.get d "quote" = Some (VDict qd) /\
      (forall k, In k quote_keys -> Dict.get qd k <> None) /\
      Dict.get d "from" <> None).
Proof.
  split.
  - intros [order H].
    destruct (construct_order_values keccak _ _ H) as [Hv [vf [Hf _]]].
    destruct (Hv "sellToken") as (v & Hq & _); [cbn; tauto|].
    destruct (quote_field_ok_inv _ _ _ Hq) as (d & qd & -> & Hd & _).
    exists d, qd. split; [reflexivity|]. split; [exact Hd|]. split.
    + intros k Hk. destruct (Hv k Hk) as (v' & Hq' & _).
      destruct (quote_field_ok_inv _ _ _ Hq') as (d' & qd' & Hd' & Hqd' & Hk').
      injection Hd' as <-. rewrite Hd in Hqd'. injection Hqd' as <-.
      now rewrite Hk'.
    + cbn [getitem] in Hf. now destruct (Dict.get d "from").
  - intros (d & qd & -> & Hd & Hk & Hf).
    apply construct_order_ok.
    + intros k Hin. specialize (Hk k Hin).
      destruct (Dict.get qd k) as [v|] eqn:E; [|now destruct Hk].
      exists v. exact (quote_field_ok d qd k v Hd E).
    + cbn [getitem]. destruct (Dict.get d "from") as [v|]; [now exists v|].
      now destruct Hf.
Qed.

(* ===================================================================== *)
(** ** sign_order: what it accepts, what it raises, what it ignores       *)
(* ===================================================================== *)

Lemma length_of_text (s : string) : length (Bytes.of_text s) = String.length s.
Proof.
  unfold Bytes.of_text, list_byte_of_string. rewrite length_map.
  induction s as [|c r IH]; [reflexivity|].
  cbn [list_ascii_of_string length String.length]. now rewrite IH.
Qed.

Lemma Forall2_Forall_In {A B : Type} (P : A -> B -> Prop) (Q : B -> Prop)
    (l : list A) (l' : list B) :
  Forall2 P l l' -> Forall Q l' ->
  forall x, In x l -> exists y, P x y /\ Q y.
Proof.
  induction 1 as [|a b l l' Hab _ IH]; intros HQ x Hx; [contradiction|].
  inversion HQ as [|? ? Hb Hl']; subst.
  destruct Hx as [<- | Hx]; [now exists b | now apply IH].
Qed.

Section SignOrderMore.

Variable keccak : bytes -> bytes.

(** [eth_abi.encode] raises nothing but an [EncodingError]. *)
Lemma abi_encode_raises t v e :
  abi_encode t v = Raise e -> e = EncodingError.
Proof.
  unfold abi_encode.
  repeat match goal with
         | |- context [match ?x with _ => _ end] => destruct x
         end;
    intros H; try discriminate H; now injection H as <-.
Qed.

Lemma abi_encode_all_raises tvs e :
  abi_encode_all tvs = Raise e -> e = EncodingError.
Proof.
  revert e. induction tvs as [|[t v] r IH]; intros e; cbn [abi_encode_all];
    [discriminate|].
  destruct (abi_encode t v) as [w|e'] eqn:E; cbn [bind].
  - destruct (abi_encode_all r) as [ws|e'']; cbn [bind]; [discriminate|].
    intros [= <-]. now apply IH.
  - intros [= <-]. exact (abi_encode_raises _ _ _ E).
Qed.

Lemma encode_fields_ok_inv types fields d tvs :
  encode_fields keccak types fields d = Ok tvs ->
  Forall2 (fun f tv =>
             encode_field keccak types (ftype f) (Dict.get d (fname f)) = Ok tv)
          fields tvs.
Proof.
  revert tvs. induction fields as [|f r IH]; intros tvs; cbn [encode_fields].
  - intros [= <-]. constructor.
  - destruct (encode_field keccak types (ftype f) (Dict.get d (fname f)))
      as [tv|e] eqn:E; cbn [bind]; [|discriminate].
    destruct (encode_fields keccak types r d) as [rest|e]; cbn [bind];
      [|discriminate].
    intros [= <-]. constructor; [exact E | now apply IH].
Qed.

Lemma abi_encode_all_ok_inv tvs ws :
  abi_encode_all tvs = Ok ws ->
  Forall (fun tv => exists w, abi_encode (fst tv) (snd tv) = Ok w) tvs.
Proof.
  revert ws. induction tvs as [|[t v] r IH]; intros ws; cbn [abi_encode_all];
    [constructor|].
  destruct (abi_encode t v) as [w|e] eqn:E; cbn [bind]; [|discriminate].
  destruct (abi_encode_all r) as [rest|e]; cbn [bind]; [|discriminate].
  intros _. constructor; [now exists w | now apply (IH rest)].
Qed.

(** A struct hash exists only when every field of the [Order] type went
    through [encode_field] and then through [eth_abi.encode]. *)
Lemma hash_struct_ok_fields (order : pydict) (d : bytes) :
  hash_struct keccak "Order" message_types (VDict order) = Ok d ->
  forall f, In f order_fields ->
    exists tv,
      encode_field keccak message_types (ftype f) (Dict.get order (fname f)) = Ok tv /\
      exists w, abi_encode (fst tv) (snd tv) = Ok w.
Proof.
  unfold hash_struct, encode_data. rewrite message_order_fields.
  destruct (encode_fields keccak message_types order_fields order)
    as [tvs|e] eqn:E; cbn [bind]; [|discriminate].
  destruct (abi_encode_all tvs) as [ws|e] eqn:W; cbn [bind]; [|discriminate].
  intros _.
  exact (Forall2_Forall_In _ _ _ _ (encode_fields_ok_inv _ _ _ _ E)
           (abi_encode_all_ok_inv _ _ W)).
Qed.

Variable sign_hash : bytes -> string -> result bytes.
Variable g : TryTx.globals.

Lemma sign_order_ok_digest (order : pydict) (s : string) :
  TryTx.sign_order keccak sign_hash g order = Ok s ->
  exists d, TryTx.digest keccak g order = Ok d.
Proof.
  unfold TryTx.sign_order, TryTx.eth_message_hash.
  destruct (TryTx.digest keccak g order) as [d|e]; [now exists d | discriminate].
Qed.

Lemma sign_order_ok_fields (order : pydict) (s : string) :
  TryTx.sign_order keccak sign_hash g order = Ok s ->
  forall f, In f order_fields ->
    exists tv,
      encode_field keccak message_types (ftype f) (Dict.get order (fname f)) = Ok tv /\
      exists w, abi_encode (fst tv) (snd tv) = Ok w.
Proof.
  intros H. destruct (sign_order_ok_digest _ _ H) as [d Hd].
  exact (hash_struct_ok_fields _ _ (tryTx_digest_is_struct_hash keccak g _ _ Hd)).
Qed.

(** What [encode_field] does on the five types of the [Order] schema. *)
Lemma encode_field_absent t :
  In t ["address"; "uint256"; "uint32"; "bytes32"; "bool"] ->
  forall v, v = None \/ v = Some VNone ->
  encode_field keccak message_types t v = Raise ValueError.
Proof.
  intros Ht v Hv. cbn in Ht.
  repeat (destruct Ht as [<- | Ht]; [destruct Hv as [-> | ->]; reflexivity|]).
  contradiction.
Qed.

Lemma encode_field_address v tv :
  encode_field keccak message_types "address" (Some v) = Ok tv ->
  tv = ("address", v).
Proof.
  destruct v; cbn; try discriminate; now intros [= <-].
Qed.

Lemma encode_field_bytes32 v tv :
  encode_field keccak message_types "bytes32" (Some v) = Ok tv ->
  exists b, bytes_of_value v = Ok b /\ tv = ("bytes32", VBytes b).
Proof.
  destruct v; cbn -[bytes_of_value]; try discriminate;
    (destruct (bytes_of_value _) as [bs|e]; cbn [bind]; [|discriminate]);
    intros [= <-]; now exists bs.
Qed.

Lemma encode_field_uint_int t z tv :
  In t ["uint256"; "uint32"] ->
  encode_field keccak message_types t (Some (VInt z)) = Ok tv -> tv = (t, VInt z).
Proof.
  intros Ht. cbn in Ht.
  repeat (destruct Ht as [<- | Ht]; [cbn; now intros [= <-]|]). contradiction.
Qed.

Lemma encode_field_uint_text t s tv :
  In t ["uint256"; "uint32"] ->
  Text.is_0x_prefixed_hexstr s = false ->
  encode_field keccak message_types t (Some (VStr s)) = Ok tv ->
  exists z, Text.int_of_text s = Some z /\ tv = (t, VInt z).
Proof.
  intros Ht Hs. cbn in Ht.
  repeat (destruct Ht as [<- | Ht];
          [cbn -[Text.is_0x_prefixed_hexstr Text.int_of_text]; rewrite Hs;
           destruct (Text.int_of_text s) as [z|]; [|discriminate];
           intros [= <-]; now exists z|]).
  contradiction.
Qed.

Lemma abi_encode_uint_ok t bits z w :
  parse_type t = Some (TUint bits) ->
  abi_encode t (VInt z) = Ok w -> (0 <= z < 2 ^ Z.of_N bits)%Z.
Proof.
  intros Ht. unfold abi_encode. rewrite Ht.
  destruct ((0 <=? z) && (z <? 2 ^ Z.of_N bits))%Z eqn:E; [|discriminate].
  intros _. apply andb_prop in E. destruct E as [E1 E2].
  apply Z.leb_le in E1. apply Z.ltb_lt in E2. now split.
Qed.

Lemma abi_encode_address_ok v w :
  abi_encode "address" v = Ok w -> is_address v = true.
Proof.
  unfold abi_encode. change (parse_type "address") with (Some TAddress).
  cbv iota. now destruct (is_address v).
Qed.

Lemma abi_encode_bytes32_ok b w :
  abi_encode "bytes32" (VBytes b) = Ok w -> (length b <= 32)%nat.
Proof.
  unfold abi_encode. change (parse_type "bytes32") with (Some (TBytesN 32)).
  cbv iota. destruct (N.of_nat (length b) <=? 32)%N eqn:E; [|discriminate].
  intros _. apply N.leb_le in E. lia.
Qed.

End SignOrderMore.

Section SignOrderTheory.

Variable keccak : bytes -> bytes.
Variable sign_hash : bytes -> string -> result bytes.

Lemma order_field_types f :
  In f order_fields ->
  In (ftype f) ["address"; "uint256"; "uint32"; "bytes32"; "bool"].
Proof.
  intros Hf. cbn in Hf.
  repeat (destruct Hf as [<- | Hf]; [cbn; tauto|]). contradiction.
Qed.

Lemma order_field_of_key k :
  In k (map fname order_fields) -> exists f, In f order_fields /\ fname f = k.
Proof.
  intros Hk. apply in_map_iff in Hk. destruct Hk as (f & <- & Hf). now exists f.
Qed.

(** With the domain's four keys in place and a domain hash at hand, the
    signable message is made of that hash and the struct hash of the
    message. *)
Lemma encode_typed_data_given_domain domain (m : pyval) (h : bytes) :
  same_keys (Dict.keys domain) ["name"; "version"; "chainId"; "verifyingContract"]
  = true ->
  hash_domain keccak domain = Ok h ->
  encode_typed_data keccak (TypedData order_types "Order" domain m)
  = bind (hash_struct keccak "Order" message_types m)
         (fun b => Ok (Signable [x01] h b)).
Proof.
  intros Hk Hd. unfold encode_typed_data.
  cbn [td_types td_primaryType td_domain td_message].
  fold message_types. rewrite message_primary_type. cbn [bind].
  change (String.eqb "Order" "Order") with true. cbv iota.
  assert (Hok : match schema_get order_types "EIP712Domain" with
                | Some fs => same_keys (Dict.keys domain) (map fname fs)
                | None => true
                end = true) by exact Hk.
  rewrite Hok, Hd. cbn [bind].
  unfold hash_eip712_message. rewrite message_primary_type. reflexivity.
Qed.

Lemma tryTx_digest_given_domain g (order : pydict) (h : bytes) :
  hash_domain keccak (TryTx.domain g) = Ok h ->
  TryTx.digest keccak g order
  = hash_struct keccak "Order" message_types (VDict order).
Proof.
  intros Hd. unfold TryTx.digest, TryTx.typed_data.
  rewrite (encode_typed_data_given_domain (TryTx.domain g) _ h eq_refl Hd).
  now destruct (hash_struct keccak "Order" message_types (VDict order)).
Qed.

Lemma test1_digest_given_domain (o : pydict) (h : bytes) :
  Test1.order keccak = Ok o ->
  hash_domain keccak Test1.domain = Ok h ->
  Test1.digest keccak = hash_struct keccak "Order" message_types (VDict o).
Proof.
  intros Ho Hd. unfold Test1.digest.
  rewrite (test1_signable_message_unfold keccak o Ho).
  rewrite (encode_typed_data_given_domain Test1.domain _ h eq_refl Hd).
  now destruct (hash_struct keccak "Order" message_types (VDict o)).
Qed.

(** The signature is a function of the digest. *)
Lemma sign_order_of_digest g1 g2 (m1 m2 : pydict) :
  TryTx.digest keccak g1 m1 = TryTx.digest keccak g2 m2 ->
  TryTx.sign_order keccak sign_hash g1 m1 = TryTx.sign_order keccak sign_hash g2 m2.
Proof.
  intros H. unfold TryTx.sign_order, TryTx.eth_message_hash. now rewrite H.
Qed.

Lemma encode_fields_ext types fields (m1 m2 : pydict) :
  (forall f, In f fields ->
     encode_field keccak types (ftype f) (Dict.get m1 (fname f))
     = encode_field keccak types (ftype f) (Dict.get m2 (fname f))) ->
  encode_fields keccak types fields m1 = encode_fields keccak types fields m2.
Proof.
  induction fields as [|f r IH]; intros H; [reflexivity|].
  cbn [encode_fields]. rewrite (H f (or_introl eq_refl)).
  rewrite IH; [reflexivity|]. intros f' Hin. apply H. now right.
Qed.

Lemma sign_order_ext g (m1 m2 : pydict) :
  (forall f, In f order_fields ->
     encode_field keccak message_types (ftype f) (Dict.get m1 (fname f))
     = encode_field keccak message_types (ftype f) (Dict.get m2 (fname f))) ->
  TryTx.sign_order keccak sign_hash g m1 = TryTx.sign_order keccak sign_hash g m2.
Proof.
  intros H. apply sign_order_of_digest.
  unfold TryTx.digest, TryTx.typed_data, encode_typed_data.
  cbn [td_types td_primaryType td_domain td_message].
  fold message_types. unfold hash_eip712_message.
  rewrite message_primary_type. cbn [bind].
  unfold hash_struct, encode_data. rewrite message_order_fields.
  now rewrite (encode_fields_ext message_types order_fields m1 m2 H).
Qed.

(** Replacing the value under one key by one that [encode_field] treats
    alike leaves the signature as it is. *)
Lemma sign_order_set_ext g (order : pydict) (k : string) (v1 v2 : pyval) :
  (forall f, In f order_fields -> fname f = k ->
     encode_field keccak message_types (ftype f) (Some v1)
     = encode_field keccak message_types (ftype f) (Some v2)) ->
  TryTx.sign_order keccak sign_hash g (Dict.set order k v1)
  = TryTx.sign_order keccak sign_hash g (Dict.set order k v2).
Proof.
  intros H. apply sign_order_ext. intros f Hf.
  destruct (String.eqb_spec k (fname f)) as [Heq | Hne].
  - rewrite <- Heq, !DictFacts.get_set_eq. now apply H.
  - now rewrite !(DictFacts.get_set_ne _ _ _ _ Hne).
Qed.

Lemma rstrip_cons (c : ascii) (r : string) :
  Text.is_space c = false -> Text.rstrip (String c r) = String c (Text.rstrip r).
Proof.
  intros Hc. cbn [Text.rstrip]. destruct (Text.rstrip r); [now rewrite Hc | reflexivity].
Qed.

Lemma has_0x_prefix_inv (s : string) :
  Text.has_0x_prefix s = true -> exists r, s = String "0" (String "x" r).
Proof.
  destruct s as [|c1 [|c2 r]]; try discriminate.
  - destruct c1 as [[] [] [] [] [] [] [] []]; discriminate.
  - destruct c1 as [[] [] [] [] [] [] [] []]; try discriminate.
    destruct c2 as [[] [] [] [] [] [] [] []]; try discriminate.
    intros _. now exists r.
Qed.

(** Text that [int()] accepts is not [0x] text. *)
Lemma int_of_text_not_0x (s : string) (z : Z) :
  Text.int_of_text s = Some z -> Text.is_0x_prefixed_hexstr s = false.
Proof.
  intros H. unfold Text.is_0x_prefixed_hexstr.
  destruct (Text.has_0x_prefix s) eqn:E; [|apply andb_false_r].
  destruct (has_0x_prefix_inv s E) as [r ->].
  unfold Text.int_of_text in H.
  change (Text.code_points (String "0" (String "x" r)))
    with (option_map (cons 48%N) (option_map (cons 120%N) (Text.code_points r))) in H.
  destruct (Text.code_points r) as [cps|]; [|discriminate H].
  cbn [option_map] in H.
  change (Text.to_ascii_decimal (48%N :: 120%N :: cps))
    with (option_map (String "0")
            (option_map (String "x") (Text.to_ascii_decimal cps))) in H.
  destruct (Text.to_ascii_decimal cps) as [a|]; [|discriminate H].
  cbn [option_map] in H.
  destruct (Text.max_str_digits <? _)%nat; [discriminate H|].
  rewrite !rstrip_cons in H by reflexivity.
  discriminate H.
Qed.

Lemma encode_field_uint_text_eq t s z :
  In t ["uint256"; "uint32"] ->
  Text.int_of_text s = Some z ->
  encode_field keccak message_types t (Some (VStr s))
  = encode_field keccak message_types t (Some (VInt z)).
Proof.
  intros Ht Hs. assert (H0 := int_of_text_not_0x s z Hs). cbn in Ht.
  repeat (destruct Ht as [<- | Ht];
          [cbn -[Text.is_0x_prefixed_hexstr Text.int_of_text];
           now rewrite H0, Hs|]).
  contradiction.
Qed.

End SignOrderTheory.

(** Evaluations shared by the examples below. *)
Lemma test1_order_value : Test1.order Keccak.keccak256 = Ok Scenario2.test1_order.
Proof.
  unfold Scenario2.test1_order. destruct test1_order_ok as [o ->]. reflexivity.
Qed.

Lemma test1_domain_hash_value :
  hash_domain Keccak.keccak256 Test1.domain = Ok Scenario.test1_header.
Proof.
  assert (H := test1_signable_message_value).
  rewrite (test1_signable_message_unfold _ _ test1_order_value) in H.
  exact (proj1 (proj2 (encode_typed_data_body _ _ _ _ H))).
Qed.

Lemma other_domain_hash_value :
  hash_domain Keccak.keccak256 (TryTx.domain Scenario2.g_other)
  = Ok Scenario2.domain_separator_other.
Proof. vm_compute. reflexivity. Qed.

(** X4: [sign_order] returns a signature only for a complete order:
    each of the twelve fields of the [Order] type is present and is not
    [None]; the three address fields hold valid addresses; and a tag
    given as plain text ([kind], the two balance locations, [appData])
    has at most 32 characters.  An order that lacks any of this makes
    [sign_order] raise. *)
Theorem sign_order_needs_a_complete_order
    (keccak : bytes -> bytes) (sign_hash : bytes -> string -> result bytes)
    (g : TryTx.globals) (order : pydict) (signature : string) :
  TryTx.sign_order keccak sign_hash g order = Ok signature ->
  (forall k, In k (map fname order_fields) ->
             exists v, Dict.get order k = Some v /\ v <> VNone) /\
  (forall k v, In k ["sellToken"; "buyToken"; "receiver"] ->
               Dict.get order k = Some v -> is_address v = true) /\
  (forall k t,
      In k ["appData"; "kind"; "sellTokenBalance"; "buyTokenBalance"] ->
      Dict.get order k = Some (VStr t) ->
      Text.is_0x_prefixed_hexstr t = false ->
      (String.length t <= 32)%nat).
Proof.
  intros H. assert (Hf := sign_order_ok_fields keccak sign_hash g order _ H).
  split; [|split].
  - intros k Hk. destruct (order_field_of_key k Hk) as (f & Hin & <-).
    destruct (Hf f Hin) as (tv & Htv & _).
    destruct (Dict.get order (fname f)) as [v|] eqn:E.
    + exists v. split; [reflexivity|]. intros ->.
      rewrite (encode_field_absent keccak _ (order_field_types f Hin))
        in Htv by now right.
      discriminate Htv.
    + rewrite (encode_field_absent keccak _ (order_field_types f Hin))
        in Htv by now left.
      discriminate Htv.
  - intros k v Hk Hv.
    assert (Hin : In (Field k "address") order_fields)
      by (cbn in Hk; cbn; intuition (subst; tauto)).
    destruct (Hf _ Hin) as (tv & Htv & w & Hw). cbn [ftype fname] in Htv.
    rewrite Hv in Htv. rewrite (encode_field_address keccak _ _ Htv) in Hw.
    exact (abi_encode_address_ok _ _ Hw).
  - intros k t Hk Hv Ht.
    assert (Hin : In (Field k "bytes32") order_fields)
      by (cbn in Hk; cbn; intuition (subst; tauto)).
    destruct (Hf _ Hin) as (tv & Htv & w & Hw). cbn [ftype fname] in Htv.
    rewrite Hv in Htv.
    destruct (encode_field_bytes32 keccak _ _ Htv) as (b & Hb & ->).
    cbn [bytes_of_value] in Hb. rewrite Ht in Hb. injection Hb as <-.
    rewrite <- length_of_text. exact (abi_encode_bytes32_ok _ _ Hw).
Qed.

Lemma sign_order_needs_a_complete_order_witness :
  TryTx.sign_order Keccak.keccak256 Secp256k1.sign_hash Scenario.g Scenario.order
  = Ok (Bytes.hex Scenario.signed) /\
  exists v, Dict.get Scenario.order "receiver" = Some v /\ v <> VNone.
Proof.
  split; [exact scenario_sign_order_value|].
  apply (proj1 (sign_order_needs_a_complete_order _ _ _ _ _
                  scenario_sign_order_value)).
  cbn. tauto.
Defined.

(** X5: the numbers of a signed order are in range: wherever
    [sign_order] returns, a [validTo] given as an integer or as decimal
    text lies in [0, 2^32), and [sellAmount], [buyAmount] and
    [feeAmount] given as integers or as decimal text lie in [0, 2^256);
    decimal text that is no number is never signed. *)
Theorem sign_order_checks_the_number_ranges
    (keccak : bytes -> bytes) (sign_hash : bytes -> string -> result bytes)
    (g : TryTx.globals) (order : pydict) (signature : string) :
  TryTx.sign_order keccak sign_hash g order = Ok signature ->
  (forall z, Dict.get order "validTo" = Some (VInt z) -> (0 <= z < 2 ^ 32)%Z) /\
  (forall t, Dict.get order "validTo" = Some (VStr t) ->
             Text.is_0x_prefixed_hexstr t = false ->
             exists z, Text.int_of_text t = Some z /\ (0 <= z < 2 ^ 32)%Z) /\
  (forall k z, In k ["sellAmount"; "buyAmount"; "feeAmount"] ->
               Dict.get order k = Some (VInt z) -> (0 <= z < 2 ^ 256)%Z) /\
  (forall k t, In k ["sellAmount"; "buyAmount"; "feeAmount"] ->
               Dict.get order k = Some (VStr t) ->
               Text.is_0x_prefixed_hexstr t = false ->
               exists z, Text.int_of_text t = Some z /\ (0 <= z < 2 ^ 256)%Z).
Proof.
  intros H. assert (Hf := sign_order_ok_fields keccak sign_hash g order _ H).
  assert (H32 : In (Field "validTo" "uint32") order_fields) by (cbn; tauto).
  assert (H256 : forall k, In k ["sellAmount"; "buyAmount"; "feeAmount"] ->
                           In (Field k "uint256") order_fields)
    by (intros k Hk; cbn in Hk; cbn; intuition (subst; tauto)).
  repeat match goal with |- _ /\ _ => split end.
  - intros z Hv. destruct (Hf _ H32) as (tv & Htv & w & Hw).
    cbn [ftype fname] in Htv. rewrite Hv in Htv.
    rewrite (encode_field_uint_int keccak "uint32" _ _ (or_intror (or_introl eq_refl)) Htv)
      in Hw.
    exact (abi_encode_uint_ok "uint32" 32 _ _ eq_refl Hw).
  - intros t Hv Ht. destruct (Hf _ H32) as (tv & Htv & w & Hw).
    cbn [ftype fname] in Htv. rewrite Hv in Htv.
    destruct (encode_field_uint_text keccak "uint32" _ _
                (or_intror (or_introl eq_refl)) Ht Htv) as (z & Hz & ->).
    exists z. split; [exact Hz|].
    exact (abi_encode_uint_ok "uint32" 32 _ _ eq_refl Hw).
  - intros k z Hk Hv. destruct (Hf _ (H256 k Hk)) as (tv & Htv & w & Hw).
    cbn [ftype fname] in Htv. rewrite Hv in Htv.
    rewrite (encode_field_uint_int keccak "uint256" _ _ (or_introl eq_refl) Htv) in Hw.
    exact (abi_encode_uint_ok "uint256" 256 _ _ eq_refl Hw).
  - intros k t Hk Hv Ht. destruct (Hf _ (H256 k Hk)) as (tv & Htv & w & Hw).
    cbn [ftype fname] in Htv. rewrite Hv in Htv.
    destruct (encode_field_uint_text keccak "uint256" _ _ (or_introl eq_refl) Ht Htv)
      as (z & Hz & ->).
    exists z. split; [exact Hz|].
    exact (abi_encode_uint_ok "uint256" 256 _ _ eq_refl Hw).
Qed.

Lemma sign_order_checks_the_number_ranges_witness :
  TryTx.sign_order Keccak.keccak256 Secp256k1.sign_hash Scenario.g Scenario.order
  = Ok (Bytes.hex Scenario.signed) /\
  Dict.get Scenario.order "validTo" = Some (VInt 1746436866) /\
  (0 <= 1746436866 < 2 ^ 32)%Z.
Proof.
  split; [exact scenario_sign_order_value|].
  split; [reflexivity|].
  apply (proj1 (sign_order_checks_the_number_ranges _ _ _ _ _
                  scenario_sign_order_value)).
  reflexivity.
Defined.

(** X6: the settlement contract never reaches the signature.  Under two
    sets of module-level names whose domains both hash (that is, whose
    [COWSWAP_CONTRACT] is a valid address), [sign_order] computes the
    same digest and returns the same signature for every order, or
    raises the same exception. *)
Theorem sign_order_ignores_the_verifying_contract
    (keccak : bytes -> bytes) (sign_hash : bytes -> string -> result bytes)
    (g1 g2 : TryTx.globals) (h1 h2 : bytes) (order : pydict) :
  hash_domain keccak (TryTx.domain g1) = Ok h1 ->
  hash_domain keccak (TryTx.domain g2) = Ok h2 ->
  TryTx.digest keccak g1 order = TryTx.digest keccak g2 order /\
  TryTx.sign_order keccak sign_hash g1 order
  = TryTx.sign_order keccak sign_hash g2 order.
Proof.
  intros H1 H2.
  assert (Hd : TryTx.digest keccak g1 order = TryTx.digest keccak g2 order).
  { rewrite (tryTx_digest_given_domain keccak g1 order h1 H1).
    now rewrite (tryTx_digest_given_domain keccak g2 order h2 H2). }
  split; [exact Hd | now apply sign_order_of_digest].
Qed.

Lemma sign_order_ignores_the_verifying_contract_witness :
  Scenario.test1_header <> Scenario2.domain_separator_other /\
  TryTx.sign_order Keccak.keccak256 Secp256k1.sign_hash Scenario.g Scenario.order
  = TryTx.sign_order Keccak.keccak256 Secp256k1.sign_hash Scenario2.g_other
      Scenario.order.
Proof.
  split; [vm_compute; discriminate|].
  exact (proj2 (sign_order_ignores_the_verifying_contract
                  Keccak.keccak256 Secp256k1.sign_hash
                  Scenario.g Scenario2.g_other _ _ Scenario.order
                  test1_domain_hash_value other_domain_hash_value)).
Defined.

(** X7: the two scripts sign alike.  Given test1.py's order, tryTx.py's
    [sign_order] computes the digest, the ethSign hash and the signature
    text that test1.py computes, whatever settlement contract tryTx.py
    is configured with, as long as both domains hash. *)
Theorem sign_order_on_test1_order_is_test1_signature
    (keccak : bytes -> bytes) (sign_hash : bytes -> string -> result bytes)
    (g : TryTx.globals) (o : pydict) (h1 h2 : bytes) :
  Test1.order keccak = Ok o ->
  hash_domain keccak Test1.domain = Ok h1 ->
  hash_domain keccak (TryTx.domain g) = Ok h2 ->
  TryTx.digest keccak g o = Test1.digest keccak /\
  TryTx.eth_message_hash keccak g o = Test1.eth_message_hash keccak /\
  TryTx.sign_order keccak sign_hash g o = Test1.signature keccak sign_hash.
Proof.
  intros Ho H1 H2.
  assert (Hd : TryTx.digest keccak g o = Test1.digest keccak).
  { rewrite (tryTx_digest_given_domain keccak g o h2 H2).
    now rewrite (test1_digest_given_domain keccak o h1 Ho H1). }
  assert (Hh : TryTx.eth_message_hash keccak g o = Test1.eth_message_hash keccak).
  { unfold TryTx.eth_message_hash, Test1.eth_message_hash, Test1.eth_sign_message.
    rewrite Hd. now destruct (Test1.digest keccak). }
  split; [exact Hd|]. split; [exact Hh|].
  unfold TryTx.sign_order, Test1.signature, Test1.signed. rewrite Hh.
  now destruct (Test1.eth_message_hash keccak).
Qed.

Lemma sign_order_on_test1_order_is_test1_signature_witness :
  Test1.order Keccak.keccak256 = Ok Scenario2.test1_order /\
  TryTx.sign_order Keccak.keccak256 Secp256k1.sign_hash Scenario2.g_other
    Scenario2.test1_order
  = Test1.signature Keccak.keccak256 Secp256k1.sign_hash.
Proof.
  split; [exact test1_order_value|].
  exact (proj2 (proj2 (sign_order_on_test1_order_is_test1_signature
                         Keccak.keccak256 Secp256k1.sign_hash Scenario2.g_other
                         _ _ _ test1_order_value test1_domain_hash_value
                         other_domain_hash_value))).
Defined.

(** X8: [sign_order] reads a number by its value: an order whose
    [sellAmount], [buyAmount], [feeAmount] or [validTo] is decimal text
    (as the quote service sends the amounts) gets the signature of the
    order that holds the integer itself (as test1.py writes them), or
    raises the same exception. *)
Theorem sign_order_reads_decimal_text_as_the_number
    (keccak : bytes -> bytes) (sign_hash : bytes -> string -> result bytes)
    (g : TryTx.globals) (order : pydict) (k t : string) (z : Z) :
  In k ["sellAmount"; "buyAmount"; "feeAmount"; "validTo"] ->
  Text.int_of_text t = Some z ->
  TryTx.sign_order keccak sign_hash g (Dict.set order k (VStr t))
  = TryTx.sign_order keccak sign_hash g (Dict.set order k (VInt z)).
Proof.
  intros Hk Ht. apply sign_order_set_ext. intros f Hf Hname.
  apply encode_field_uint_text_eq; [|exact Ht].
  subst k. cbn in Hf.
  repeat (destruct Hf as [<- | Hf];
          [cbn in Hk |- *; intuition discriminate|]).
  contradiction.
Qed.

Lemma sign_order_reads_decimal_text_as_the_number_witness :
  Dict.get Scenario.order "sellAmount" = Some (VStr "473107794665489160") /\
  TryTx.sign_order Keccak.keccak256 Secp256k1.sign_hash Scenario.g
    (Dict.set Scenario.order "sellAmount" (VStr "473107794665489160"))
  = TryTx.sign_order Keccak.keccak256 Secp256k1.sign_hash Scenario.g
      (Dict.set Scenario.order "sellAmount" (VInt 473107794665489160)).
Proof.
  split; [reflexivity|].
  apply (sign_order_reads_decimal_text_as_the_number
           Keccak.keccak256 Secp256k1.sign_hash Scenario.g Scenario.order
           "sellAmount" "473107794665489160" 473107794665489160).
  - cbn. tauto.
  - reflexivity.
Defined.

Section BoolField.

Variable keccak : bytes -> bytes.
Variable sign_hash : bytes -> string -> result bytes.
Variable g : TryTx.globals.

Lemma encode_field_bool_flag (b : bool) :
  encode_field keccak message_types "bool" (Some (VBool b)) = Ok ("bool", VBool b).
Proof. now destruct b. Qed.

Lemma encode_field_bool_text (t : string) :
  encode_field keccak message_types "bool" (Some (VStr t))
  = Ok ("bool", VBool (negb (mem t ("" :: falsy_values)))).
Proof.
  unfold encode_field.
  change (mem "bool" (map fst message_types)) with false.
  change (String.eqb "bool" "bool") with true. cbv iota.
  cbn [truthy mem existsb].
  destruct (String.eqb t "") eqn:E; [reflexivity|]. reflexivity.
Qed.

Lemma encode_field_bool_int (z : Z) :
  encode_field keccak message_types "bool" (Some (VInt z))
  = Ok ("bool", VBool (negb (Z.eqb z 0))).
Proof.
  unfold encode_field.
  change (mem "bool" (map fst message_types)) with false.
  change (String.eqb "bool" "bool") with true. cbv iota.
  cbn [truthy]. now destruct (Z.eqb z 0).
Qed.

Lemma sign_order_bool_field (order : pydict) (v : pyval) (b : bool) :
  encode_field keccak message_types "bool" (Some v) = Ok ("bool", VBool b) ->
  TryTx.sign_order keccak sign_hash g (Dict.set order "partiallyFillable" v)
  = TryTx.sign_order keccak sign_hash g
      (Dict.set order "partiallyFillable" (VBool b)).
Proof.
  intros Hv. apply sign_order_set_ext. intros f Hf Hname.
  assert (Ht : ftype f = "bool").
  { cbn in Hf.
    repeat (destruct Hf as [<- | Hf]; [try discriminate Hname; reflexivity|]).
    contradiction. }
  rewrite Ht, Hv. symmetry. apply encode_field_bool_flag.
Qed.

End BoolField.

(** X9: [sign_order] reads [partiallyFillable] as a flag.  A text signs
    as [False] when it is empty or one of [False], [false] and [0], and
    as [True] otherwise; an integer signs as [False] when it is [0] and
    as [True] otherwise.  So the text [false] signs as the boolean
    [False], and the text [no] as [True]. *)
Theorem sign_order_reads_partiallyFillable_as_a_flag
    (keccak : bytes -> bytes) (sign_hash : bytes -> string -> result bytes)
    (g : TryTx.globals) (order : pydict) :
  (forall t : string,
      TryTx.sign_order keccak sign_hash g
        (Dict.set order "partiallyFillable" (VStr t))
      = TryTx.sign_order keccak sign_hash g
          (Dict.set order "partiallyFillable"
             (VBool (negb (mem t [""; "False"; "false"; "0"]))))) /\
  (forall z : Z,
      TryTx.sign_order keccak sign_hash g
        (Dict.set order "partiallyFillable" (VInt z))
      = TryTx.sign_order keccak sign_hash g
          (Dict.set order "partiallyFillable" (VBool (negb (Z.eqb z 0))))).
Proof.
  split.
  - intros t. apply sign_order_bool_field. apply encode_field_bool_text.
  - intros z. apply sign_order_bool_field. apply encode_field_bool_int.
Qed.

(** The text [false] signs as [False], the text [no] as [True]. *)
Example partiallyFillable_false_and_no :
  TryTx.sign_order Keccak.keccak256 Secp256k1.sign_hash Scenario.g
    (Dict.set Scenario.order "partiallyFillable" (VStr "false"))
  = TryTx.sign_order Keccak.keccak256 Secp256k1.sign_hash Scenario.g
      (Dict.set Scenario.order "partiallyFillable" (VBool false)) /\
  TryTx.sign_order Keccak.keccak256 Secp256k1.sign_hash Scenario.g
    (Dict.set Scenario.order "partiallyFillable" (VStr "no"))
  = TryTx.sign_order Keccak.keccak256 Secp256k1.sign_hash Scenario.g
      (Dict.set Scenario.order "partiallyFillable" (VBool true)).
Proof.
  split; apply sign_order_bool_field; apply encode_field_bool_text.
Qed.

(** *** The exceptions of [sign_order] *)

Section SignOrderRaises.

Variable keccak : bytes -> bytes.

Lemma encode_field_raises t v e :
  In t ["address"; "uint256"; "uint32"; "bytes32"; "bool"] ->
  encode_field keccak message_types t v = Raise e ->
  e = ValueError \/ e = TypeError.
Proof.
  intros Ht. cbn in Ht.
  repeat (destruct Ht as [<- | Ht];
          [destruct v as [[]|];
           cbn -[Text.is_0x_prefixed_hexstr Text.int_of_text Text.decode_hex
                 Text.hex_value Text.remove_0x_prefix];
           repeat match goal with
                  | |- context [match ?x with _ => _ end] => destruct x
                  end;
           intros H; try discriminate H; injection H as <-; auto|]).
  contradiction.
Qed.

Lemma encode_fields_raises fields d e :
  (forall f, In f fields ->
             In (ftype f) ["address"; "uint256"; "uint32"; "bytes32"; "bool"]) ->
  encode_fields keccak message_types fields d = Raise e ->
  e = ValueError \/ e = TypeError.
Proof.
  induction fields as [|f r IH]; intros Hf; cbn [encode_fields]; [discriminate|].
  destruct (encode_field keccak message_types (ftype f) (Dict.get d (fname f)))
    as [tv|e'] eqn:E; cbn [bind].
  - destruct (encode_fields keccak message_types r d) as [rest|e'']; cbn [bind];
      [discriminate|].
    intros [= <-]. apply IH; [|reflexivity]. intros f' Hin. apply Hf. now right.
  - intros [= <-]. exact (encode_field_raises _ _ _ (Hf f (or_introl eq_refl)) E).
Qed.

Lemma hash_struct_order_raises (order : pydict) e :
  hash_struct keccak "Order" message_types (VDict order) = Raise e ->
  e = ValueError \/ e = TypeError \/ e = EncodingError.
Proof.
  unfold hash_struct, encode_data. rewrite message_order_fields.
  destruct (encode_fields keccak message_types order_fields order)
    as [tvs|e'] eqn:E; cbn [bind].
  - destruct (abi_encode_all tvs) as [ws|e''] eqn:W; cbn [bind];
      [discriminate|].
    intros [= <-]. right. right. exact (abi_encode_all_raises _ _ W).
  - intros [= <-].
    destruct (encode_fields_raises _ _ _ order_field_types E) as [-> | ->]; auto.
Qed.

(** The domain of tryTx.py has text, an integer and the contract
    address: its hash can fail in [eth_abi.encode] only. *)
Lemma hash_domain_tryTx_raises g e :
  hash_domain keccak (TryTx.domain g) = Raise e -> e = EncodingError.
Proof.
  unfold hash_domain, hash_struct, encode_data.
  cbn -[abi_encode_all hash_type].
  destruct (abi_encode_all _) as [ws|e'] eqn:W; cbn [bind]; [discriminate|].
  intros [= <-]. exact (abi_encode_all_raises _ _ W).
Qed.

Lemma encode_typed_data_given_domain_raise domain (m : pyval) e :
  same_keys (Dict.keys domain) ["name"; "version"; "chainId"; "verifyingContract"]
  = true ->
  hash_domain keccak domain = Raise e ->
  encode_typed_data keccak (TypedData order_types "Order" domain m) = Raise e.
Proof.
  intros Hk Hd. unfold encode_typed_data.
  cbn [td_types td_primaryType td_domain td_message].
  fold message_types. rewrite message_primary_type. cbn [bind].
  change (String.eqb "Order" "Order") with true. cbv iota.
  assert (Hok : match schema_get order_types "EIP712Domain" with
                | Some fs => same_keys (Dict.keys domain) (map fname fs)
                | None => true
                end = true) by exact Hk.
  rewrite Hok, Hd. reflexivity.
Qed.

Lemma tryTx_digest_raises g (order : pydict) e :
  TryTx.digest keccak g order = Raise e ->
  e = ValueError \/ e = TypeError \/ e = EncodingError.
Proof.
  destruct (hash_domain keccak (TryTx.domain g)) as [h|e'] eqn:Hd.
  - rewrite (tryTx_digest_given_domain keccak g order h Hd).
    apply hash_struct_order_raises.
  - unfold TryTx.digest, TryTx.typed_data.
    rewrite (encode_typed_data_given_domain_raise (TryTx.domain g) _ e' eq_refl Hd).
    cbn [bind]. intros [= <-]. right. right.
    exact (hash_domain_tryTx_raises g _ Hd).
Qed.

End SignOrderRaises.

(** X10: what [sign_order] raises.  Up to the call of the signer it
    raises nothing but [ValueError], [TypeError] and eth_abi's
    [EncodingError]; any other exception is the signer's, raised on the
    ethSign hash of the order. *)
Theorem sign_order_raises
    (keccak : bytes -> bytes) (sign_hash : bytes -> string -> result bytes)
    (g : TryTx.globals) (order : pydict) (e : exn) :
  TryTx.sign_order keccak sign_hash g order = Raise e ->
  (TryTx.eth_message_hash keccak g order = Raise e /\
   (e = ValueError \/ e = TypeError \/ e = EncodingError)) \/
  (exists h, TryTx.eth_message_hash keccak g order = Ok h /\
             sign_hash h TryTx.PRIVATE_KEY = Raise e).
Proof.
  unfold TryTx.sign_order.
  destruct (TryTx.eth_message_hash keccak g order) as [h|e'] eqn:E; cbn [bind].
  - destruct (sign_hash h TryTx.PRIVATE_KEY) as [sig|e''] eqn:S; cbn [bind];
      [discriminate|].
    intros [= <-]. right. now exists h.
  - intros [= <-]. left. split; [reflexivity|].
    unfold TryTx.eth_message_hash in E.
    destruct (TryTx.digest keccak g order) as [d|e''] eqn:D; cbn [bind] in E;
      [discriminate|].
    injection E as <-. exact (tryTx_digest_raises keccak g order _ D).
Qed.

Lemma bad_order_sign_order_value :
  TryTx.sign_order Keccak.keccak256 Secp256k1.sign_hash Scenario.g
    Scenario2.bad_order
  = Raise ValueError.
Proof. vm_compute. reflexivity. Qed.

Lemma sign_order_raises_witness :
  TryTx.sign_order Keccak.keccak256 Secp256k1.sign_hash Scenario.g
    Scenario2.bad_order
  = Raise ValueError /\
  ((TryTx.eth_message_hash Keccak.keccak256 Scenario.g Scenario2.bad_order
    = Raise ValueError /\
    (ValueError = ValueError \/ ValueError = TypeError \/
     ValueError = EncodingError)) \/
   (exists h, TryTx.eth_message_hash Keccak.keccak256 Scenario.g Scenario2.bad_order
              = Ok h /\
              Secp256k1.sign_hash h TryTx.PRIVATE_KEY = Raise ValueError)).
Proof.
  split; [exact bad_order_sign_order_value|].
  exact (sign_order_raises _ _ _ _ _ bad_order_sign_order_value).
Defined.

(* ===================================================================== *)
(** ** submit_order and the outcome of main                               *)
(* ===================================================================== *)

Section PipelineMore.

Import TryTx.

Variable keccak : bytes -> bytes.
Variable sign_hash : bytes -> string -> result bytes.
Variable world : service.
Variable g : globals.

Lemma set_set d k v v' : Dict.set (Dict.set d k v) k v' = Dict.set d k v'.
Proof.
  induction d as [|[k0 v0] r IH]; cbn [Dict.set].
  - now rewrite String.eqb_refl.
  - destruct (String.eqb k0 k) eqn:E; cbn [Dict.set]; rewrite E;
      [reflexivity | now rewrite IH].
Qed.

(** What [submit_order] does, whatever the order and the signature. *)
Lemma submit_order_run (order : pydict) (signature : string) (tr : list event) :
  let payload := Dict.set order "signature" (VStr ("0x" ++ signature)) in
  submit_order world order signature tr
  = (match world tr orders_url (VDict payload) with
     | Ok r => Ok (payload, Some r)
     | Raise e => Raise e
     end,
     (tr ++ [Post orders_url (VDict payload)])%list).
Proof.
  intros payload. unfold submit_order, io_bind, lift, requests_post, io_ret.
  fold payload. unfold getitem. unfold payload at 1.
  rewrite DictFacts.get_set_eq. cbn [truthy append String.eqb negb].
  now destruct (world tr orders_url (VDict payload)).
Qed.

(** The value [main] returns or the exception it lets through. *)
Lemma main_result :
  fst (main keccak sign_hash world g [])
  = match world [] quote_url (quote_request g) with
    | Raise e => Raise e
    | Ok r =>
        if (status_code r =? 200)%Z then
          match json r with
          | Raise e => Raise e
          | Ok q =>
              if truthy q then
                match construct_order keccak q with
                | Raise e => Raise e
                | Ok order =>
                    match sign_order keccak sign_hash g order with
                    | Raise e => if is_ValueError e then Ok tt else Raise e
                    | Ok s =>
                        match world [Post quote_url (quote_request g)] orders_url
                                (VDict (Dict.set order "signature"
                                          (VStr ("0x" ++ s)))) with
                        | Ok _ => Ok tt
                        | Raise e => if is_ValueError e then Ok tt else Raise e
                        end
                    end
                end
              else Ok tt
          end
        else Ok tt
    end.
Proof.
  unfold main, get_order_quote, io_bind, requests_post, lift, io_ret.
  cbn [app].
  destruct (world [] quote_url (quote_request g)) as [r|e]; [|reflexivity].
  destruct (status_code r =? 200)%Z; [|reflexivity].
  destruct (json r) as [q|e]; [|reflexivity].
  destruct (truthy q); cbn [negb]; [|reflexivity].
  destruct (construct_order keccak q) as [order|e]; [|reflexivity].
  unfold try_except_ValueError, io_bind, lift, io_ret.
  destruct (sign_order keccak sign_hash g order) as [signature|e];
    [|destruct (is_ValueError e); reflexivity].
  rewrite submit_order_run.
  destruct (world _ _ _) as [submit_response|e];
    [reflexivity | destruct (is_ValueError e); reflexivity].
Qed.

End PipelineMore.

(** X11: [submit_order] always posts.  Whatever the order and the
    signature text (the empty text as well), the call sends exactly one
    request, to the orders endpoint, carrying the order with its
    [signature] entry set to ["0x"] followed by the text and every other
    entry as it was; it returns the response, or raises what the request
    raises, and never returns [None]: the guard [if order["signature"]]
    is always true.  Calling it again on the dict it has written
    replaces the signature. *)
Theorem submit_order_always_posts
    (world : TryTx.service) (order : pydict) (signature : string)
    (tr : list TryTx.event) :
  let payload := Dict.set order "signature" (VStr ("0x" ++ signature)) in
  let run := TryTx.submit_order world order signature tr in
  snd run = (tr ++ [TryTx.Post TryTx.orders_url (VDict payload)])%list /\
  fst run = match world tr TryTx.orders_url (VDict payload) with
            | Ok r => Ok (payload, Some r)
            | Raise e => Raise e
            end /\
  (forall o, fst run <> Ok (o, None)) /\
  (forall k, k <> "signature" -> Dict.get payload k = Dict.get order k) /\
  (forall signature' tr',
      TryTx.submit_order world payload signature' tr'
      = TryTx.submit_order world order signature' tr').
Proof.
  intros payload run. unfold run. rewrite submit_order_run. fold payload.
  cbn [fst snd].
  repeat match goal with |- _ /\ _ => split end; try reflexivity.
  - intros o. now destruct (world tr TryTx.orders_url (VDict payload)).
  - intros k Hk. apply DictFacts.get_set_ne. congruence.
  - intros signature' tr'. rewrite !submit_order_run. unfold payload.
    now rewrite set_set.
Qed.

(** X12: the exceptions that leave [main].  The quote request and
    [construct_order] run outside the [try]: whatever they raise leaves
    [main], also the [JSONDecodeError] of a reply that is not JSON,
    although it is a [ValueError], and the [KeyError] or [TypeError] of
    a quote document without the entries [construct_order] reads.  Of
    what [sign_order] and the submission raise, a [ValueError] is
    caught and anything else leaves [main]. *)
Theorem main_lets_these_exceptions_through
    (keccak : bytes -> bytes) (sign_hash : bytes -> string -> result bytes)
    (world : TryTx.service) (g : TryTx.globals) :
  let req := TryTx.quote_request g in
  let reply := world [] TryTx.quote_url req in
  let out := fst (TryTx.main keccak sign_hash world g []) in
  (forall e, reply = Raise e -> out = Raise e) /\
  (forall r e, reply = Ok r -> TryTx.status_code r = 200%Z ->
               TryTx.json r = Raise e -> out = Raise e) /\
  (forall r q e, reply = Ok r -> TryTx.status_code r = 200%Z ->
                 TryTx.json r = Ok q -> truthy q = true ->
                 TryTx.construct_order keccak q = Raise e ->
                 out = Raise e /\ (e = KeyError \/ e = TypeError)) /\
  (forall r q order e,
      reply = Ok r -> TryTx.status_code r = 200%Z ->
      TryTx.json r = Ok q -> truthy q = true ->
      TryTx.construct_order keccak q = Ok order ->
      TryTx.sign_order keccak sign_hash g order = Raise e ->
      out = if is_ValueError e then Ok tt else Raise e) /\
  (forall r q order s e,
      reply = Ok r -> TryTx.status_code r = 200%Z ->
      TryTx.json r = Ok q -> truthy q = true ->
      TryTx.construct_order keccak q = Ok order ->
      TryTx.sign_order keccak sign_hash g order = Ok s ->
      world [TryTx.Post TryTx.quote_url req] TryTx.orders_url
        (VDict (Dict.set order "signature" (VStr ("0x" ++ s)))) = Raise e ->
      out = if is_ValueError e then Ok tt else Raise e).
Proof.
  intros req reply out. unfold out. rewrite main_result. fold req. fold reply.
  repeat match goal with |- _ /\ _ => split end.
  - intros e ->. reflexivity.
  - intros r e -> Hs ->. now rewrite Hs.
  - intros r q e -> Hs -> Ht Hc. rewrite Hs, Ht, Hc. cbn.
    split; [reflexivity | exact (construct_order_raises_inv keccak _ _ Hc)].
  - intros r q order e -> Hs -> Ht Hc Hg. now rewrite Hs, Ht, Hc, Hg.
  - intros r q order s e -> Hs -> Ht Hc Hg Hw. now rewrite Hs, Ht, Hc, Hg, Hw.
Qed.

(** X13: when [main] returns without a word.  [main] returns normally,
    having sent the quote request only, when the quote is answered with
    a status other than 200 (the body is not read), when the JSON
    document of the reply is falsy ([null], [{}], [0], the empty text),
    and when [sign_order] raises a [ValueError]; and it returns normally
    after the submission whatever the order book answers: the status of
    that reply is not looked at. *)
Theorem main_returns_normally
    (keccak : bytes -> bytes) (sign_hash : bytes -> string -> result bytes)
    (world : TryTx.service) (g : TryTx.globals) :
  let req := TryTx.quote_request g in
  let reply := world [] TryTx.quote_url req in
  let run := TryTx.main keccak sign_hash world g [] in
  (forall r, reply = Ok r -> TryTx.status_code r <> 200%Z ->
             run = (Ok tt, [TryTx.Post TryTx.quote_url req])) /\
  (forall r q, reply = Ok r -> TryTx.status_code r = 200%Z ->
               TryTx.json r = Ok q -> truthy q = false ->
               run = (Ok tt, [TryTx.Post TryTx.quote_url req])) /\
  (forall r q order e,
      reply = Ok r -> TryTx.status_code r = 200%Z ->
      TryTx.json r = Ok q -> truthy q = true ->
      TryTx.construct_order keccak q = Ok order ->
      TryTx.sign_order keccak sign_hash g order = Raise e ->
      is_ValueError e = true ->
      run = (Ok tt, [TryTx.Post TryTx.quote_url req])) /\
  (forall r q order s answer,
      reply = Ok r -> TryTx.status_code r = 200%Z ->
      TryTx.json r = Ok q -> truthy q = true ->
      TryTx.construct_order keccak q = Ok order ->
      TryTx.sign_order keccak sign_hash g order = Ok s ->
      world [TryTx.Post TryTx.quote_url req] TryTx.orders_url
        (VDict (Dict.set order "signature" (VStr ("0x" ++ s)))) = Ok answer ->
      run = (Ok tt,
             [TryTx.Post TryTx.quote_url req;
              TryTx.Post TryTx.orders_url
                (VDict (Dict.set order "signature" (VStr ("0x" ++ s))))])).
Proof.
  intros req reply run.
  assert (Hrun : run = (fst run, snd run)) by now destruct run.
  rewrite Hrun. unfold run. rewrite main_result, main_trace.
  fold req. fold reply. unfold submitted_order.
  repeat match goal with |- _ /\ _ => split end.
  - intros r -> Hs. apply Z.eqb_neq in Hs. now rewrite Hs.
  - intros r q -> Hs -> Ht. now rewrite Hs, Ht.
  - intros r q order e -> Hs -> Ht Hc Hg He. now rewrite Hs, Ht, Hc, Hg, He.
  - intros r q order s answer -> Hs -> Ht Hc Hg Hw.
    now rewrite Hs, Ht, Hc, Hg, Hw.
Qed.

(** X14: the keys of every submitted order.  Whatever the services
    answer and whatever the signer returns, a dict that [main] posts to
    the orders endpoint has exactly these sixteen keys, in this order:
    the fifteen of [construct_order] and [signature] last. *)
Theorem submitted_payload_keys
    (keccak : bytes -> bytes) (sign_hash : bytes -> string -> result bytes)
    (world : TryTx.service) (g : TryTx.globals) (payload : pyval) :
  In (TryTx.Post TryTx.orders_url payload)
     (snd (TryTx.main keccak sign_hash world g [])) ->
  exists p : pydict,
    payload = VDict p /\
    Dict.keys p = (order_keys ++ ["signature"])%list /\
    NoDup (Dict.keys p).
Proof.
  rewrite main_trace.
  destruct (submitted_order keccak sign_hash g _) as [o|] eqn:Eo.
  - intros [Hin | [Hin | []]]; [discriminate Hin|]. injection Hin as <-.
    destruct (submitted_order_inv keccak sign_hash world g o Eo)
      as (r & q & order & signature & _ & _ & _ & _ & Hc & _ & ->).
    assert (Hk : Dict.keys (Dict.set order "signature" (VStr ("0x" ++ signature)))
                 = (order_keys ++ ["signature"])%list).
    { rewrite DictMore.keys_set, (construct_order_keys keccak _ _ Hc). reflexivity. }
    eexists. split; [reflexivity|]. split; [exact Hk|].
    rewrite Hk. unfold order_keys. cbn [app].
    repeat (constructor; [cbn; intuition discriminate|]). constructor.
  - intros [Hin | []]. discriminate Hin.
Qed.

Lemma submitted_payload_keys_witness :
  let payload :=
    VDict (Dict.set Scenario.order "signature"
             (VStr ("0x" ++ Bytes.hex Scenario.signed))) in
  In (TryTx.Post TryTx.orders_url payload)
     (snd (TryTx.main Keccak.keccak256 Secp256k1.sign_hash
             (Scenario.serving Scenario.quote_data) Scenario.g [])) /\
  exists p : pydict,
    payload = VDict p /\
    Dict.keys p = (order_keys ++ ["signature"])%list /\
    NoDup (Dict.keys p).
Proof.
  intros payload.
  assert (Hin : In (TryTx.Post TryTx.orders_url payload)
                   (snd (TryTx.main Keccak.keccak256 Secp256k1.sign_hash
                           (Scenario.serving Scenario.quote_data) Scenario.g [])))
    by (rewrite scenario_main_trace; right; left; reflexivity).
  split; [exact Hin|].
  exact (submitted_payload_keys _ _ _ _ _ Hin).
Defined.

(* ===================================================================== *)
(** ** Sizes: Keccak-256 gives 32 bytes                                   *)
(* ===================================================================== *)

Module KeccakFacts.

Import Keccak.

Lemma length_iota rc st : length (iota rc st) = length st.
Proof. now destruct st. Qed.

Lemma length_round st rc : length (round st rc) = 25%nat.
Proof.
  unfold round. rewrite length_iota. unfold chi. now rewrite length_map.
Qed.

Lemma length_keccak_f st : length (keccak_f st) = 25%nat.
Proof.
  unfold keccak_f, round_constants. cbn [fold_left]. apply length_round.
Qed.

Lemma length_absorb n st b :
  length st = 25%nat -> length (absorb n st b) = 25%nat.
Proof.
  revert st b. induction n as [|n IH]; intros st b H; [exact H|].
  cbn [absorb]. apply IH. apply length_keccak_f.
Qed.

Lemma length_squeeze st : length st = 25%nat -> length (squeeze st) = 32%nat.
Proof.
  destruct st as [|a [|b [|c [|d r]]]]; try discriminate. intros _.
  unfold squeeze. cbn [firstn flat_map].
  rewrite !length_app, !BytesFacts.length_N_to_le. reflexivity.
Qed.

(** Keccak-256 returns 32 bytes on every message. *)
Lemma length_keccak256 msg : length (keccak256 msg) = 32%nat.
Proof.
  unfold keccak256. apply length_squeeze. apply length_absorb. reflexivity.
Qed.

End KeccakFacts.

Lemma hash_struct_is_a_hash keccak type_ types data d :
  hash_struct keccak type_ types data = Ok d -> exists e, d = keccak e.
Proof.
  unfold hash_struct.
  destruct (encode_data keccak type_ types data) as [e|]; cbn [bind];
    [|discriminate].
  intros [= <-]. now exists e.
Qed.

Lemma test1_digest_is_a_hash keccak d :
  Test1.digest keccak = Ok d -> exists e, d = keccak e.
Proof.
  unfold Test1.digest.
  destruct (Test1.signable_message keccak) as [m|] eqn:Em; cbn [bind];
    [|discriminate].
  intros [= <-].
  unfold Test1.signable_message, Test1.typed_data in Em.
  destruct (Test1.order keccak) as [o|]; cbn [bind] in Em; [|discriminate Em].
  exact (hash_struct_is_a_hash _ _ _ _ _
           (proj1 (encode_typed_data_body _ _ _ _ Em))).
Qed.

(** X15: the length that the prefix announces is the length of the
    digest.  With a [keccak] that returns 32 bytes, as Keccak-256 does
    on every message, whenever [sign_order] has a digest it is 32 bytes
    long; the message it wraps is the 28 bytes of the prefix, which end
    in the text [32], followed by those 32 bytes; the hash handed to the
    signer is 32 bytes long as well; and the digest of test1.py is 32
    bytes long. *)
Theorem ethSign_message_is_prefix_and_32_bytes
    (keccak : bytes -> bytes) (g : TryTx.globals) (order : pydict) (d : bytes) :
  (forall m, length (keccak m) = 32%nat) ->
  TryTx.digest keccak g order = Ok d ->
  length d = 32%nat /\
  length eth_sign_prefix = 28%nat /\
  skipn 26 eth_sign_prefix = Bytes.of_text "32" /\
  length (eth_sign_prefix ++ d)%list = 60%nat /\
  (exists h, TryTx.eth_message_hash keccak g order = Ok h /\
             length h = 32%nat) /\
  (forall d1, Test1.digest keccak = Ok d1 -> length d1 = 32%nat).
Proof.
  intros Hlen H.
  assert (Hd : length d = 32%nat).
  { destruct (hash_struct_is_a_hash _ _ _ _ _
                (tryTx_digest_is_struct_hash keccak g _ _ H)) as [e ->].
    apply Hlen. }
  split; [exact Hd|]. split; [reflexivity|]. split; [reflexivity|].
  split; [rewrite length_app, Hd; reflexivity|]. split.
  - eexists. split; [exact (tryTx_eth_message_hash keccak g _ _ H)|]. apply Hlen.
  - intros d1 H1. destruct (test1_digest_is_a_hash _ _ H1) as [e ->]. apply Hlen.
Qed.

Lemma ethSign_message_is_prefix_and_32_bytes_witness :
  (forall m, length (Keccak.keccak256 m) = 32%nat) /\
  TryTx.digest Keccak.keccak256 Scenario.g Scenario.order = Ok Scenario.digest /\
  length Scenario.digest = 32%nat.
Proof.
  split; [exact KeccakFacts.length_keccak256|].
  split; [exact scenario_digest_value|].
  exact (proj1 (ethSign_message_is_prefix_and_32_bytes _ _ _ _
                  KeccakFacts.length_keccak256 scenario_digest_value)).
Defined.

(* ===================================================================== *)
(** ** Addresses are read without their case                              *)
(* ===================================================================== *)

Module CaseFacts.

Import Text.

Lemma hex_val_lower_char c : Bytes.hex_val (lower_char c) = Bytes.hex_val c.
Proof. destruct c as [[] [] [] [] [] [] [] []]; reflexivity. Qed.

Lemma length_lower s : String.length (lower s) = String.length s.
Proof. induction s as [|c r IH]; [reflexivity|]. cbn. now rewrite IH. Qed.

Lemma is_hex_digits_lower s : Bytes.is_hex_digits (lower s) = Bytes.is_hex_digits s.
Proof.
  induction s as [|c r IH]; [reflexivity|].
  cbn [lower Bytes.is_hex_digits]. now rewrite hex_val_lower_char, IH.
Qed.

Lemma unhex_lower_both s :
  Bytes.unhex (lower s) = Bytes.unhex s /\
  forall c, Bytes.unhex (lower (String c s)) = Bytes.unhex (String c s).
Proof.
  induction s as [|c' r [IH1 IH2]].
  - split; [reflexivity|]. intros c. reflexivity.
  - split; [apply IH2|]. intros c. cbn [lower Bytes.unhex].
    now rewrite !hex_val_lower_char, IH1.
Qed.

Lemma unhex_lower s : Bytes.unhex (lower s) = Bytes.unhex s.
Proof. exact (proj1 (unhex_lower_both s)). Qed.

(** Lower-casing and dropping the prefix commute. *)
Lemma remove_0x_prefix_lower s :
  remove_0x_prefix (lower s) = lower (remove_0x_prefix s).
Proof.
  destruct s as [|c1 [|c2 r]]; [reflexivity | |].
  - destruct c1 as [[] [] [] [] [] [] [] []]; reflexivity.
  - destruct c1 as [[] [] [] [] [] [] [] []]; try reflexivity.
    destruct c2 as [[] [] [] [] [] [] [] []]; reflexivity.
Qed.

Lemma decode_hex_lower s : decode_hex (lower s) = decode_hex s.
Proof.
  unfold decode_hex. rewrite remove_0x_prefix_lower, length_lower.
  destruct (Nat.even _); [apply unhex_lower|].
  exact (proj2 (unhex_lower_both _) "0"%char).
Qed.

End CaseFacts.

Section AddressCase.

Variable keccak : bytes -> bytes.

Lemma is_hex_address_lower s : is_hex_address (Text.lower s) = is_hex_address s.
Proof.
  unfold is_hex_address.
  now rewrite CaseFacts.remove_0x_prefix_lower, CaseFacts.length_lower,
    CaseFacts.is_hex_digits_lower.
Qed.

Lemma is_address_lower s :
  is_address (VStr (Text.lower s)) = is_address (VStr s).
Proof. unfold is_address. apply is_hex_address_lower. Qed.

(** An address in lower case encodes to the word of the address as it
    was written, and text that is no address is refused in either
    case. *)
Lemma abi_encode_address_lower s :
  abi_encode "address" (VStr (Text.lower s)) = abi_encode "address" (VStr s).
Proof.
  unfold abi_encode. change (parse_type "address") with (Some TAddress).
  cbv iota. rewrite is_address_lower. cbn [to_canonical_address].
  now rewrite CaseFacts.decode_hex_lower.
Qed.

Lemma abi_encode_all_rel (t1 t2 : list (string * pyval)) :
  Forall2 (fun a b => abi_encode (fst a) (snd a)
                      = abi_encode (fst b) (snd b)) t1 t2 ->
  abi_encode_all t1 = abi_encode_all t2.
Proof.
  induction 1 as [|[ta va] [tb vb] r1 r2 Hab _ IH]; [reflexivity|].
  cbn [abi_encode_all]. cbn [fst snd] in Hab. now rewrite Hab, IH.
Qed.

(** Two value maps whose fields go through [encode_field] alike, with
    equal words from [eth_abi.encode], have the same struct hash. *)
Lemma encode_fields_rel types fields (m1 m2 : pydict) :
  (forall f, In f fields ->
     match encode_field keccak types (ftype f) (Dict.get m1 (fname f)),
           encode_field keccak types (ftype f) (Dict.get m2 (fname f)) with
     | Ok a, Ok b => abi_encode (fst a) (snd a)
                     = abi_encode (fst b) (snd b)
     | Raise e1, Raise e2 => e1 = e2
     | _, _ => False
     end) ->
  match encode_fields keccak types fields m1,
        encode_fields keccak types fields m2 with
  | Ok t1, Ok t2 =>
      Forall2 (fun a b => abi_encode (fst a) (snd a)
                          = abi_encode (fst b) (snd b)) t1 t2
  | Raise e1, Raise e2 => e1 = e2
  | _, _ => False
  end.
Proof.
  induction fields as [|f r IH]; intros H; cbn [encode_fields]; [constructor|].
  assert (Hf := H f (or_introl eq_refl)).
  assert (Hr := IH (fun f' Hin => H f' (or_intror Hin))).
  destruct (encode_field keccak types (ftype f) (Dict.get m1 (fname f))) as [a|e1];
    destruct (encode_field keccak types (ftype f) (Dict.get m2 (fname f))) as [b|e2];
    cbn [bind]; try contradiction; [|exact Hf].
  destruct (encode_fields keccak types r m1) as [t1|e1];
    destruct (encode_fields keccak types r m2) as [t2|e2];
    cbn [bind]; try contradiction; [|exact Hr].
  now constructor.
Qed.

Lemma hash_struct_rel (m1 m2 : pydict) :
  (forall f, In f order_fields ->
     match encode_field keccak message_types (ftype f) (Dict.get m1 (fname f)),
           encode_field keccak message_types (ftype f) (Dict.get m2 (fname f)) with
     | Ok a, Ok b => abi_encode (fst a) (snd a)
                     = abi_encode (fst b) (snd b)
     | Raise e1, Raise e2 => e1 = e2
     | _, _ => False
     end) ->
  hash_struct keccak "Order" message_types (VDict m1)
  = hash_struct keccak "Order" message_types (VDict m2).
Proof.
  intros H. unfold hash_struct, encode_data. rewrite message_order_fields.
  assert (Hr := encode_fields_rel message_types order_fields m1 m2 H).
  destruct (encode_fields keccak message_types order_fields m1) as [t1|e1];
    destruct (encode_fields keccak message_types order_fields m2) as [t2|e2];
    cbn [bind]; try contradiction; [|now rewrite Hr].
  now rewrite (abi_encode_all_rel t1 t2 Hr).
Qed.

Variable sign_hash : bytes -> string -> result bytes.
Variable g : TryTx.globals.

Lemma sign_order_of_struct_hash (m1 m2 : pydict) :
  hash_struct keccak "Order" message_types (VDict m1)
  = hash_struct keccak "Order" message_types (VDict m2) ->
  TryTx.sign_order keccak sign_hash g m1 = TryTx.sign_order keccak sign_hash g m2.
Proof.
  intros H. apply sign_order_of_digest.
  unfold TryTx.digest, TryTx.typed_data, encode_typed_data.
  cbn [td_types td_primaryType td_domain td_message].
  fold message_types. unfold hash_eip712_message.
  rewrite message_primary_type. cbn [bind]. now rewrite H.
Qed.

End AddressCase.

(** X16: [sign_order] reads an address without its case.  Writing the
    text under [sellToken], [buyToken] or [receiver] in lower case, as
    the quote service writes it, instead of the checksum case that
    test1.py uses, or of any other case, changes neither the signature
    nor the exception of [sign_order]; the case of an address is not
    checked against its checksum. *)
Theorem sign_order_ignores_the_case_of_an_address
    (keccak : bytes -> bytes) (sign_hash : bytes -> string -> result bytes)
    (g : TryTx.globals) (order : pydict) (k a : string) :
  In k ["sellToken"; "buyToken"; "receiver"] ->
  TryTx.sign_order keccak sign_hash g (Dict.set order k (VStr (Text.lower a)))
  = TryTx.sign_order keccak sign_hash g (Dict.set order k (VStr a)).
Proof.
  intros Hk. apply sign_order_of_struct_hash. apply hash_struct_rel.
  intros f Hf.
  destruct (String.eqb_spec k (fname f)) as [Heq | Hne].
  - rewrite <- Heq, !DictFacts.get_set_eq.
    assert (Ht : ftype f = "address").
    { subst k. cbn in Hf.
      repeat (destruct Hf as [<- | Hf];
              [cbn in Hk |- *; try reflexivity; intuition discriminate|]).
      contradiction. }
    rewrite Ht. cbn. apply abi_encode_address_lower.
  - rewrite !(DictFacts.get_set_ne _ _ _ _ Hne).
    destruct (encode_field keccak message_types (ftype f)
                (Dict.get order (fname f))); reflexivity.
Qed.

(** The receiver in the case of a wrong checksum (the first letter in
    upper case) signs like the receiver in lower case. *)
Lemma sign_order_ignores_the_case_of_an_address_witness :
  let a := "0x2F8a528eb0de3b43fd9eb6f23d55c8d95fb7af98" in
  Text.lower a <> a /\
  to_checksum_address Keccak.keccak256 a <> Ok a /\
  Dict.get Scenario.order "receiver" = Some (VStr (Text.lower a)) /\
  TryTx.sign_order Keccak.keccak256 Secp256k1.sign_hash Scenario.g
    (Dict.set Scenario.order "receiver" (VStr (Text.lower a)))
  = TryTx.sign_order Keccak.keccak256 Secp256k1.sign_hash Scenario.g
      (Dict.set Scenario.order "receiver" (VStr a)).
Proof.
  intros a. split; [vm_compute; discriminate|].
  split; [vm_compute; discriminate|]. split; [reflexivity|].
  apply (sign_order_ignores_the_case_of_an_address
           Keccak.keccak256 Secp256k1.sign_hash Scenario.g Scenario.order
           "receiver" a).
  cbn. tauto.
Defined.

(* ===================================================================== *)
(** ** From the quote to the signature                                    *)
(* ===================================================================== *)

Section QuoteToSignature.

Variable keccak : bytes -> bytes.

(** The orders built from two quotes that agree on the eleven signed
    entries agree on the schema: [appData] is the same constant in
    both. *)
Lemma construct_order_agree q1 q2 (o1 o2 : pydict) :
  TryTx.construct_order keccak q1 = Ok o1 ->
  TryTx.construct_order keccak q2 = Ok o2 ->
  (forall k, In k signed_quote_keys ->
             TryTx.quote_field q1 k = TryTx.quote_field q2 k) ->
  agree_on_schema o1 o2.
Proof.
  intros H1 H2 Hq k Hk.
  destruct (construct_order_entries keccak _ _ H1) as (Ha1 & _ & _).
  destruct (construct_order_entries keccak _ _ H2) as (Ha2 & _ & _).
  destruct (construct_order_values keccak _ _ H1) as [Hv1 _].
  destruct (construct_order_values keccak _ _ H2) as [Hv2 _].
  assert (Hcopy : forall k', In k' signed_quote_keys ->
                             Dict.get o1 k' = Dict.get o2 k').
  { intros k' Hk'.
    assert (Hin : In k' quote_keys)
      by (cbn in Hk'; cbn; intuition (subst; tauto)).
    destruct (Hv1 k' Hin) as (v1 & Hf1 & ->).
    destruct (Hv2 k' Hin) as (v2 & Hf2 & ->).
    rewrite (Hq k' Hk'), Hf2 in Hf1. now injection Hf1 as ->. }
  cbn in Hk.
  repeat (destruct Hk as [<- | Hk];
          [first [ now rewrite Ha1, Ha2 | apply Hcopy; cbn; tauto ]|]).
  contradiction.
Qed.

End QuoteToSignature.

(** X17: what of the quote the signature covers.  When
    [construct_order] returns for two quote documents that agree on
    the eleven entries [sellToken], [buyToken], [sellAmount],
    [buyAmount], [validTo], [feeAmount], [kind], [partiallyFillable],
    [sellTokenBalance], [buyTokenBalance] and [receiver] of [quote],
    [sign_order] gives the two orders the same signature, or raises the
    same exception: the [from] of the quote and its [signingScheme],
    which both go into the submitted order, are not signed. *)
Theorem signature_covers_eleven_quote_entries
    (keccak : bytes -> bytes) (sign_hash : bytes -> string -> result bytes)
    (g : TryTx.globals) (q1 q2 : pyval) (o1 o2 : pydict) :
  TryTx.construct_order keccak q1 = Ok o1 ->
  TryTx.construct_order keccak q2 = Ok o2 ->
  (forall k, In k signed_quote_keys ->
             TryTx.quote_field q1 k = TryTx.quote_field q2 k) ->
  TryTx.sign_order keccak sign_hash g o1 = TryTx.sign_order keccak sign_hash g o2.
Proof.
  intros H1 H2 Hq. apply sign_order_agree.
  exact (construct_order_agree keccak q1 q2 o1 o2 H1 H2 Hq).
Qed.

Lemma order_from_other_value :
  TryTx.construct_order Keccak.keccak256 Scenario2.quote_data_from_other
  = Ok Scenario2.order_from_other.
Proof. vm_compute. reflexivity. Qed.

Lemma signature_covers_eleven_quote_entries_witness :
  Dict.get Scenario.order "from" <> Dict.get Scenario2.order_from_other "from" /\
  Dict.get Scenario.order "signingScheme"
  <> Dict.get Scenario2.order_from_other "signingScheme" /\
  TryTx.sign_order Keccak.keccak256 Secp256k1.sign_hash Scenario.g Scenario.order
  = TryTx.sign_order Keccak.keccak256 Secp256k1.sign_hash Scenario.g
      Scenario2.order_from_other.
Proof.
  split; [vm_compute; discriminate|]. split; [vm_compute; discriminate|].
  apply (signature_covers_eleven_quote_entries
           Keccak.keccak256 Secp256k1.sign_hash Scenario.g
           Scenario.quote_data Scenario2.quote_data_from_other
           Scenario.order Scenario2.order_from_other
           scenario_order_value order_from_other_value).
  intros k Hk. cbn in Hk.
  repeat (destruct Hk as [<- | Hk]; [reflexivity|]). contradiction.
Defined.

(** X18: [sign_order] reads a 32-byte field by its bytes: an order whose
    [appData], [kind], [sellTokenBalance] or [buyTokenBalance] is ["0x"]
    followed by the hex text of some bytes (as [construct_order] writes
    [appData]) gets the signature of the order that holds those bytes
    themselves (as test1.py writes the four fields), or raises the same
    exception. *)
Theorem sign_order_reads_0x_text_as_the_bytes
    (keccak : bytes -> bytes) (sign_hash : bytes -> string -> result bytes)
    (g : TryTx.globals) (order : pydict) (k : string) (b : bytes) :
  In k ["appData"; "kind"; "sellTokenBalance"; "buyTokenBalance"] ->
  TryTx.sign_order keccak sign_hash g (Dict.set order k (VStr ("0x" ++ Bytes.hex b)))
  = TryTx.sign_order keccak sign_hash g (Dict.set order k (VBytes b)).
Proof.
  intros Hk. apply sign_order_set_ext. intros f Hf Hname.
  assert (Ht : ftype f = "bytes32").
  { subst k. cbn in Hf.
    repeat (destruct Hf as [<- | Hf];
            [cbn in Hk |- *; try reflexivity; intuition discriminate|]).
    contradiction. }
  rewrite Ht. now rewrite encode_field_bytes32_0x_hex.
Qed.

Lemma sign_order_reads_0x_text_as_the_bytes_witness :
  TryTx.sign_order Keccak.keccak256 Secp256k1.sign_hash Scenario.g
    (Dict.set Scenario.order "appData"
       (VStr ("0x" ++ Bytes.hex Scenario.test1_body)))
  = TryTx.sign_order Keccak.keccak256 Secp256k1.sign_hash Scenario.g
      (Dict.set Scenario.order "appData" (VBytes Scenario.test1_body)).
Proof.
  apply (sign_order_reads_0x_text_as_the_bytes
           Keccak.keccak256 Secp256k1.sign_hash Scenario.g Scenario.order
           "appData" Scenario.test1_body).
  cbn. tauto.
Defined.
